(** * genai-telemetry: the auto-instrumentation core

    A shallow embedding of [genai_telemetry/instrumentation]: the generic
    patching utilities and the instrumentor life cycle of [base.py], the
    call wrappers of the five per-library instrumentors, and the registry
    and life-cycle controller of [auto.py].

    Python dictionaries are [gmap]s (or association lists where insertion
    order is observable), exceptions are values carrying their class and
    its bases, and code that can raise returns an [outcome]. *)

From stdpp Require Import gmap strings list.
From Stdlib Require Import ZArith QArith Qround Ascii.

Set Warnings "-register-all,-clear-no-such-hyp".
Local Open Scope string_scope.
Local Open Scope Z_scope.
Local Open Scope list_scope.

(** ** Python values, exceptions and outcomes *)

(** The Python values the wrappers look at: call arguments, responses,
    receivers and the fields of a span.  An object is its class name and
    its attributes. *)
Inductive pyval : Type :=
  | PNone
  | PBool (b : bool)
  | PInt (z : Z)
  | PFloat (q : Q)
  | PStr (s : string)
  | PList (items : list pyval)
  | PTuple (items : list pyval)
  | PDict (entries : list (string * pyval))
  | PObj (cls : string) (attrs : list (string * pyval)).

(** [v is not None] *)
Definition is_not_None (v : pyval) : bool :=
  match v with PNone => false | _ => true end.

(** An exception object: [type(e).__name__], the names of the classes its
    class derives from, and [str(e)]. *)
Record exn : Type := Exn {
  exn_type : string;
  exn_bases : list string;
  exn_str : string
}.

(** [isinstance(e, cls)], which is what an [except cls] clause tests. *)
Definition isinstance_exn (e : exn) (cls : string) : bool :=
  bool_decide (cls = exn_type e) || bool_decide (cls ∈ exn_bases e).

(** The result of running Python code: it returns a value or raises. *)
Inductive outcome (A : Type) : Type :=
  | Ret (a : A)
  | Raise (e : exn).
Arguments Ret {A} a.
Arguments Raise {A} e.

(** ** base.py: the generic interception utility *)

Module Base.

(** A patchable scope: a class or an instance of a class, which always
    has a [__module__].  [getattr] and [hasattr] see
    the scope's own attributes and those it inherits; [setattr] writes the
    scope's own attributes.  [V] is the type of attribute values (callables,
    compared by identity). *)
Record scope (V : Type) : Type := Scope {
  __module__ : string;
  __name__ : option string;
  type_name : string;
  own_attrs : gmap string V;
  inherited_attrs : gmap string V
}.
Arguments Scope {V}.
Arguments __module__ {V}.
Arguments __name__ {V}.
Arguments type_name {V}.
Arguments own_attrs {V}.
Arguments inherited_attrs {V}.

Section Patching.
Context {V : Type}.

Definition getattr (obj : scope V) (attr : string) : option V :=
  match own_attrs obj !! attr with
  | Some v => Some v
  | None => inherited_attrs obj !! attr
  end.

Definition hasattr (obj : scope V) (attr : string) : bool :=
  bool_decide (is_Some (getattr obj attr)).

Definition setattr (obj : scope V) (attr : string) (v : V) : scope V :=
  Scope (__module__ obj) (__name__ obj) (type_name obj)
        (<[attr := v]> (own_attrs obj)) (inherited_attrs obj).

(** [f"{obj.__module__}.{obj.__name__ if hasattr(obj, '__name__') else
    type(obj).__name__}.{method_name}"] *)
Definition patch_key (obj : scope V) (method_name : string) : string :=
  __module__ obj +:+ "." +:+
  (match __name__ obj with Some n => n | None => type_name obj end) +:+
  "." +:+ method_name.

(** [wrap_method(obj, method_name, wrapper_func, original_store)]: the
    result, and the scope and the store as the call leaves them. *)
Definition wrap_method (obj : scope V) (method_name : string)
    (wrapper_func : V -> V) (original_store : gmap string V)
    : bool * scope V * gmap string V :=
  match getattr obj method_name with
  | None => (false, obj, original_store)
  | Some original =>
      let key := patch_key obj method_name in
      let original_store := <[key := original]> original_store in
      let wrapped := wrapper_func original in
      (true, setattr obj method_name wrapped, original_store)
  end.

(** [unwrap_method(obj, method_name, original_store)] *)
Definition unwrap_method (obj : scope V) (method_name : string)
    (original_store : gmap string V) : bool * scope V * gmap string V :=
  let key := patch_key obj method_name in
  match original_store !! key with
  | Some original =>
      (true, setattr obj method_name original, delete key original_store)
  | None => (false, obj, original_store)
  end.

End Patching.

(** *** The capability probe and the instrumentor life cycle *)

Section Lifecycle.
(** [W] is the state of the Python process the instrumentors act on: the
    importable modules, the classes they patch and their patch stores. *)
Context {W : Type}.

(** [importlib.import_module], the interpreter's import machinery: it
    returns the module object or raises. *)
Variable import_module : string -> W -> outcome pyval * W.

(** [safe_import(module_name)]: only [ImportError] (and its subclasses) is
    handled. *)
Definition safe_import (module_name : string) (w : W) : outcome pyval * W :=
  match import_module module_name w with
  | (Ret m, w') => (Ret m, w')
  | (Raise e, w') =>
      if isinstance_exn e "ImportError" then (Ret PNone, w') else (Raise e, w')
  end.

(** [safe_import(a) is not None] *)
Definition probe_one (a : string) (w : W) : outcome bool * W :=
  match safe_import a w with
  | (Ret m, w') => (Ret (is_not_None m), w')
  | (Raise e, w') => (Raise e, w')
  end.

(** [safe_import(a) is not None or safe_import(b) is not None]: the second
    import is attempted only when the first yields [None]. *)
Definition probe_either (a b : string) (w : W) : outcome bool * W :=
  match probe_one a w with
  | (Ret true, w') => (Ret true, w')
  | (Ret false, w') => probe_one b w'
  | (Raise e, w') => (Raise e, w')
  end.

(** The five variants of [_check_installed]. *)
Definition OpenAIInstrumentor_check_installed := probe_one "openai".
Definition AnthropicInstrumentor_check_installed := probe_one "anthropic".
Definition LangChainInstrumentor_check_installed :=
  probe_either "langchain_core" "langchain".
Definition LlamaIndexInstrumentor_check_installed :=
  probe_either "llama_index" "llama_index.core".
Definition GoogleAIInstrumentor_check_installed :=
  probe_one "google.generativeai".

End Lifecycle.

(** The supported target libraries. *)
Inductive variant : Type := OpenAI | Anthropic | LangChain | LlamaIndex | Google.

Definition _check_installed_of {W : Type}
    (import_module : string -> W -> outcome pyval * W) (v : variant)
    : W -> outcome bool * W :=
  match v with
  | OpenAI => OpenAIInstrumentor_check_installed import_module
  | Anthropic => AnthropicInstrumentor_check_installed import_module
  | LangChain => LangChainInstrumentor_check_installed import_module
  | LlamaIndex => LlamaIndexInstrumentor_check_installed import_module
  | Google => GoogleAIInstrumentor_check_installed import_module
  end.

(** A subclass of [BaseInstrumentor]: its [__name__], its [name] property
    and its three abstract methods, which act on the process state. *)
Record InstrumentorClass (W : Type) : Type := {
  cls_name : string;
  name : string;
  _check_installed : W -> outcome bool * W;
  _instrument : W -> outcome unit * W;
  _uninstrument : W -> outcome unit * W
}.
Arguments cls_name {W}.
Arguments name {W}.
Arguments _check_installed {W}.
Arguments _instrument {W}.
Arguments _uninstrument {W}.

(** An instance: its class and its [_is_instrumented] attribute. *)
Record instrumentor (W : Type) : Type := Instrumentor {
  inst_class : InstrumentorClass W;
  _is_instrumented : bool
}.
Arguments Instrumentor {W}.
Arguments inst_class {W}.
Arguments _is_instrumented {W}.

(** [instrumentor_class()]: the class attribute [_is_instrumented = False]. *)
Definition new_instrumentor {W} (c : InstrumentorClass W) : instrumentor W :=
  Instrumentor c false.

Definition set_is_instrumented {W} (self : instrumentor W) (b : bool)
    : instrumentor W :=
  Instrumentor (inst_class self) b.

(** [BaseInstrumentor.instrument]: the result, the instance and the process
    state as the call leaves them. *)
Definition instrument {W} (self : instrumentor W) (w : W)
    : outcome bool * instrumentor W * W :=
  if _is_instrumented self then (Ret true, self, w)
  else
    match _check_installed (inst_class self) w with
    | (Raise e, w1) => (Raise e, self, w1)
    | (Ret false, w1) => (Ret false, self, w1)
    | (Ret true, w1) =>
        match _instrument (inst_class self) w1 with
        | (Ret _, w2) => (Ret true, set_is_instrumented self true, w2)
        | (Raise e, w2) =>
            if isinstance_exn e "Exception" then (Ret false, self, w2)
            else (Raise e, self, w2)
        end
    end.

(** [BaseInstrumentor.uninstrument] *)
Definition uninstrument {W} (self : instrumentor W) (w : W)
    : outcome bool * instrumentor W * W :=
  if negb (_is_instrumented self) then (Ret true, self, w)
  else
    match _uninstrument (inst_class self) w with
    | (Ret _, w1) => (Ret true, set_is_instrumented self false, w1)
    | (Raise e, w1) =>
        if isinstance_exn e "Exception" then (Ret false, self, w1)
        else (Raise e, self, w1)
    end.

(** [BaseInstrumentor.is_instrumented] *)
Definition is_instrumented {W} (self : instrumentor W) : bool :=
  _is_instrumented self.

End Base.

(** ** The Python operations the call wrappers rely on *)

Module Py.

(** [str.lower()] on ASCII letters. *)
Definition lower_ascii (c : ascii) : ascii :=
  let n := nat_of_ascii c in
  if ((65 <=? n)%nat && (n <=? 90)%nat)%bool then ascii_of_nat (n + 32) else c.

Fixpoint lower (s : string) : string :=
  match s with
  | EmptyString => EmptyString
  | String c s' => String (lower_ascii c) (lower s')
  end.

(** [sub in s] on strings. *)
Fixpoint contains (sub s : string) : bool :=
  String.prefix sub s ||
  match s with
  | EmptyString => false
  | String _ s' => contains sub s'
  end.

(** Truth value of an object, as [if x:] tests it.  An instance of a
    class without [__bool__] and [__len__] is true. *)
Definition truthy (v : pyval) : bool :=
  match v with
  | PNone => false
  | PBool b => b
  | PInt z => negb (z =? 0)
  | PFloat q => negb (Qeq_bool q 0)
  | PStr s => negb (String.eqb s "")
  | PList l | PTuple l => negb (bool_decide (length l = 0%nat))
  | PDict d => negb (bool_decide (length d = 0%nat))
  | PObj _ _ => true
  end.

(** [a or b] *)
Definition or_else (a b : pyval) : pyval := if truthy a then a else b.

(** [type(v).__name__] *)
Definition type_name (v : pyval) : string :=
  match v with
  | PNone => "NoneType"
  | PBool _ => "bool"
  | PInt _ => "int"
  | PFloat _ => "float"
  | PStr _ => "str"
  | PList _ => "list"
  | PTuple _ => "tuple"
  | PDict _ => "dict"
  | PObj cls _ => cls
  end.

(** [isinstance(v, list)] *)
Definition is_list (v : pyval) : bool :=
  match v with PList _ => true | _ => false end.

Fixpoint assoc (k : string) (l : list (string * pyval)) : option pyval :=
  match l with
  | [] => None
  | (k', v) :: l' => if String.eqb k k' then Some v else assoc k l'
  end.

(** Attribute lookup on a value.  None of the attribute names the wrappers
    probe exists on a built-in value, so only objects answer. *)
Definition getattr_opt (v : pyval) (attr : string) : option pyval :=
  match v with
  | PObj _ attrs => assoc attr attrs
  | _ => None
  end.

(** [hasattr(v, attr)] *)
Definition hasattr (v : pyval) (attr : string) : bool :=
  bool_decide (is_Some (getattr_opt v attr)).

(** [getattr(v, attr, default)] *)
Definition getattr (v : pyval) (attr : string) (dflt : pyval) : pyval :=
  default dflt (getattr_opt v attr).

Definition standard_error (cls msg : string) : exn :=
  Exn cls ["Exception"; "BaseException"; "object"] msg.

(** [d.get(k, default)]; a value without a [get] method raises
    [AttributeError]. *)
Definition dict_get (d : pyval) (k : string) (dflt : pyval) : outcome pyval :=
  match d with
  | PDict entries => Ret (default dflt (assoc k entries))
  | _ =>
      Raise (standard_error "AttributeError"
        ("'" +:+ type_name d +:+ "' object has no attribute 'get'"))
  end.

(** [len(v)]; a value without [__len__] raises [TypeError]. *)
Definition len (v : pyval) : outcome pyval :=
  match v with
  | PStr s => Ret (PInt (Z.of_nat (String.length s)))
  | PList l | PTuple l => Ret (PInt (Z.of_nat (length l)))
  | PDict d => Ret (PInt (Z.of_nat (length d)))
  | _ =>
      Raise (standard_error "TypeError"
        ("object of type '" +:+ type_name v +:+ "' has no len()"))
  end.

Definition as_number (v : pyval) : option (Z + Q) :=
  match v with
  | PBool b => Some (inl (if b then 1 else 0))
  | PInt z => Some (inl z)
  | PFloat q => Some (inr q)
  | _ => None
  end.

(** [a + b] *)
Definition add (a b : pyval) : outcome pyval :=
  match as_number a, as_number b with
  | Some (inl x), Some (inl y) => Ret (PInt (x + y))
  | Some (inl x), Some (inr y) => Ret (PFloat (inject_Z x + y))
  | Some (inr x), Some (inl y) => Ret (PFloat (x + inject_Z y))
  | Some (inr x), Some (inr y) => Ret (PFloat (x + y))
  | _, _ =>
      match a, b with
      | PStr x, PStr y => Ret (PStr (x +:+ y))
      | PList x, PList y => Ret (PList (x ++ y))
      | PTuple x, PTuple y => Ret (PTuple (x ++ y))
      | _, _ =>
          Raise (standard_error "TypeError"
            ("unsupported operand type(s) for +: '" +:+ type_name a +:+
             "' and '" +:+ type_name b +:+ "'"))
      end
  end.

(** Rounding to the nearest integer, ties to the even one. *)
Definition round_half_even (x : Q) : Z :=
  let f := Qfloor x in
  let r := (x - inject_Z f)%Q in
  match (r ?= 1 # 2)%Q with
  | Lt => f
  | Gt => f + 1
  | Eq => if Z.even f then f else f + 1
  end.

(** [round(x, 2)], with the rationals standing for Python's floats. *)
Definition round2 (x : Q) : Q := (round_half_even (x * 100) # 100)%Q.

End Py.

(** ** The call wrappers of the five instrumentors *)

Module Wrappers.

(** What a telemetry object receives. *)
Inductive sink_event : Type :=
  | SendSpan (span_kwargs : gmap string pyval)
  | NewTrace.

(** The state an intercepted call runs in: which telemetry object is
    configured (by identity), every event sent to a telemetry object so
    far, the clock [time.time()] reads, and the state [E] of everything
    else, the wrapped library included. *)
Record World (E : Type) : Type := MkWorld {
  w_telemetry : option nat;
  w_log : list (nat * sink_event);
  w_now : Q;
  w_ext : E
}.
Arguments MkWorld {E}.
Arguments w_telemetry {E}.
Arguments w_log {E}.
Arguments w_now {E}.
Arguments w_ext {E}.

(** What the wrappers take from outside the instrumentation package: the
    built-in [str] on values that are not strings, and
    [genai_telemetry.core.utils.extract_tokens_from_response]. *)
Record Externals : Type := {
  py_str : pyval -> string;
  extract_tokens_from_response : pyval -> Z * Z
}.

(** Code that reads and writes the world and may raise. *)
Definition M (E A : Type) : Type := World E -> outcome A * World E.

Definition ret {E A} (a : A) : M E A := fun w => (Ret a, w).

Definition raise {E A} (e : exn) : M E A := fun w => (Raise e, w).

Definition bind {E A B} (c : M E A) (k : A -> M E B) : M E B :=
  fun w =>
    match c w with
    | (Ret a, w') => k a w'
    | (Raise e, w') => (Raise e, w')
    end.

Definition lift {E A} (o : outcome A) : M E A := fun w => (o, w).

Notation "x <- c ;; k" := (bind c (fun x => k))
  (at level 100, c at next level, right associativity).

(** [try: body  finally: handler]: the handler sees how the body ended;
    the body's outcome stands unless the handler itself raises. *)
Definition try_finally {E A} (body : M E A) (handler : outcome A -> M E unit)
    : M E A :=
  fun w =>
    let '(o, w1) := body w in
    match handler o w1 with
    | (Ret _, w2) => (o, w2)
    | (Raise e, w2) => (Raise e, w2)
    end.

(** The local [error_info] after [except Exception as e: error_info = e;
    raise]: set only when the body raised an instance of [Exception]. *)
Definition caught_Exception {A} (o : outcome A) : option exn :=
  match o with
  | Raise e => if isinstance_exn e "Exception" then Some e else None
  | Ret _ => None
  end.

(** The local [response] (or [result]), initialised to [None] and assigned
    only when the call returned. *)
Definition returned (o : outcome pyval) : pyval :=
  match o with Ret v => v | Raise _ => PNone end.

(** [await c]: the suspension is not modelled. *)
Definition await {E A} (c : M E A) : M E A := c.

Definition invoke {E A} (is_async : bool) (c : M E A) : M E A :=
  if is_async then await c else c.

(** [time.time()] *)
Definition time_time {E} : M E Q := fun w => (Ret (w_now w), w).

(** [round((time.time() - start_time) * 1000, 2)] *)
Definition elapsed_ms {E} (start_time : Q) : M E pyval :=
  now <- time_time ;;
  ret (PFloat (Py.round2 ((now - start_time) * 1000))).

(** Modelled from the spec: [genai_telemetry.core.telemetry.get_telemetry]
    is not among the sources.  Resolution yields the configured telemetry
    object, and fails with the [RuntimeError] that [_get_telemetry] handles
    when telemetry was never configured. *)
Definition get_telemetry {E} : M E nat :=
  fun w =>
    match w_telemetry w with
    | Some t => (Ret t, w)
    | None => (Raise (Py.standard_error "RuntimeError" "telemetry is not set up"), w)
    end.

(** Modelled from the spec: [send_span] of the telemetry object, which
    never raises into the wrapper. *)
Definition send_span {E} (telemetry : nat) (span_kwargs : gmap string pyval)
    : M E unit :=
  fun w =>
    (Ret tt, MkWorld (w_telemetry w) (w_log w ++ [(telemetry, SendSpan span_kwargs)])
                     (w_now w) (w_ext w)).

(** Modelled from the spec: [new_trace] of the telemetry object. *)
Definition new_trace {E} (telemetry : nat) : M E unit :=
  fun w =>
    (Ret tt, MkWorld (w_telemetry w) (w_log w ++ [(telemetry, NewTrace)])
                     (w_now w) (w_ext w)).

(** [_get_telemetry], the same method in the five instrumentors. *)
Definition _get_telemetry {E} : M E (option nat) :=
  fun w =>
    match get_telemetry w with
    | (Ret t, w') => (Ret (Some t), w')
    | (Raise e, w') =>
        if isinstance_exn e "RuntimeError" then (Ret None, w') else (Raise e, w')
    end.

(** A callable taking [*args, **kwargs], and one whose first parameter is
    [self_instance]. *)
Definition pycall (E : Type) : Type :=
  list pyval -> gmap string pyval -> M E pyval.
Definition pymethod (E : Type) : Type :=
  pyval -> list pyval -> gmap string pyval -> M E pyval.

(** [kwargs.get(k, default)] *)
Definition kwargs_get (kwargs : gmap string pyval) (k : string) (dflt : pyval)
    : pyval :=
  default dflt (kwargs !! k).

(** [v.attr], read after [hasattr(v, attr)] succeeded. *)
Definition attr (v : pyval) (a : string) : pyval := Py.getattr v a PNone.

(** The [if error_info:] block of the LLM, chain and agent wrappers; an
    exception object is true, [None] is not. *)
Definition record_error (error_info : option exn)
    (span_kwargs : gmap string pyval) : gmap string pyval :=
  match error_info with
  | Some e =>
      <["error_type" := PStr (exn_type e)]>
        (<["error_message" := PStr (exn_str e)]>
           (<["is_error" := PInt 1]> (<["status" := PStr "ERROR"]> span_kwargs)))
  | None => span_kwargs
  end.

(** The [if error_info:] block of the embedding, retriever and tool
    wrappers, which sets no ["error_type"]. *)
Definition record_error_message (error_info : option exn)
    (span_kwargs : gmap string pyval) : gmap string pyval :=
  match error_info with
  | Some e =>
      <["error_message" := PStr (exn_str e)]>
        (<["is_error" := PInt 1]> (<["status" := PStr "ERROR"]> span_kwargs))
  | None => span_kwargs
  end.

Section Factories.
Context {E : Type}.
Variable env : Externals.

(** [str(v)] *)
Definition str (v : pyval) : string :=
  match v with PStr s => s | _ => py_str env v end.

(** The result of [extract_tokens_from_response], as Python integers. *)
Definition extract_tokens (response : pyval) : pyval * pyval :=
  let '(i, o) := extract_tokens_from_response env response in (PInt i, PInt o).

(** *** openai_inst.py *)

(** [OpenAIInstrumentor._create_chat_wrapper]; [async_wrapper] and
    [sync_wrapper] differ by the [await] only. *)
Definition OpenAI_create_chat_wrapper (original_method : pycall E)
    (is_async : bool) : pycall E :=
  fun args kwargs =>
    telemetry <- _get_telemetry ;;
    match telemetry with
    | None => invoke is_async (original_method args kwargs)
    | Some telemetry =>
        let model := kwargs_get kwargs "model" (PStr "unknown") in
        start_time <- time_time ;;
        try_finally (invoke is_async (original_method args kwargs)) (fun o =>
          let error_info := caught_Exception o in
          let response := returned o in
          duration_ms <- elapsed_ms start_time ;;
          let '(input_tokens, output_tokens) :=
            if is_not_None response then extract_tokens response
            else (PInt 0, PInt 0) in
          total_tokens <- lift (Py.add input_tokens output_tokens) ;;
          let span_kwargs : gmap string pyval := list_to_map [
            ("span_type", PStr "LLM");
            ("name", PStr "openai.chat.completions.create");
            ("model_name", model);
            ("model_provider", PStr "openai");
            ("duration_ms", duration_ms);
            ("input_tokens", input_tokens);
            ("output_tokens", output_tokens);
            ("total_tokens", total_tokens)] in
          send_span telemetry (record_error error_info span_kwargs))
    end.

(** [OpenAIInstrumentor._create_embedding_wrapper] *)
Definition OpenAI_create_embedding_wrapper (original_method : pycall E)
    (is_async : bool) : pycall E :=
  fun args kwargs =>
    telemetry <- _get_telemetry ;;
    match telemetry with
    | None => invoke is_async (original_method args kwargs)
    | Some telemetry =>
        let model := kwargs_get kwargs "model" (PStr "text-embedding-ada-002") in
        start_time <- time_time ;;
        try_finally (invoke is_async (original_method args kwargs)) (fun o =>
          let error_info := caught_Exception o in
          let response := returned o in
          duration_ms <- elapsed_ms start_time ;;
          let input_tokens :=
            if is_not_None response && Py.hasattr response "usage"
            then Py.or_else (Py.getattr (attr response "usage") "total_tokens" (PInt 0))
                            (PInt 0)
            else PInt 0 in
          let span_kwargs : gmap string pyval := list_to_map [
            ("span_type", PStr "EMBEDDING");
            ("name", PStr "openai.embeddings.create");
            ("embedding_model", model);
            ("duration_ms", duration_ms);
            ("input_tokens", input_tokens)] in
          send_span telemetry (record_error_message error_info span_kwargs))
    end.

(** *** anthropic_inst.py *)

(** [AnthropicInstrumentor._create_messages_wrapper] *)
Definition Anthropic_create_messages_wrapper (original_method : pycall E)
    (is_async : bool) : pycall E :=
  fun args kwargs =>
    telemetry <- _get_telemetry ;;
    match telemetry with
    | None => invoke is_async (original_method args kwargs)
    | Some telemetry =>
        let model := kwargs_get kwargs "model" (PStr "unknown") in
        start_time <- time_time ;;
        try_finally (invoke is_async (original_method args kwargs)) (fun o =>
          let error_info := caught_Exception o in
          let response := returned o in
          duration_ms <- elapsed_ms start_time ;;
          let '(input_tokens, output_tokens) :=
            if is_not_None response then extract_tokens response
            else (PInt 0, PInt 0) in
          total_tokens <- lift (Py.add input_tokens output_tokens) ;;
          let span_kwargs : gmap string pyval := list_to_map [
            ("span_type", PStr "LLM");
            ("name", PStr "anthropic.messages.create");
            ("model_name", model);
            ("model_provider", PStr "anthropic");
            ("duration_ms", duration_ms);
            ("input_tokens", input_tokens);
            ("output_tokens", output_tokens);
            ("total_tokens", total_tokens)] in
          send_span telemetry (record_error error_info span_kwargs))
    end.

(** *** google_inst.py *)

(** The token counts [_create_generate_wrapper] reads from a response. *)
Definition Google_usage_tokens (response : pyval) : pyval * pyval :=
  if is_not_None response && Py.hasattr response "usage_metadata" then
    let usage := attr response "usage_metadata" in
    (Py.or_else (Py.getattr usage "prompt_token_count" (PInt 0)) (PInt 0),
     Py.or_else (Py.getattr usage "candidates_token_count" (PInt 0)) (PInt 0))
  else (PInt 0, PInt 0).

(** [GoogleAIInstrumentor._create_generate_wrapper] *)
Definition Google_create_generate_wrapper (original_method : pycall E)
    (is_async : bool) : pymethod E :=
  fun self_instance args kwargs =>
    telemetry <- _get_telemetry ;;
    match telemetry with
    | None => invoke is_async (original_method (self_instance :: args) kwargs)
    | Some telemetry =>
        let model_name := Py.getattr self_instance "model_name" (PStr "gemini") in
        start_time <- time_time ;;
        try_finally (invoke is_async (original_method (self_instance :: args) kwargs))
          (fun o =>
          let error_info := caught_Exception o in
          let response := returned o in
          duration_ms <- elapsed_ms start_time ;;
          let '(input_tokens, output_tokens) := Google_usage_tokens response in
          total_tokens <- lift (Py.add input_tokens output_tokens) ;;
          let span_kwargs : gmap string pyval := list_to_map [
            ("span_type", PStr "LLM");
            ("name", PStr "google.generate_content");
            ("model_name", model_name);
            ("model_provider", PStr "google");
            ("duration_ms", duration_ms);
            ("input_tokens", input_tokens);
            ("output_tokens", output_tokens);
            ("total_tokens", total_tokens)] in
          send_span telemetry (record_error error_info span_kwargs))
    end.

(** [GoogleAIInstrumentor._create_embed_wrapper] *)
Definition Google_create_embed_wrapper (original_method : pycall E) : pycall E :=
  fun args kwargs =>
    telemetry <- _get_telemetry ;;
    match telemetry with
    | None => original_method args kwargs
    | Some telemetry =>
        let model := kwargs_get kwargs "model" (PStr "embedding-001") in
        start_time <- time_time ;;
        try_finally (original_method args kwargs) (fun o =>
          let error_info := caught_Exception o in
          duration_ms <- elapsed_ms start_time ;;
          let span_kwargs : gmap string pyval := list_to_map [
            ("span_type", PStr "EMBEDDING");
            ("name", PStr "google.embed_content");
            ("embedding_model", model);
            ("duration_ms", duration_ms)] in
          send_span telemetry (record_error_message error_info span_kwargs))
    end.

(** *** langchain_inst.py *)

(** The loop of [_extract_model_info] over the candidate attributes: the
    first one that is present and true gives the model name. *)
Fixpoint first_model_name (instance : pyval) (candidates : list string)
    : option string :=
  match candidates with
  | [] => None
  | a :: rest =>
      if Py.hasattr instance a && Py.truthy (attr instance a)
      then Some (str (attr instance a))
      else first_model_name instance rest
  end.

Record model_info : Type := {
  model_name : string;
  model_provider : string
}.

(** [LangChainInstrumentor._extract_model_info] *)
Definition _extract_model_info (instance : pyval) : model_info :=
  let model_name :=
    default "unknown"
      (first_model_name instance ["model_name"; "model"; "model_id"; "repo_id"]) in
  let class_name := Py.lower (Py.type_name instance) in
  let model_provider :=
    if Py.contains "openai" class_name || Py.contains "gpt" class_name
    then "openai"
    else if Py.contains "anthropic" class_name || Py.contains "claude" class_name
    then "anthropic"
    else if Py.contains "cohere" class_name then "cohere"
    else if Py.contains "huggingface" class_name || Py.contains "hf" class_name
    then "huggingface"
    else if Py.contains "google" class_name || Py.contains "gemini" class_name
            || Py.contains "palm" class_name
    then "google"
    else if Py.contains "bedrock" class_name then "aws_bedrock"
    else if Py.contains "ollama" class_name then "ollama"
    else if Py.contains "mistral" class_name then "mistral"
    else "langchain" in
  {| model_name := model_name; model_provider := model_provider |}.

(** The body shared by [_create_llm_invoke_wrapper] and
    [_create_llm_ainvoke_wrapper], which differ by the [await] and by the
    last component of the span name. *)
Definition LangChain_llm_wrapper (is_async : bool) (method : string)
    (original_method : pycall E) : pymethod E :=
  fun self_instance args kwargs =>
    telemetry <- _get_telemetry ;;
    match telemetry with
    | None => invoke is_async (original_method (self_instance :: args) kwargs)
    | Some telemetry =>
        let model_info := _extract_model_info self_instance in
        start_time <- time_time ;;
        try_finally (invoke is_async (original_method (self_instance :: args) kwargs))
          (fun o =>
          let error_info := caught_Exception o in
          let response := returned o in
          duration_ms <- elapsed_ms start_time ;;
          let '(input_tokens, output_tokens) :=
            if is_not_None response then extract_tokens response
            else (PInt 0, PInt 0) in
          total_tokens <- lift (Py.add input_tokens output_tokens) ;;
          let span_kwargs : gmap string pyval := list_to_map [
            ("span_type", PStr "LLM");
            ("name", PStr ("langchain." +:+ Py.type_name self_instance +:+ "." +:+ method));
            ("model_name", PStr (model_name model_info));
            ("model_provider", PStr (model_provider model_info));
            ("duration_ms", duration_ms);
            ("input_tokens", input_tokens);
            ("output_tokens", output_tokens);
            ("total_tokens", total_tokens)] in
          send_span telemetry (record_error error_info span_kwargs))
    end.

(** [LangChainInstrumentor._create_llm_invoke_wrapper] *)
Definition LangChain_create_llm_invoke_wrapper (original_method : pycall E)
    : pymethod E :=
  LangChain_llm_wrapper false "invoke" original_method.

(** [LangChainInstrumentor._create_llm_ainvoke_wrapper] *)
Definition LangChain_create_llm_ainvoke_wrapper (original_method : pycall E)
    : pymethod E :=
  LangChain_llm_wrapper true "ainvoke" original_method.

(** [LangChainInstrumentor._create_chain_invoke_wrapper] *)
Definition LangChain_create_chain_invoke_wrapper (original_method : pycall E)
    : pymethod E :=
  fun self_instance args kwargs =>
    telemetry <- _get_telemetry ;;
    match telemetry with
    | None => original_method (self_instance :: args) kwargs
    | Some telemetry =>
        _ <- new_trace telemetry ;;
        let chain_name :=
          Py.getattr self_instance "name" (PStr (Py.type_name self_instance)) in
        start_time <- time_time ;;
        try_finally (original_method (self_instance :: args) kwargs) (fun o =>
          let error_info := caught_Exception o in
          duration_ms <- elapsed_ms start_time ;;
          let span_kwargs : gmap string pyval := list_to_map [
            ("span_type", PStr "CHAIN");
            ("name", PStr ("langchain." +:+ str chain_name +:+ ".invoke"));
            ("duration_ms", duration_ms)] in
          send_span telemetry (record_error error_info span_kwargs))
    end.

(** The vector store name of [_create_retriever_invoke_wrapper]. *)
Definition LangChain_vector_store (self_instance : pyval) : string :=
  if Py.hasattr self_instance "vectorstore"
  then Py.type_name (attr self_instance "vectorstore")
  else if Py.hasattr self_instance "vector_store"
  then Py.type_name (attr self_instance "vector_store")
  else "unknown".

(** [len(result) if result and isinstance(result, list) else 0] *)
Definition LangChain_docs_count (result : pyval) : outcome pyval :=
  if Py.truthy result && Py.is_list result then Py.len result else Ret (PInt 0).

(** [LangChainInstrumentor._create_retriever_invoke_wrapper] *)
Definition LangChain_create_retriever_invoke_wrapper (original_method : pycall E)
    : pymethod E :=
  fun self_instance args kwargs =>
    telemetry <- _get_telemetry ;;
    match telemetry with
    | None => original_method (self_instance :: args) kwargs
    | Some telemetry =>
        let retriever_name := Py.type_name self_instance in
        start_time <- time_time ;;
        try_finally (original_method (self_instance :: args) kwargs) (fun o =>
          let error_info := caught_Exception o in
          let result := returned o in
          duration_ms <- elapsed_ms start_time ;;
          docs_count <- lift (LangChain_docs_count result) ;;
          let vector_store := LangChain_vector_store self_instance in
          let span_kwargs : gmap string pyval := list_to_map [
            ("span_type", PStr "RETRIEVER");
            ("name", PStr ("langchain." +:+ retriever_name +:+ ".invoke"));
            ("vector_store", PStr vector_store);
            ("documents_retrieved", docs_count);
            ("duration_ms", duration_ms)] in
          send_span telemetry (record_error_message error_info span_kwargs))
    end.

(** [LangChainInstrumentor._create_embeddings_wrapper] *)
Definition LangChain_create_embeddings_wrapper (original_method : pycall E)
    (method_name : string) : pymethod E :=
  fun self_instance args kwargs =>
    telemetry <- _get_telemetry ;;
    match telemetry with
    | None => original_method (self_instance :: args) kwargs
    | Some telemetry =>
        let model_name := Py.getattr self_instance "model" (PStr "unknown") in
        start_time <- time_time ;;
        try_finally (original_method (self_instance :: args) kwargs) (fun o =>
          let error_info := caught_Exception o in
          duration_ms <- elapsed_ms start_time ;;
          let span_kwargs : gmap string pyval := list_to_map [
            ("span_type", PStr "EMBEDDING");
            ("name", PStr ("langchain." +:+ Py.type_name self_instance +:+ "." +:+ method_name));
            ("embedding_model", model_name);
            ("duration_ms", duration_ms)] in
          send_span telemetry (record_error_message error_info span_kwargs))
    end.

(** [LangChainInstrumentor._create_tool_invoke_wrapper] *)
Definition LangChain_create_tool_invoke_wrapper (original_method : pycall E)
    : pymethod E :=
  fun self_instance args kwargs =>
    telemetry <- _get_telemetry ;;
    match telemetry with
    | None => original_method (self_instance :: args) kwargs
    | Some telemetry =>
        let tool_name :=
          Py.getattr self_instance "name" (PStr (Py.type_name self_instance)) in
        start_time <- time_time ;;
        try_finally (original_method (self_instance :: args) kwargs) (fun o =>
          let error_info := caught_Exception o in
          duration_ms <- elapsed_ms start_time ;;
          let span_kwargs : gmap string pyval := list_to_map [
            ("span_type", PStr "TOOL");
            ("name", PStr "langchain.tool.invoke");
            ("tool_name", tool_name);
            ("duration_ms", duration_ms)] in
          send_span telemetry (record_error_message error_info span_kwargs))
    end.

(** [LangChainInstrumentor._create_agent_invoke_wrapper] *)
Definition LangChain_create_agent_invoke_wrapper (original_method : pycall E)
    : pymethod E :=
  fun self_instance args kwargs =>
    telemetry <- _get_telemetry ;;
    match telemetry with
    | None => original_method (self_instance :: args) kwargs
    | Some telemetry =>
        _ <- new_trace telemetry ;;
        let agent_name :=
          Py.getattr self_instance "name" (PStr (Py.type_name self_instance)) in
        start_time <- time_time ;;
        try_finally (original_method (self_instance :: args) kwargs) (fun o =>
          let error_info := caught_Exception o in
          duration_ms <- elapsed_ms start_time ;;
          let span_kwargs : gmap string pyval := list_to_map [
            ("span_type", PStr "AGENT");
            ("name", PStr ("langchain." +:+ str agent_name +:+ ".invoke"));
            ("agent_name", agent_name);
            ("duration_ms", duration_ms)] in
          send_span telemetry (record_error error_info span_kwargs))
    end.

(** *** llamaindex_inst.py *)

(** The body shared by [_create_query_wrapper] and [_create_aquery_wrapper],
    which differ by the [await] and by the last component of the span
    name. *)
Definition LlamaIndex_query_wrapper (is_async : bool) (method : string)
    (original_method : pycall E) : pymethod E :=
  fun self_instance args kwargs =>
    telemetry <- _get_telemetry ;;
    match telemetry with
    | None => invoke is_async (original_method (self_instance :: args) kwargs)
    | Some telemetry =>
        _ <- new_trace telemetry ;;
        let engine_name := Py.type_name self_instance in
        start_time <- time_time ;;
        try_finally (invoke is_async (original_method (self_instance :: args) kwargs))
          (fun o =>
          let error_info := caught_Exception o in
          duration_ms <- elapsed_ms start_time ;;
          let span_kwargs : gmap string pyval := list_to_map [
            ("span_type", PStr "CHAIN");
            ("name", PStr ("llamaindex." +:+ engine_name +:+ "." +:+ method));
            ("duration_ms", duration_ms)] in
          send_span telemetry (record_error error_info span_kwargs))
    end.

(** [LlamaIndexInstrumentor._create_query_wrapper] *)
Definition LlamaIndex_create_query_wrapper (original_method : pycall E)
    : pymethod E :=
  LlamaIndex_query_wrapper false "query" original_method.

(** [LlamaIndexInstrumentor._create_aquery_wrapper] *)
Definition LlamaIndex_create_aquery_wrapper (original_method : pycall E)
    : pymethod E :=
  LlamaIndex_query_wrapper true "aquery" original_method.

(** [len(result) if result else 0] *)
Definition LlamaIndex_docs_count (result : pyval) : outcome pyval :=
  if Py.truthy result then Py.len result else Ret (PInt 0).

(** [LlamaIndexInstrumentor._create_retrieve_wrapper] *)
Definition LlamaIndex_create_retrieve_wrapper (original_method : pycall E)
    : pymethod E :=
  fun self_instance args kwargs =>
    telemetry <- _get_telemetry ;;
    match telemetry with
    | None => original_method (self_instance :: args) kwargs
    | Some telemetry =>
        let retriever_name := Py.type_name self_instance in
        start_time <- time_time ;;
        try_finally (original_method (self_instance :: args) kwargs) (fun o =>
          let error_info := caught_Exception o in
          let result := returned o in
          duration_ms <- elapsed_ms start_time ;;
          docs_count <- lift (LlamaIndex_docs_count result) ;;
          let span_kwargs : gmap string pyval := list_to_map [
            ("span_type", PStr "RETRIEVER");
            ("name", PStr ("llamaindex." +:+ retriever_name +:+ ".retrieve"));
            ("vector_store", PStr "llamaindex");
            ("documents_retrieved", docs_count);
            ("duration_ms", duration_ms)] in
          send_span telemetry (record_error_message error_info span_kwargs))
    end.

(** The token counts the LLM wrappers read from a LlamaIndex response:
    from [response.raw] when there is one, else from the ["usage"] entry of
    [response.additional_kwargs]. *)
Definition LlamaIndex_usage_tokens (response : pyval) : outcome (pyval * pyval) :=
  if is_not_None response then
    if Py.hasattr response "raw" then Ret (extract_tokens (attr response "raw"))
    else if Py.hasattr response "additional_kwargs" then
      match Py.dict_get (attr response "additional_kwargs") "usage" (PDict []) with
      | Raise e => Raise e
      | Ret usage =>
          match Py.dict_get usage "prompt_tokens" (PInt 0),
                Py.dict_get usage "input_tokens" (PInt 0),
                Py.dict_get usage "completion_tokens" (PInt 0),
                Py.dict_get usage "output_tokens" (PInt 0) with
          | Ret p, Ret i, Ret c, Ret o => Ret (Py.or_else p i, Py.or_else c o)
          | Raise e, _, _, _ | _, Raise e, _, _
          | _, _, Raise e, _ | _, _, _, Raise e => Raise e
          end
      end
    else Ret (PInt 0, PInt 0)
  else Ret (PInt 0, PInt 0).

(** The body shared by [_create_llm_complete_wrapper] and
    [_create_llm_chat_wrapper], which differ by the last component of the
    span name. *)
Definition LlamaIndex_llm_wrapper (method : string) (original_method : pycall E)
    : pymethod E :=
  fun self_instance args kwargs =>
    telemetry <- _get_telemetry ;;
    match telemetry with
    | None => original_method (self_instance :: args) kwargs
    | Some telemetry =>
        let model_name := Py.getattr self_instance "model" (PStr "unknown") in
        start_time <- time_time ;;
        try_finally (original_method (self_instance :: args) kwargs) (fun o =>
          let error_info := caught_Exception o in
          let response := returned o in
          duration_ms <- elapsed_ms start_time ;;
          tokens <- lift (LlamaIndex_usage_tokens response) ;;
          let '(input_tokens, output_tokens) := tokens in
          total_tokens <- lift (Py.add input_tokens output_tokens) ;;
          let span_kwargs : gmap string pyval := list_to_map [
            ("span_type", PStr "LLM");
            ("name", PStr ("llamaindex." +:+ Py.type_name self_instance +:+ "." +:+ method));
            ("model_name", model_name);
            ("model_provider", PStr "llamaindex");
            ("duration_ms", duration_ms);
            ("input_tokens", input_tokens);
            ("output_tokens", output_tokens);
            ("total_tokens", total_tokens)] in
          send_span telemetry (record_error error_info span_kwargs))
    end.

(** [LlamaIndexInstrumentor._create_llm_complete_wrapper] *)
Definition LlamaIndex_create_llm_complete_wrapper (original_method : pycall E)
    : pymethod E :=
  LlamaIndex_llm_wrapper "complete" original_method.

(** [LlamaIndexInstrumentor._create_llm_chat_wrapper] *)
Definition LlamaIndex_create_llm_chat_wrapper (original_method : pycall E)
    : pymethod E :=
  LlamaIndex_llm_wrapper "chat" original_method.

(** [LlamaIndexInstrumentor._create_embed_wrapper] *)
Definition LlamaIndex_create_embed_wrapper (original_method : pycall E)
    (method_name : string) : pymethod E :=
  fun self_instance args kwargs =>
    telemetry <- _get_telemetry ;;
    match telemetry with
    | None => original_method (self_instance :: args) kwargs
    | Some telemetry =>
        let model_name := Py.getattr self_instance "model_name" (PStr "unknown") in
        start_time <- time_time ;;
        try_finally (original_method (self_instance :: args) kwargs) (fun o =>
          let error_info := caught_Exception o in
          duration_ms <- elapsed_ms start_time ;;
          let span_kwargs : gmap string pyval := list_to_map [
            ("span_type", PStr "EMBEDDING");
            ("name", PStr ("llamaindex." +:+ Py.type_name self_instance +:+ "." +:+ method_name));
            ("embedding_model", model_name);
            ("duration_ms", duration_ms)] in
          send_span telemetry (record_error_message error_info span_kwargs))
    end.

End Factories.

(** The factory each intercepted entry point is wrapped with by the
    [_instrument] methods: those whose wrapper takes [*args, **kwargs] ... *)
Inductive function_wrapper : Type :=
  | OpenAI_chat (is_async : bool)
  | OpenAI_embedding (is_async : bool)
  | Anthropic_messages (is_async : bool)
  | Google_embed.

(** ... and those whose wrapper takes [self_instance, *args, **kwargs]. *)
Inductive method_wrapper : Type :=
  | Google_generate (is_async : bool)
  | LangChain_llm_invoke
  | LangChain_llm_ainvoke
  | LangChain_chain_invoke
  | LangChain_retriever_invoke
  | LangChain_embeddings (method_name : string)
  | LangChain_tool_invoke
  | LangChain_agent_invoke
  | LlamaIndex_query
  | LlamaIndex_aquery
  | LlamaIndex_retrieve
  | LlamaIndex_llm_complete
  | LlamaIndex_llm_chat
  | LlamaIndex_embed (method_name : string).

Definition function_wrapper_of {E} (env : Externals) (k : function_wrapper)
    (original_method : pycall E) : pycall E :=
  match k with
  | OpenAI_chat a => OpenAI_create_chat_wrapper env original_method a
  | OpenAI_embedding a => OpenAI_create_embedding_wrapper original_method a
  | Anthropic_messages a => Anthropic_create_messages_wrapper env original_method a
  | Google_embed => Google_create_embed_wrapper original_method
  end.

Definition method_wrapper_of {E} (env : Externals) (k : method_wrapper)
    (original_method : pycall E) : pymethod E :=
  match k with
  | Google_generate a => Google_create_generate_wrapper original_method a
  | LangChain_llm_invoke => LangChain_create_llm_invoke_wrapper env original_method
  | LangChain_llm_ainvoke => LangChain_create_llm_ainvoke_wrapper env original_method
  | LangChain_chain_invoke => LangChain_create_chain_invoke_wrapper env original_method
  | LangChain_retriever_invoke => LangChain_create_retriever_invoke_wrapper original_method
  | LangChain_embeddings m => LangChain_create_embeddings_wrapper original_method m
  | LangChain_tool_invoke => LangChain_create_tool_invoke_wrapper original_method
  | LangChain_agent_invoke => LangChain_create_agent_invoke_wrapper env original_method
  | LlamaIndex_query => LlamaIndex_create_query_wrapper original_method
  | LlamaIndex_aquery => LlamaIndex_create_aquery_wrapper original_method
  | LlamaIndex_retrieve => LlamaIndex_create_retrieve_wrapper original_method
  | LlamaIndex_llm_complete => LlamaIndex_create_llm_complete_wrapper env original_method
  | LlamaIndex_llm_chat => LlamaIndex_create_llm_chat_wrapper env original_method
  | LlamaIndex_embed m => LlamaIndex_create_embed_wrapper original_method m
  end.

(** Whether the wrapper calls [new_trace] before the original. *)
Definition starts_trace (k : method_wrapper) : bool :=
  match k with
  | LangChain_chain_invoke | LangChain_agent_invoke
  | LlamaIndex_query | LlamaIndex_aquery => true
  | _ => false
  end.

End Wrappers.

(** ** auto.py: the registry and the life-cycle controller *)

Module Auto.

(** [d[k] = v] on a dictionary kept in insertion order. *)
Fixpoint dict_set {A} (k : string) (v : A) (d : list (string * A))
    : list (string * A) :=
  match d with
  | [] => [(k, v)]
  | (k', v') :: d' =>
      if String.eqb k k' then (k, v) :: d' else (k', v') :: dict_set k v d'
  end.

Section Controller.
Context {W : Type}.

(** The module globals [_INSTRUMENTORS] and [_active_instrumentors], and
    the state of the process. *)
Record state : Type := State {
  _INSTRUMENTORS : list (string * Base.InstrumentorClass W);
  _active_instrumentors : list (Base.instrumentor W);
  process : W
}.

(** [from genai_telemetry.instrumentation.<module> import <class>]: the
    import yields the instrumentor class or raises. *)
Variable import_instrumentor :
  Base.variant -> W -> outcome (Base.InstrumentorClass W) * W.

(** One [try: from ... import C; _INSTRUMENTORS[key] = C  except
    ImportError: ...] block of [_register_instrumentors]. *)
Definition register_one (key : string) (v : Base.variant) (st : state)
    : outcome unit * state :=
  match import_instrumentor v (process st) with
  | (Ret c, w) =>
      (Ret tt, State (dict_set key c (_INSTRUMENTORS st)) (_active_instrumentors st) w)
  | (Raise e, w) =>
      let st' := State (_INSTRUMENTORS st) (_active_instrumentors st) w in
      if isinstance_exn e "ImportError" then (Ret tt, st') else (Raise e, st')
  end.

Definition and_then (c1 c2 : state -> outcome unit * state) (st : state)
    : outcome unit * state :=
  match c1 st with
  | (Ret _, st') => c2 st'
  | (Raise e, st') => (Raise e, st')
  end.

(** [_register_instrumentors] *)
Definition _register_instrumentors (st : state) : outcome unit * state :=
  match _INSTRUMENTORS st with
  | _ :: _ => (Ret tt, st)
  | [] =>
      and_then (register_one "openai" Base.OpenAI)
        (and_then (register_one "anthropic" Base.Anthropic)
           (and_then (register_one "langchain" Base.LangChain)
              (and_then (register_one "llamaindex" Base.LlamaIndex)
                 (register_one "google" Base.Google)))) st
  end.

(** [frameworks_to_instrument]: the selection, or every registered name,
    less the exclusions. *)
Definition frameworks_to_instrument
    (registry : list (string * Base.InstrumentorClass W))
    (frameworks exclude : option (list string)) : gset string :=
  let selected : gset string :=
    match frameworks with
    | None => list_to_set (registry.*1)
    | Some fs => list_to_set (Py.lower <$> fs)
    end in
  match exclude with
  | Some (e :: es) => selected ∖ list_to_set (Py.lower <$> (e :: es))
  | _ => selected
  end.

(** [next((i for i in _active_instrumentors
           if type(i).__name__ == instrumentor_class.__name__), None)] *)
Definition existing_instrumentor (active : list (Base.instrumentor W))
    (instrumentor_class : Base.InstrumentorClass W)
    : option (Base.instrumentor W) :=
  List.find
    (fun i => String.eqb (Base.cls_name (Base.inst_class i))
                         (Base.cls_name instrumentor_class))
    active.

(** The body of the loop of [auto_instrument], for one registry entry. *)
Definition instrument_one (target : gset string) (name : string)
    (instrumentor_class : Base.InstrumentorClass W)
    (results : gmap string bool) (active : list (Base.instrumentor W)) (w : W)
    : outcome (gmap string bool) * list (Base.instrumentor W) * W :=
  if negb (bool_decide (name ∈ target)) then (Ret results, active, w)
  else
    let existing := existing_instrumentor active instrumentor_class in
    if match existing with
       | Some existing => Base.is_instrumented existing
       | None => false
       end
    then (Ret (<[name := true]> results), active, w)
    else
      match Base.instrument (Base.new_instrumentor instrumentor_class) w with
      | (Raise e, _, w') => (Raise e, active, w')
      | (Ret success, instrumentor, w') =>
          (Ret (<[name := success]> results),
           if success then active ++ [instrumentor] else active,
           w')
      end.

(** The loop of [auto_instrument] over [_INSTRUMENTORS.items()]. *)
Fixpoint instrument_each (items : list (string * Base.InstrumentorClass W))
    (target : gset string) (results : gmap string bool)
    (active : list (Base.instrumentor W)) (w : W)
    : outcome (gmap string bool) * list (Base.instrumentor W) * W :=
  match items with
  | [] => (Ret results, active, w)
  | (name, instrumentor_class) :: rest =>
      match instrument_one target name instrumentor_class results active w with
      | (Ret results, active, w) => instrument_each rest target results active w
      | (Raise e, active, w) => (Raise e, active, w)
      end
  end.

(** [auto_instrument(frameworks, exclude)] *)
Definition auto_instrument (frameworks exclude : option (list string))
    (st : state) : outcome (gmap string bool) * state :=
  match _register_instrumentors st with
  | (Raise e, st1) => (Raise e, st1)
  | (Ret _, st1) =>
      let target :=
        frameworks_to_instrument (_INSTRUMENTORS st1) frameworks exclude in
      match instrument_each (_INSTRUMENTORS st1) target ∅
              (_active_instrumentors st1) (process st1) with
      | (o, active, w) => (o, State (_INSTRUMENTORS st1) active w)
      end
  end.

(** [frameworks is not None and name not in [f.lower() for f in frameworks]] *)
Definition not_selected (frameworks : option (list string)) (name : string)
    : bool :=
  match frameworks with
  | None => false
  | Some fs => negb (bool_decide (name ∈ Py.lower <$> fs))
  end.

(** The loop of [uninstrument] over [_active_instrumentors]: [visited] are
    the instances the loop is done with, as it left them; on an exception
    the global list is not reassigned. *)
Fixpoint uninstrument_each (visited todo : list (Base.instrumentor W))
    (frameworks : option (list string)) (results : gmap string bool)
    (remaining : list (Base.instrumentor W)) (w : W)
    : outcome (gmap string bool) * list (Base.instrumentor W) * W :=
  match todo with
  | [] => (Ret results, remaining, w)
  | instrumentor :: rest =>
      let name := Py.lower (Base.name (Base.inst_class instrumentor)) in
      if not_selected frameworks name
      then uninstrument_each (visited ++ [instrumentor]) rest frameworks results
             (remaining ++ [instrumentor]) w
      else
        match Base.uninstrument instrumentor w with
        | (Raise e, instrumentor, w') =>
            (Raise e, visited ++ instrumentor :: rest, w')
        | (Ret success, instrumentor, w') =>
            uninstrument_each (visited ++ [instrumentor]) rest frameworks
              (<[name := success]> results)
              (if negb success then remaining ++ [instrumentor] else remaining)
              w'
        end
  end.

(** [uninstrument(frameworks)] *)
Definition uninstrument (frameworks : option (list string)) (st : state)
    : outcome (gmap string bool) * state :=
  match uninstrument_each [] (_active_instrumentors st) frameworks ∅ []
          (process st) with
  | (o, active, w) => (o, State (_INSTRUMENTORS st) active w)
  end.

(** [get_instrumented_frameworks()] *)
Definition get_instrumented_frameworks (st : state) : list string :=
  (fun inst => Py.lower (Base.name (Base.inst_class inst))) <$>
  filter (fun inst => Base.is_instrumented inst = true) (_active_instrumentors st).

(** [is_instrumented(framework)] *)
Definition is_instrumented (framework : string) (st : state) : bool :=
  let framework_lower := Py.lower framework in
  existsb
    (fun inst =>
       String.eqb (Py.lower (Base.name (Base.inst_class inst))) framework_lower
       && Base.is_instrumented inst)
    (_active_instrumentors st).

End Controller.

End Auto.

(** ** The specification's wording of the properties that the code refines *)

Module Spec.

Import Wrappers.

(** The world after one more event reached telemetry object [t]. *)
Definition with_event {E} (w : World E) (t : nat) (ev : sink_event) : World E :=
  MkWorld (w_telemetry w) (w_log w ++ [(t, ev)]) (w_now w) (w_ext w).

(** The world a method wrapper calls the original in. *)
Definition call_world {E} (k : method_wrapper) (w : World E) (t : nat) : World E :=
  if starts_trace k then with_event w t NewTrace else w.

(** Applying twice for one key keeps the original stored by the first
    apply. *)
Definition second_apply_keeps_original : Prop :=
  forall (V : Type) (obj obj1 obj2 : Base.scope V) (method_name : string)
         (f g : V -> V) (store store1 store2 : gmap string V) (original : V),
    Base.getattr obj method_name = Some original ->
    Base.wrap_method obj method_name f store = (true, obj1, store1) ->
    Base.wrap_method obj1 method_name g store1 = (true, obj2, store2) ->
    store2 !! Base.patch_key obj method_name = Some original.



(** When [_instrument] raises, [instrument()] catches the exception and
    returns false, the instance still not installed. *)
Definition install_catches_failure : Prop :=
  forall (W : Type) (self : Base.instrumentor W) (w w1 w2 : W) (e : exn),
    Base._is_instrumented self = false ->
    Base._check_installed (Base.inst_class self) w = (Ret true, w1) ->
    Base._instrument (Base.inst_class self) w1 = (Raise e, w2) ->
    exists self' w',
      Base.instrument self w = (Ret false, self', w') /\
      Base._is_instrumented self' = false.










(** What [uninstrument] has to do with the active set, one variant after
    the other: a variant outside the selection is kept and not called; a
    selected one has [uninstrument()] called and is kept when the call
    returns false.  The trace lists each variant as the call left it, with
    the flag its call returned. *)
Inductive uninstall_trace {W : Type} (frameworks : option (list string))
    : W -> list (Base.instrumentor W) -> W
      -> list (Base.instrumentor W * option bool) -> Prop :=
  | trace_done w : uninstall_trace frameworks w [] w []
  | trace_skip w w' i rest tr :
      Auto.not_selected frameworks (Py.lower (Base.name (Base.inst_class i))) = true ->
      uninstall_trace frameworks w rest w' tr ->
      uninstall_trace frameworks w (i :: rest) w' ((i, None) :: tr)
  | trace_call w w1 w' i i' rest tr success :
      Auto.not_selected frameworks (Py.lower (Base.name (Base.inst_class i))) = false ->
      Base.uninstrument i w = (Ret success, i', w1) ->
      uninstall_trace frameworks w1 rest w' tr ->
      uninstall_trace frameworks w (i :: rest) w' ((i', Some success) :: tr).

(** The variants that remain active after a trace. *)
Definition remaining_after {W : Type}
    (tr : list (Base.instrumentor W * option bool)) : list (Base.instrumentor W) :=
  (filter (fun x => x.2 <> Some true) tr).*1.

Definition lower_name {W : Type} (i : Base.instrumentor W) : string :=
  Py.lower (Base.name (Base.inst_class i)).

(** The result map a trace leads to: each call, in order, records its flag
    under the name of its variant. *)
Definition record_flags {W : Type} (results : gmap string bool)
    (tr : list (Base.instrumentor W * option bool)) : gmap string bool :=
  foldl (fun m x => match x.2 with
                    | Some b => <[lower_name x.1 := b]> m
                    | None => m
                    end)
        results tr.




End Spec.

(** ** What an emitted span says about the call *)

Module Span.

Import Wrappers.



End Span.

(** ** The modules each probe imports *)

Module Probe.

(** The module [_check_installed] imports first ... *)
Definition first_module (v : Base.variant) : string :=
  match v with
  | Base.OpenAI => "openai"
  | Base.Anthropic => "anthropic"
  | Base.LangChain => "langchain_core"
  | Base.LlamaIndex => "llama_index"
  | Base.Google => "google.generativeai"
  end.

(** ... and the one it falls back on. *)
Definition second_module (v : Base.variant) : option string :=
  match v with
  | Base.LangChain => Some "langchain"
  | Base.LlamaIndex => Some "llama_index.core"
  | _ => None
  end.

End Probe.

(** ** The wrappers whose [finally] block cannot raise *)

Module Shape.

Import Wrappers.



End Shape.

(** ** The patches of the five instrumentors *)

Module Patches.

Import Wrappers.

(** The wrapper factory a method is wrapped with. *)
Inductive factory : Type :=
  | Function (k : function_wrapper)
  | Method (k : method_wrapper).

(** A callable, by identity: a function of the library, or the closure a
    factory built around a callable. *)
Inductive callable : Type :=
  | Native (id : nat)
  | Wrapped (by_factory : factory) (original_method : callable).

(** The state [_instrument] and [_uninstrument] act on: the objects of the
    library whose attributes they assign (its classes, and the module
    [google.generativeai]), by reference, and the [_original_methods]
    dictionary of the instrumentor class, which all its instances share.
    The classes an instrumentor patches do not derive from one another,
    so what one of them inherits is not changed by patching another. *)
Record process : Type := Process {
  heap : nat -> Base.scope callable;
  _original_methods : gmap string callable
}.

(** The heap with the object at [cls] replaced by [obj]. *)
Definition update (h : nat -> Base.scope callable) (cls : nat)
    (obj : Base.scope callable) : nat -> Base.scope callable :=
  fun c => if Nat.eqb c cls then obj else h c.

(** [wrap_method(cls, method_name, lambda orig: factory(orig),
    self._original_methods)] on a class object. *)
Definition wrap_class (cls : nat) (method_name : string) (by_factory : factory)
    (p : process) : process :=
  let '(_, obj, store) :=
    Base.wrap_method (heap p cls) method_name (Wrapped by_factory)
                     (_original_methods p) in
  Process (update (heap p) cls obj) store.

(** [unwrap_method(cls, method_name, self._original_methods)] *)
Definition unwrap_class (cls : nat) (method_name : string) (p : process)
    : process :=
  let '(_, obj, store) :=
    Base.unwrap_method (heap p cls) method_name (_original_methods p) in
  Process (update (heap p) cls obj) store.

(** Two statements in sequence: the second runs when the first raised
    nothing. *)
Definition and_then (c1 c2 : process -> outcome unit * process) (p : process)
    : outcome unit * process :=
  match c1 p with
  | (Ret _, p') => c2 p'
  | (Raise e, p') => (Raise e, p')
  end.

Section Instrumentors.

(** [from module import name]: the object (a class, or a submodule) the
    statement binds, or the exception it raises; the statement gives the
    same answer every time it runs. *)
Variable import_from : string -> string -> outcome nat.

(** [importlib.import_module] *)
Variable import_module : string -> outcome pyval.

(** [from module import name1, name2], which binds both names or
    raises; the class object of the second name is the one used. *)
Definition import_both (module name1 name2 : string) : outcome nat :=
  match import_from module name1 with
  | Ret _ => import_from module name2
  | Raise e => Raise e
  end.

(** [try: <import>; body  except <handled>: ...], where the body is made
    of calls of [wrap_method] or [unwrap_method] on the imported class,
    which raise nothing. *)
Definition try_import (handled : exn -> bool) (imported : outcome nat)
    (body : nat -> process -> process) (p : process) : outcome unit * process :=
  match imported with
  | Ret cls => (Ret tt, body cls p)
  | Raise e => if handled e then (Ret tt, p) else (Raise e, p)
  end.

(** The blocks of the [_instrument] methods end in [except (ImportError,
    AttributeError)], those of the [_uninstrument] methods in [except
    ImportError]. *)
Definition instrument_block :=
  try_import (fun e => isinstance_exn e "ImportError"
                       || isinstance_exn e "AttributeError").
Definition uninstrument_block :=
  try_import (fun e => isinstance_exn e "ImportError").

(** *** langchain_inst.py *)

(** [LangChainInstrumentor._instrument] *)
Definition LangChain_instrument : process -> outcome unit * process :=
  and_then
    (instrument_block
       (import_from "langchain_core.language_models.chat_models" "BaseChatModel")
       (fun BaseChatModel p =>
          wrap_class BaseChatModel "ainvoke" (Method LangChain_llm_ainvoke)
            (wrap_class BaseChatModel "invoke" (Method LangChain_llm_invoke) p)))
  (and_then
    (instrument_block
       (import_from "langchain_core.language_models.llms" "BaseLLM")
       (fun BaseLLM p =>
          wrap_class BaseLLM "ainvoke" (Method LangChain_llm_ainvoke)
            (wrap_class BaseLLM "invoke" (Method LangChain_llm_invoke) p)))
  (and_then
    (instrument_block
       (import_from "langchain_core.retrievers" "BaseRetriever")
       (fun BaseRetriever =>
          wrap_class BaseRetriever "invoke" (Method LangChain_retriever_invoke)))
  (and_then
    (instrument_block
       (import_from "langchain_core.embeddings" "Embeddings")
       (fun Embeddings p =>
          wrap_class Embeddings "embed_query"
            (Method (LangChain_embeddings "embed_query"))
            (wrap_class Embeddings "embed_documents"
               (Method (LangChain_embeddings "embed_documents")) p)))
  (and_then
    (instrument_block
       (import_from "langchain_core.tools" "BaseTool")
       (fun BaseTool =>
          wrap_class BaseTool "invoke" (Method LangChain_tool_invoke)))
  (and_then
    (instrument_block
       (import_both "langchain_core.runnables" "Runnable" "RunnableSequence")
       (fun RunnableSequence =>
          wrap_class RunnableSequence "invoke" (Method LangChain_chain_invoke)))
    (instrument_block
       (import_from "langchain.agents" "AgentExecutor")
       (fun AgentExecutor =>
          wrap_class AgentExecutor "invoke" (Method LangChain_agent_invoke)))))))).

(** [LangChainInstrumentor._uninstrument] *)
Definition LangChain_uninstrument : process -> outcome unit * process :=
  and_then
    (uninstrument_block
       (import_from "langchain_core.language_models.chat_models" "BaseChatModel")
       (fun BaseChatModel p =>
          unwrap_class BaseChatModel "ainvoke"
            (unwrap_class BaseChatModel "invoke" p)))
  (and_then
    (uninstrument_block
       (import_from "langchain_core.language_models.llms" "BaseLLM")
       (fun BaseLLM p =>
          unwrap_class BaseLLM "ainvoke" (unwrap_class BaseLLM "invoke" p)))
  (and_then
    (uninstrument_block
       (import_from "langchain_core.retrievers" "BaseRetriever")
       (fun BaseRetriever => unwrap_class BaseRetriever "invoke"))
  (and_then
    (uninstrument_block
       (import_from "langchain_core.embeddings" "Embeddings")
       (fun Embeddings p =>
          unwrap_class Embeddings "embed_query"
            (unwrap_class Embeddings "embed_documents" p)))
  (and_then
    (uninstrument_block
       (import_from "langchain_core.tools" "BaseTool")
       (fun BaseTool => unwrap_class BaseTool "invoke"))
  (and_then
    (uninstrument_block
       (import_from "langchain_core.runnables" "RunnableSequence")
       (fun RunnableSequence => unwrap_class RunnableSequence "invoke"))
    (uninstrument_block
       (import_from "langchain.agents" "AgentExecutor")
       (fun AgentExecutor => unwrap_class AgentExecutor "invoke"))))))).

(** *** llamaindex_inst.py *)

(** [safe_import(module_name)] *)
Definition safe_import (module_name : string) : outcome pyval :=
  (Base.safe_import (fun name (p : unit) => (import_module name, p))
                    module_name tt).1.

(** [if core_module: from new_module import name
     else: from old_module import name] *)
Definition import_core_or_legacy (core_module : pyval)
    (new_module old_module name : string) : outcome nat :=
  if Py.truthy core_module then import_from new_module name
  else import_from old_module name.

(** The blocks of [LlamaIndexInstrumentor._instrument], after the two
    [safe_import] calls. *)
Definition LlamaIndex_instrument_blocks (core_module : pyval)
    : process -> outcome unit * process :=
  and_then
    (instrument_block
       (import_core_or_legacy core_module
          "llama_index.core.base.base_query_engine"
          "llama_index.indices.query.base" "BaseQueryEngine")
       (fun BaseQueryEngine p =>
          let p := wrap_class BaseQueryEngine "query" (Method LlamaIndex_query) p in
          if Base.hasattr (heap p BaseQueryEngine) "aquery"
          then wrap_class BaseQueryEngine "aquery" (Method LlamaIndex_aquery) p
          else p))
  (and_then
    (instrument_block
       (import_core_or_legacy core_module
          "llama_index.core.retrievers" "llama_index.retrievers" "BaseRetriever")
       (fun BaseRetriever =>
          wrap_class BaseRetriever "retrieve" (Method LlamaIndex_retrieve)))
  (and_then
    (instrument_block
       (import_core_or_legacy core_module
          "llama_index.core.llms" "llama_index.llms" "LLM")
       (fun LLM p =>
          wrap_class LLM "chat" (Method LlamaIndex_llm_chat)
            (wrap_class LLM "complete" (Method LlamaIndex_llm_complete) p)))
    (instrument_block
       (import_core_or_legacy core_module
          "llama_index.core.embeddings" "llama_index.embeddings" "BaseEmbedding")
       (fun BaseEmbedding p =>
          wrap_class BaseEmbedding "get_query_embedding"
            (Method (LlamaIndex_embed "get_query_embedding"))
            (wrap_class BaseEmbedding "get_text_embedding"
               (Method (LlamaIndex_embed "get_text_embedding")) p))))).

(** [LlamaIndexInstrumentor._instrument] *)
Definition LlamaIndex_instrument (p : process) : outcome unit * process :=
  match safe_import "llama_index.core" with
  | Raise e => (Raise e, p)
  | Ret core_module =>
      match safe_import "llama_index" with
      | Raise e => (Raise e, p)
      | Ret legacy_module => LlamaIndex_instrument_blocks core_module p
      end
  end.

(** The blocks of [LlamaIndexInstrumentor._uninstrument]. *)
Definition LlamaIndex_uninstrument_blocks (core_module : pyval)
    : process -> outcome unit * process :=
  and_then
    (uninstrument_block
       (import_core_or_legacy core_module
          "llama_index.core.base.base_query_engine"
          "llama_index.indices.query.base" "BaseQueryEngine")
       (fun BaseQueryEngine p =>
          unwrap_class BaseQueryEngine "aquery"
            (unwrap_class BaseQueryEngine "query" p)))
  (and_then
    (uninstrument_block
       (import_core_or_legacy core_module
          "llama_index.core.retrievers" "llama_index.retrievers" "BaseRetriever")
       (fun BaseRetriever => unwrap_class BaseRetriever "retrieve"))
  (and_then
    (uninstrument_block
       (import_core_or_legacy core_module
          "llama_index.core.llms" "llama_index.llms" "LLM")
       (fun LLM p => unwrap_class LLM "chat" (unwrap_class LLM "complete" p)))
    (uninstrument_block
       (import_core_or_legacy core_module
          "llama_index.core.embeddings" "llama_index.embeddings" "BaseEmbedding")
       (fun BaseEmbedding p =>
          unwrap_class BaseEmbedding "get_query_embedding"
            (unwrap_class BaseEmbedding "get_text_embedding" p))))).

(** [LlamaIndexInstrumentor._uninstrument] *)
Definition LlamaIndex_uninstrument (p : process) : outcome unit * process :=
  match safe_import "llama_index.core" with
  | Raise e => (Raise e, p)
  | Ret core_module => LlamaIndex_uninstrument_blocks core_module p
  end.

(** *** What the blocks patch *)

(** A patch: the class, the method and the factory. *)
Definition patch : Type := nat * string * factory.

(** [wrap_method] for a patch, [unwrap_method] for a patched method. *)
Definition apply_patch (p : process) (x : patch) : process :=
  wrap_class x.1.1 x.1.2 x.2 p.

Definition revert_patch (p : process) (x : nat * string) : process :=
  unwrap_class x.1 x.2 p.

(** The patches of a block: those of its methods when the import binds the
    class, none when it raises. *)
Definition patches_of (imported : outcome nat) (methods : list (string * factory))
    : list patch :=
  match imported with
  | Ret cls => (fun m => (cls, m.1, m.2)) <$> methods
  | Raise _ => []
  end.

(** The patches [LangChainInstrumentor._instrument] applies, in order. *)
Definition LangChain_patches : list patch :=
  patches_of (import_from "langchain_core.language_models.chat_models" "BaseChatModel")
    [("invoke", Method LangChain_llm_invoke);
     ("ainvoke", Method LangChain_llm_ainvoke)] ++
  patches_of (import_from "langchain_core.language_models.llms" "BaseLLM")
    [("invoke", Method LangChain_llm_invoke);
     ("ainvoke", Method LangChain_llm_ainvoke)] ++
  patches_of (import_from "langchain_core.retrievers" "BaseRetriever")
    [("invoke", Method LangChain_retriever_invoke)] ++
  patches_of (import_from "langchain_core.embeddings" "Embeddings")
    [("embed_documents", Method (LangChain_embeddings "embed_documents"));
     ("embed_query", Method (LangChain_embeddings "embed_query"))] ++
  patches_of (import_from "langchain_core.tools" "BaseTool")
    [("invoke", Method LangChain_tool_invoke)] ++
  patches_of (import_both "langchain_core.runnables" "Runnable" "RunnableSequence")
    [("invoke", Method LangChain_chain_invoke)] ++
  patches_of (import_from "langchain.agents" "AgentExecutor")
    [("invoke", Method LangChain_agent_invoke)].

(** The methods a block of [_uninstrument] reverts: those it names when
    the import binds the class, none when it raises. *)
Definition reverts_of (imported : outcome nat) (methods : list string)
    : list (nat * string) :=
  match imported with
  | Ret cls => (fun m => (cls, m)) <$> methods
  | Raise _ => []
  end.

(** The methods [LangChainInstrumentor._uninstrument] reverts, in order. *)
Definition LangChain_reverts : list (nat * string) :=
  reverts_of (import_from "langchain_core.language_models.chat_models" "BaseChatModel")
    ["invoke"; "ainvoke"] ++
  reverts_of (import_from "langchain_core.language_models.llms" "BaseLLM")
    ["invoke"; "ainvoke"] ++
  reverts_of (import_from "langchain_core.retrievers" "BaseRetriever") ["invoke"] ++
  reverts_of (import_from "langchain_core.embeddings" "Embeddings")
    ["embed_documents"; "embed_query"] ++
  reverts_of (import_from "langchain_core.tools" "BaseTool") ["invoke"] ++
  reverts_of (import_from "langchain_core.runnables" "RunnableSequence") ["invoke"] ++
  reverts_of (import_from "langchain.agents" "AgentExecutor") ["invoke"].

(** The patches [LlamaIndexInstrumentor._instrument] applies to a process,
    in order: [aquery] is wrapped only where the class has it. *)
Definition LlamaIndex_patches (core_module : pyval) (p : process) : list patch :=
  match import_core_or_legacy core_module
          "llama_index.core.base.base_query_engine"
          "llama_index.indices.query.base" "BaseQueryEngine" with
  | Ret cls =>
      (cls, "query", Method LlamaIndex_query) ::
      (if Base.hasattr (heap p cls) "aquery"
       then [(cls, "aquery", Method LlamaIndex_aquery)] else [])
  | Raise _ => []
  end ++
  patches_of (import_core_or_legacy core_module
                "llama_index.core.retrievers" "llama_index.retrievers"
                "BaseRetriever")
    [("retrieve", Method LlamaIndex_retrieve)] ++
  patches_of (import_core_or_legacy core_module
                "llama_index.core.llms" "llama_index.llms" "LLM")
    [("complete", Method LlamaIndex_llm_complete);
     ("chat", Method LlamaIndex_llm_chat)] ++
  patches_of (import_core_or_legacy core_module
                "llama_index.core.embeddings" "llama_index.embeddings"
                "BaseEmbedding")
    [("get_text_embedding", Method (LlamaIndex_embed "get_text_embedding"));
     ("get_query_embedding", Method (LlamaIndex_embed "get_query_embedding"))].

(** The methods [LlamaIndexInstrumentor._uninstrument] reverts, in order. *)
Definition LlamaIndex_reverts (core_module : pyval) : list (nat * string) :=
  reverts_of (import_core_or_legacy core_module
                "llama_index.core.base.base_query_engine"
                "llama_index.indices.query.base" "BaseQueryEngine")
    ["query"; "aquery"] ++
  reverts_of (import_core_or_legacy core_module
                "llama_index.core.retrievers" "llama_index.retrievers"
                "BaseRetriever")
    ["retrieve"] ++
  reverts_of (import_core_or_legacy core_module
                "llama_index.core.llms" "llama_index.llms" "LLM")
    ["complete"; "chat"] ++
  reverts_of (import_core_or_legacy core_module
                "llama_index.core.embeddings" "llama_index.embeddings"
                "BaseEmbedding")
    ["get_text_embedding"; "get_query_embedding"].

(** *** openai_inst.py *)

(** [import module]: the module object the statement binds, or the
    exception it raises; the statement gives the same answer every time
    it runs. *)
Variable import_object : string -> outcome nat.

(** [obj.name] where the attribute is a submodule or a class: the object
    it gives when [hasattr(obj, name)].  No instrumentor assigns such an
    attribute. *)
Variable attribute : nat -> string -> option nat.

(** [hasattr(module, "resources") and hasattr(module.resources, name)] *)
Definition has_resource (module : nat) (name : string) : bool :=
  match attribute module "resources" with
  | Some resources => bool_decide (is_Some (attribute resources name))
  | None => false
  end.

(** [hasattr(module, "resources")] *)
Definition has_resources (module : nat) : bool :=
  bool_decide (is_Some (attribute module "resources")).

(** [if hasattr(module, class_name): body(module.class_name)] *)
Definition on_class (module : nat) (class_name : string)
    (body : nat -> process -> process) (p : process) : process :=
  match attribute module class_name with
  | Some cls => body cls p
  | None => p
  end.

(** [if guard: <import>; body], without a handler. *)
Definition guarded_import (guard : bool) (imported : outcome nat)
    (body : nat -> process -> process) (p : process) : outcome unit * process :=
  if guard then
    match imported with
    | Ret module => (Ret tt, body module p)
    | Raise e => (Raise e, p)
    end
  else (Ret tt, p).

(** [OpenAIInstrumentor._instrument] *)
Definition OpenAI_instrument (p : process) : outcome unit * process :=
  match import_object "openai" with
  | Raise e => (Raise e, p)
  | Ret openai =>
      and_then
        (guarded_import (has_resource openai "chat")
           (import_from "openai.resources.chat" "completions")
           (fun completions =>
              on_class completions "Completions"
                (fun Completions =>
                   wrap_class Completions "create" (Function (OpenAI_chat false)))))
      (and_then
        (guarded_import (has_resource openai "chat")
           (import_from "openai.resources.chat" "completions")
           (fun completions =>
              on_class completions "AsyncCompletions"
                (fun AsyncCompletions =>
                   wrap_class AsyncCompletions "create" (Function (OpenAI_chat true)))))
      (and_then
        (guarded_import (has_resources openai)
           (import_from "openai.resources" "embeddings")
           (fun embeddings =>
              on_class embeddings "Embeddings"
                (fun Embeddings =>
                   wrap_class Embeddings "create"
                     (Function (OpenAI_embedding false)))))
        (guarded_import (has_resources openai)
           (import_from "openai.resources" "embeddings")
           (fun embeddings =>
              on_class embeddings "AsyncEmbeddings"
                (fun AsyncEmbeddings =>
                   wrap_class AsyncEmbeddings "create"
                     (Function (OpenAI_embedding true))))))) p
  end.

(** [OpenAIInstrumentor._uninstrument] *)
Definition OpenAI_uninstrument (p : process) : outcome unit * process :=
  match import_object "openai" with
  | Raise e => (Raise e, p)
  | Ret openai =>
      and_then
        (guarded_import (has_resource openai "chat")
           (import_from "openai.resources.chat" "completions")
           (fun completions p =>
              on_class completions "AsyncCompletions"
                (fun AsyncCompletions => unwrap_class AsyncCompletions "create")
                (on_class completions "Completions"
                   (fun Completions => unwrap_class Completions "create") p)))
        (guarded_import (has_resources openai)
           (import_from "openai.resources" "embeddings")
           (fun embeddings p =>
              on_class embeddings "AsyncEmbeddings"
                (fun AsyncEmbeddings => unwrap_class AsyncEmbeddings "create")
                (on_class embeddings "Embeddings"
                   (fun Embeddings => unwrap_class Embeddings "create") p))) p
  end.

(** *** anthropic_inst.py *)

(** [AnthropicInstrumentor._instrument] *)
Definition Anthropic_instrument (p : process) : outcome unit * process :=
  match import_object "anthropic" with
  | Raise e => (Raise e, p)
  | Ret anthropic =>
      and_then
        (guarded_import (has_resource anthropic "messages")
           (import_from "anthropic.resources" "messages")
           (fun messages =>
              on_class messages "Messages"
                (fun Messages =>
                   wrap_class Messages "create"
                     (Function (Anthropic_messages false)))))
        (guarded_import (has_resource anthropic "messages")
           (import_from "anthropic.resources" "messages")
           (fun messages =>
              on_class messages "AsyncMessages"
                (fun AsyncMessages =>
                   wrap_class AsyncMessages "create"
                     (Function (Anthropic_messages true))))) p
  end.

(** [AnthropicInstrumentor._uninstrument] *)
Definition Anthropic_uninstrument (p : process) : outcome unit * process :=
  match import_object "anthropic" with
  | Raise e => (Raise e, p)
  | Ret anthropic =>
      guarded_import (has_resource anthropic "messages")
        (import_from "anthropic.resources" "messages")
        (fun messages p =>
           on_class messages "AsyncMessages"
             (fun AsyncMessages => unwrap_class AsyncMessages "create")
             (on_class messages "Messages"
                (fun Messages => unwrap_class Messages "create") p)) p
  end.

(** The [create] methods a guarded block patches: those of the classes the
    imported module has, none when the guard is false or the import
    raises. *)
Definition class_patches (guard : bool) (imported : outcome nat)
    (classes : list (string * factory)) : list patch :=
  if guard then
    match imported with
    | Ret module =>
        omap (fun c => (fun cls => (cls, "create", c.2)) <$> attribute module c.1)
             classes
    | Raise _ => []
    end
  else [].

(** The patches [OpenAIInstrumentor._instrument] applies, in order;
    [_uninstrument] reverts the same methods. *)
Definition OpenAI_patches (openai : nat) : list patch :=
  class_patches (has_resource openai "chat")
    (import_from "openai.resources.chat" "completions")
    [("Completions", Function (OpenAI_chat false));
     ("AsyncCompletions", Function (OpenAI_chat true))] ++
  class_patches (has_resources openai)
    (import_from "openai.resources" "embeddings")
    [("Embeddings", Function (OpenAI_embedding false));
     ("AsyncEmbeddings", Function (OpenAI_embedding true))].

(** The patches [AnthropicInstrumentor._instrument] applies, in order;
    [_uninstrument] reverts the same methods. *)
Definition Anthropic_patches (anthropic : nat) : list patch :=
  class_patches (has_resource anthropic "messages")
    (import_from "anthropic.resources" "messages")
    [("Messages", Function (Anthropic_messages false));
     ("AsyncMessages", Function (Anthropic_messages true))].

(** *** google_inst.py *)

(** [if hasattr(genai, "embed_content"):
       original = genai.embed_content
       genai.embed_content = self._create_embed_wrapper(original)
       self._original_methods["genai.embed_content"] = original] *)
Definition patch_embed_content (genai : nat) (p : process) : process :=
  if Base.hasattr (heap p genai) "embed_content" then
    match Base.getattr (heap p genai) "embed_content" with
    | Some original =>
        Process
          (update (heap p) genai
             (Base.setattr (heap p genai) "embed_content"
                (Wrapped (Function Google_embed) original)))
          (<["genai.embed_content" := original]> (_original_methods p))
    | None => p
    end
  else p.

(** [if "genai.embed_content" in self._original_methods:
       genai.embed_content = self._original_methods["genai.embed_content"]
       del self._original_methods["genai.embed_content"]] *)
Definition restore_embed_content (genai : nat) (p : process) : process :=
  match _original_methods p !! "genai.embed_content" with
  | Some original =>
      Process
        (update (heap p) genai
           (Base.setattr (heap p genai) "embed_content" original))
        (delete "genai.embed_content" (_original_methods p))
  | None => p
  end.

(** [GoogleAIInstrumentor._instrument] *)
Definition Google_instrument (p : process) : outcome unit * process :=
  match import_object "google.generativeai" with
  | Raise e => (Raise e, p)
  | Ret genai =>
      and_then
        (instrument_block
           (import_from "google.generativeai" "GenerativeModel")
           (fun GenerativeModel p =>
              let p := wrap_class GenerativeModel "generate_content"
                         (Method (Google_generate false)) p in
              if Base.hasattr (heap p GenerativeModel) "generate_content_async"
              then wrap_class GenerativeModel "generate_content_async"
                     (Method (Google_generate true)) p
              else p))
        (fun p => (Ret tt, patch_embed_content genai p)) p
  end.

(** [GoogleAIInstrumentor._uninstrument] *)
Definition Google_uninstrument : process -> outcome unit * process :=
  and_then
    (uninstrument_block
       (import_from "google.generativeai" "GenerativeModel")
       (fun GenerativeModel p =>
          unwrap_class GenerativeModel "generate_content_async"
            (unwrap_class GenerativeModel "generate_content" p)))
    (fun p =>
       match import_object "google.generativeai" with
       | Ret genai => (Ret tt, restore_embed_content genai p)
       | Raise e =>
           if isinstance_exn e "ImportError" then (Ret tt, p) else (Raise e, p)
       end).

(** The methods of [GenerativeModel] that [_instrument] patches on a
    process, in order, and those [_uninstrument] reverts. *)
Definition Google_patches (p : process) : list patch :=
  match import_from "google.generativeai" "GenerativeModel" with
  | Ret cls =>
      (cls, "generate_content", Method (Google_generate false)) ::
      (if Base.hasattr (heap p cls) "generate_content_async"
       then [(cls, "generate_content_async", Method (Google_generate true))]
       else [])
  | Raise _ => []
  end.
Definition Google_reverts : list (nat * string) :=
  reverts_of (import_from "google.generativeai" "GenerativeModel")
    ["generate_content"; "generate_content_async"].

(** *** The instrumentor classes *)

(** [importlib.import_module] as the probes use it: it leaves the objects
    and the store as they are. *)
Definition import_in (name : string) (p : process) : outcome pyval * process :=
  (import_module name, p).

(** [LangChainInstrumentor] *)
Definition LangChainInstrumentor : Base.InstrumentorClass process := {|
  Base.cls_name := "LangChainInstrumentor";
  Base.name := "LangChain";
  Base._check_installed := Base.LangChainInstrumentor_check_installed import_in;
  Base._instrument := LangChain_instrument;
  Base._uninstrument := LangChain_uninstrument
|}.

(** [LlamaIndexInstrumentor] *)
Definition LlamaIndexInstrumentor : Base.InstrumentorClass process := {|
  Base.cls_name := "LlamaIndexInstrumentor";
  Base.name := "LlamaIndex";
  Base._check_installed := Base.LlamaIndexInstrumentor_check_installed import_in;
  Base._instrument := LlamaIndex_instrument;
  Base._uninstrument := LlamaIndex_uninstrument
|}.

(** [OpenAIInstrumentor] *)
Definition OpenAIInstrumentor : Base.InstrumentorClass process := {|
  Base.cls_name := "OpenAIInstrumentor";
  Base.name := "OpenAI";
  Base._check_installed := Base.OpenAIInstrumentor_check_installed import_in;
  Base._instrument := OpenAI_instrument;
  Base._uninstrument := OpenAI_uninstrument
|}.

(** [AnthropicInstrumentor] *)
Definition AnthropicInstrumentor : Base.InstrumentorClass process := {|
  Base.cls_name := "AnthropicInstrumentor";
  Base.name := "Anthropic";
  Base._check_installed := Base.AnthropicInstrumentor_check_installed import_in;
  Base._instrument := Anthropic_instrument;
  Base._uninstrument := Anthropic_uninstrument
|}.

(** [GoogleAIInstrumentor] *)
Definition GoogleAIInstrumentor : Base.InstrumentorClass process := {|
  Base.cls_name := "GoogleAIInstrumentor";
  Base.name := "Google";
  Base._check_installed := Base.GoogleAIInstrumentor_check_installed import_in;
  Base._instrument := Google_instrument;
  Base._uninstrument := Google_uninstrument
|}.

(** The key a patch is stored under. *)
Definition key_of (p : process) (x : nat * string) : string :=
  Base.patch_key (heap p x.1) x.2.

(** [getattr(cls, method_name, None)] on a class object of the heap. *)
Definition attr_of (p : process) (x : nat * string) : option callable :=
  Base.getattr (heap p x.1) x.2.

(** [self._original_methods.get(key)] *)
Definition stored (p : process) (key : string) : option callable :=
  _original_methods p !! key.

End Instrumentors.

End Patches.

(** ** Concrete inputs *)

Module Examples.

(** Callables by identity: a library function, or the closure a wrapper
    factory builds around a callable. *)
Inductive callable : Type :=
  | Original (id : nat)
  | Wrapper (inner : callable).

(** The class of [test_wrap_method], with its one method. *)
Definition TestClass : Base.scope callable :=
  Base.Scope "tests.test_auto_instrument" (Some "TestClass") "type"
             {["method" := Original 0]} ∅.

(** Exceptions: one that derives from [Exception], the one an absent
    module raises, and one that does not derive from [Exception]. *)
Definition AttributeError (msg : string) : exn :=
  Py.standard_error "AttributeError" msg.
Definition ModuleNotFoundError (module_name : string) : exn :=
  Exn "ModuleNotFoundError" ["ImportError"; "Exception"; "BaseException"; "object"]
      ("No module named '" +:+ module_name +:+ "'").
Definition KeyboardInterrupt : exn :=
  Exn "KeyboardInterrupt" ["BaseException"; "object"] "".

(** Instrumentor classes over a process without state: their library is
    present, and [_instrument] completes, fails, or is interrupted. *)
Definition sound_class : Base.InstrumentorClass unit :=
  {| Base.cls_name := "OpenAIInstrumentor"; Base.name := "OpenAI";
     Base._check_installed := fun w => (Ret true, w);
     Base._instrument := fun w => (Ret tt, w);
     Base._uninstrument := fun w => (Ret tt, w) |}.
Definition failing_class : Base.InstrumentorClass unit :=
  {| Base.cls_name := "OpenAIInstrumentor"; Base.name := "OpenAI";
     Base._check_installed := fun w => (Ret true, w);
     Base._instrument := fun w =>
       (Raise (AttributeError "module 'openai' has no attribute 'resources'"), w);
     Base._uninstrument := fun w =>
       (Raise (AttributeError "module 'openai' has no attribute 'resources'"), w) |}.
Definition interrupted_class : Base.InstrumentorClass unit :=
  {| Base.cls_name := "OpenAIInstrumentor"; Base.name := "OpenAI";
     Base._check_installed := fun w => (Ret true, w);
     Base._instrument := fun w => (Raise KeyboardInterrupt, w);
     Base._uninstrument := fun w => (Ret tt, w) |}.
Definition absent_class (cls_name name : string) : Base.InstrumentorClass unit :=
  {| Base.cls_name := cls_name; Base.name := name;
     Base._check_installed := fun w => (Ret false, w);
     Base._instrument := fun w => (Ret tt, w);
     Base._uninstrument := fun w => (Ret tt, w) |}.


(** A world with telemetry object 0 configured, and one without. *)
Definition configured : Wrappers.World unit := Wrappers.MkWorld (Some 0%nat) [] 0 tt.

(** The externals: values print as ["?"], every response reports 12 input
    and 30 output tokens. *)
Definition env : Wrappers.Externals :=
  {| Wrappers.py_str := fun _ => "?";
     Wrappers.extract_tokens_from_response := fun _ => (12, 30) |}.

(** Originals: one that returns, one that raises [ValueError], one that
    returns two documents. *)
Definition ValueError (msg : string) : exn := Py.standard_error "ValueError" msg.
Definition answering : Wrappers.pycall unit :=
  fun _ _ => Wrappers.ret (PObj "ChatCompletion" []).
Definition failing : Wrappers.pycall unit :=
  fun _ _ => Wrappers.raise (ValueError "boom").


(** The five instrumentor modules import; only the OpenAI library is
    installed. *)
Definition variant_class (v : Base.variant) : Base.InstrumentorClass unit :=
  match v with
  | Base.OpenAI => sound_class
  | Base.Anthropic => absent_class "AnthropicInstrumentor" "Anthropic"
  | Base.LangChain => absent_class "LangChainInstrumentor" "LangChain"
  | Base.LlamaIndex => absent_class "LlamaIndexInstrumentor" "LlamaIndex"
  | Base.Google => absent_class "GoogleAIInstrumentor" "Google"
  end.
Definition importing (v : Base.variant) (w : unit)
    : outcome (Base.InstrumentorClass unit) * unit :=
  (Ret (variant_class v), w).

(** The module state before the first call, and one with two active
    variants, the second of which cannot be uninstalled. *)
Definition fresh_state : Auto.state := Auto.State [] [] tt.
Definition stuck_class : Base.InstrumentorClass unit :=
  {| Base.cls_name := "AnthropicInstrumentor"; Base.name := "Anthropic";
     Base._check_installed := fun w => (Ret true, w);
     Base._instrument := fun w => (Ret tt, w);
     Base._uninstrument := fun w =>
       (Raise (AttributeError "module 'anthropic' has no attribute 'resources'"), w) |}.
Definition two_active : Auto.state :=
  Auto.State [] [Base.Instrumentor sound_class true;
                 Base.Instrumentor stuck_class true] tt.

End Examples.

(** ** Further concrete inputs *)

Module Scenarios.

Import Examples.

Definition first_instance : Base.scope callable :=
  Base.Scope "tests.test_auto_instrument" None "TestClass"
             {["method" := Original 1]} ∅.
Definition second_instance : Base.scope callable :=
  Base.Scope "tests.test_auto_instrument" None "TestClass"
             {["method" := Original 2]} ∅.

(** An import machinery where only [langchain] is installed, next to the
    absent [langchain_core]. *)
Definition legacy_langchain (module_name : string) (w : unit)
    : outcome pyval * unit :=
  if String.eqb module_name "langchain" then (Ret (PObj "module" []), w)
  else (Raise (ModuleNotFoundError module_name), w).

(** An original that returns an iterator, which is true and has no
    length. *)
Definition streaming : Wrappers.pycall unit :=
  fun _ _ => Wrappers.ret (PObj "generator" []).

(** An original that answers only where telemetry is configured. *)
Definition answering_when_configured : Wrappers.pycall unit :=
  fun args kwargs w =>
    match Wrappers.w_telemetry w with
    | Some _ => answering args kwargs w
    | None => failing args kwargs w
    end.


(** The module state with the OpenAI variant installed. *)
Definition openai_active : Auto.state :=
  Auto.State [("openai", sound_class)] [Base.Instrumentor sound_class true] tt.

(** A LangChain installation that has the chat-model and the retriever
    classes only: the class objects 0 and 1 of the heap.  The retriever
    inherits [invoke]. *)
Definition langchain_import_from (module name : string) : outcome nat :=
  if String.eqb module "langchain_core.language_models.chat_models"
     && String.eqb name "BaseChatModel" then Ret 0%nat
  else if String.eqb module "langchain_core.retrievers"
          && String.eqb name "BaseRetriever" then Ret 1%nat
  else Raise (ModuleNotFoundError module).
Definition langchain_import_module (module_name : string) : outcome pyval :=
  if String.eqb module_name "langchain_core" then Ret (PObj "module" [])
  else Raise (ModuleNotFoundError module_name).
Definition langchain_heap (cls : nat) : Base.scope Patches.callable :=
  match cls with
  | 0%nat =>
      Base.Scope "langchain_core.language_models.chat_models"
                 (Some "BaseChatModel") "ABCMeta"
                 {["invoke" := Patches.Native 0; "ainvoke" := Patches.Native 1]} ∅
  | 1%nat =>
      Base.Scope "langchain_core.retrievers" (Some "BaseRetriever") "ABCMeta"
                 ∅ {["invoke" := Patches.Native 2]}
  | _ => Base.Scope "builtins" (Some "object") "type" ∅ ∅
  end.
Definition langchain_process : Patches.process :=
  Patches.Process langchain_heap ∅.

(** A LlamaIndex installation (the [llama_index.core] layout) that has the
    query-engine class only, without [aquery]: the class object 0. *)
Definition llamaindex_import_from (module name : string) : outcome nat :=
  if String.eqb module "llama_index.core.base.base_query_engine"
     && String.eqb name "BaseQueryEngine" then Ret 0%nat
  else Raise (ModuleNotFoundError module).
Definition llamaindex_import_module (module_name : string) : outcome pyval :=
  if String.eqb module_name "llama_index.core" then Ret (PObj "module" [])
  else Raise (ModuleNotFoundError module_name).
Definition llamaindex_heap (cls : nat) : Base.scope Patches.callable :=
  match cls with
  | 0%nat =>
      Base.Scope "llama_index.core.base.base_query_engine"
                 (Some "BaseQueryEngine") "ABCMeta"
                 {["query" := Patches.Native 0]} ∅
  | _ => Base.Scope "builtins" (Some "object") "type" ∅ ∅
  end.
Definition llamaindex_process : Patches.process :=
  Patches.Process llamaindex_heap ∅.

(** An installation whose modules fail while they are imported. *)
Definition broken_import_from (module name : string) : outcome nat :=
  Raise (ValueError ("error while importing " +:+ module)).

(** An installation of the three SDKs.  The objects, by reference:
    0 [openai], 1 [openai.resources], 2 [openai.resources.chat],
    3 the [completions] module with the classes 4 [Completions] and
    5 [AsyncCompletions], 6 the [embeddings] module with the class
    7 [Embeddings]; 10 [anthropic], 11 [anthropic.resources], 12 the
    [messages] module with the classes 13 [Messages] and 14
    [AsyncMessages]; 20 [google.generativeai], which has the function
    [embed_content], and 21 its class [GenerativeModel]. *)
Definition sdk_import_object (module : string) : outcome nat :=
  if String.eqb module "openai" then Ret 0%nat
  else if String.eqb module "anthropic" then Ret 10%nat
  else if String.eqb module "google.generativeai" then Ret 20%nat
  else Raise (ModuleNotFoundError module).
Definition sdk_import_from (module name : string) : outcome nat :=
  if String.eqb module "openai.resources.chat" && String.eqb name "completions"
  then Ret 3%nat
  else if String.eqb module "openai.resources" && String.eqb name "embeddings"
  then Ret 6%nat
  else if String.eqb module "anthropic.resources" && String.eqb name "messages"
  then Ret 12%nat
  else if String.eqb module "google.generativeai"
          && String.eqb name "GenerativeModel"
  then Ret 21%nat
  else Raise (ModuleNotFoundError module).
Definition sdk_import_module (module_name : string) : outcome pyval :=
  if String.eqb module_name "openai" then Ret (PObj "module" [])
  else Raise (ModuleNotFoundError module_name).
Definition sdk_attribute (obj : nat) (name : string) : option nat :=
  match obj with
  | 0%nat => if String.eqb name "resources" then Some 1%nat else None
  | 1%nat => if String.eqb name "chat" then Some 2%nat else None
  | 3%nat =>
      if String.eqb name "Completions" then Some 4%nat
      else if String.eqb name "AsyncCompletions" then Some 5%nat else None
  | 6%nat => if String.eqb name "Embeddings" then Some 7%nat else None
  | 10%nat => if String.eqb name "resources" then Some 11%nat else None
  | 11%nat => if String.eqb name "messages" then Some 12%nat else None
  | 12%nat =>
      if String.eqb name "Messages" then Some 13%nat
      else if String.eqb name "AsyncMessages" then Some 14%nat else None
  | _ => None
  end.
Definition sdk_class (module name : string) (create : nat)
    : Base.scope Patches.callable :=
  Base.Scope module (Some name) "type" {["create" := Patches.Native create]} ∅.
Definition sdk_heap (obj : nat) : Base.scope Patches.callable :=
  match obj with
  | 4%nat => sdk_class "openai.resources.chat.completions" "Completions" 0
  | 5%nat => sdk_class "openai.resources.chat.completions" "AsyncCompletions" 1
  | 7%nat => sdk_class "openai.resources.embeddings" "Embeddings" 2
  | 13%nat => sdk_class "anthropic.resources.messages" "Messages" 3
  | 14%nat => sdk_class "anthropic.resources.messages" "AsyncMessages" 4
  | 20%nat =>
      Base.Scope "google" (Some "google.generativeai") "module"
                 {["embed_content" := Patches.Native 5]} ∅
  | 21%nat =>
      Base.Scope "google.generativeai.generative_models" (Some "GenerativeModel")
                 "type"
                 {["generate_content" := Patches.Native 6;
                   "generate_content_async" := Patches.Native 7]} ∅
  | _ => Base.Scope "builtins" (Some "object") "type" ∅ ∅
  end.
Definition sdk_process : Patches.process := Patches.Process sdk_heap ∅.

(** The same installation with an [embeddings] module that fails while it
    is imported. *)
Definition sdk_broken_import_from (module name : string) : outcome nat :=
  if String.eqb module "openai.resources" && String.eqb name "embeddings"
  then Raise (ValueError "error while importing openai.resources.embeddings")
  else sdk_import_from module name.

End Scenarios.

(** * Properties *)

(** ** The generic interception utility *)

Section PatchingFacts.
Context {V : Type}.
Implicit Types (obj : Base.scope V) (store : gmap string V).

Lemma patch_key_setattr obj a v method_name :
  Base.patch_key (Base.setattr obj a v) method_name = Base.patch_key obj method_name.
Proof. reflexivity. Qed.

Lemma getattr_setattr_eq obj a v : Base.getattr (Base.setattr obj a v) a = Some v.
Proof. unfold Base.getattr, Base.setattr; simpl. by rewrite lookup_insert_eq. Qed.

Lemma getattr_setattr_ne obj a b v :
  a <> b -> Base.getattr (Base.setattr obj a v) b = Base.getattr obj b.
Proof.
  intros Hne. unfold Base.getattr, Base.setattr; simpl.
  by rewrite lookup_insert_ne.
Qed.


(** What one apply does to a scope that has the method: it stores the
    callable found on the scope, whatever the store held, and installs
    the wrapper. *)
Lemma wrap_method_present obj method_name f store original :
  Base.getattr obj method_name = Some original ->
  Base.wrap_method obj method_name f store
    = (true, Base.setattr obj method_name (f original),
       <[Base.patch_key obj method_name := original]> store).
Proof. intros H. unfold Base.wrap_method. by rewrite H. Qed.

Lemma wrap_method_absent obj method_name f store :
  Base.hasattr obj method_name = false ->
  Base.wrap_method obj method_name f store = (false, obj, store).
Proof.
  unfold Base.hasattr, Base.wrap_method. rewrite bool_decide_eq_false.
  destruct (Base.getattr obj method_name); [intros []; eauto | done].
Qed.

(** C1, as the code has it: a second apply for a key that is already
    stored overwrites the entry with the callable found on the scope at
    that moment, which is the wrapper the first apply installed; a revert
    then reinstalls that wrapper. *)
Theorem wrap_method_twice_stores_wrapper obj method_name (f g : V -> V) store original :
  Base.getattr obj method_name = Some original ->
  exists obj1 store1 obj2 store2,
    Base.wrap_method obj method_name f store = (true, obj1, store1) /\
    store1 !! Base.patch_key obj method_name = Some original /\
    Base.wrap_method obj1 method_name g store1 = (true, obj2, store2) /\
    store2 !! Base.patch_key obj method_name = Some (f original) /\
    Base.getattr obj2 method_name = Some (g (f original)) /\
    (Base.unwrap_method obj2 method_name store2).1.2
      = Base.setattr obj2 method_name (f original).
Proof.
  intros Hget.
  eexists _, _, _, _.
  split; [by apply wrap_method_present|].
  split; [by rewrite lookup_insert_eq|].
  assert (Hget1 : Base.getattr (Base.setattr obj method_name (f original)) method_name
                  = Some (f original)) by apply getattr_setattr_eq.
  split; [by apply wrap_method_present|].
  rewrite patch_key_setattr.
  split; [by rewrite lookup_insert_eq|].
  split; [apply getattr_setattr_eq|].
  unfold Base.unwrap_method. rewrite !patch_key_setattr.
  by rewrite lookup_insert_eq.
Qed.


End PatchingFacts.

(** C1 fails as the specification words it: wrapping [TestClass.method]
    twice leaves the first wrapper, not the original, in the store. *)
Lemma second_apply_overwrites_original : ~ Spec.second_apply_keeps_original.
Proof.
  intros H.
  specialize (H Examples.callable Examples.TestClass _ _ "method"
                Examples.Wrapper Examples.Wrapper ∅ _ _ (Examples.Original 0)
                eq_refl eq_refl eq_refl).
  vm_compute in H. discriminate H.
Qed.

Lemma wrap_method_twice_stores_wrapper_witness :
  exists obj1 store1 obj2 store2,
    Base.wrap_method Examples.TestClass "method" Examples.Wrapper ∅
      = (true, obj1, store1) /\
    store1 !! Base.patch_key Examples.TestClass "method"
      = Some (Examples.Original 0) /\
    Base.wrap_method obj1 "method" Examples.Wrapper store1 = (true, obj2, store2) /\
    store2 !! Base.patch_key Examples.TestClass "method"
      = Some (Examples.Wrapper (Examples.Original 0)) /\
    Base.getattr obj2 "method"
      = Some (Examples.Wrapper (Examples.Wrapper (Examples.Original 0))) /\
    (Base.unwrap_method obj2 "method" store2).1.2
      = Base.setattr obj2 "method" (Examples.Wrapper (Examples.Original 0)).
Proof.
  apply (wrap_method_twice_stores_wrapper Examples.TestClass "method"
           Examples.Wrapper Examples.Wrapper ∅ (Examples.Original 0)).
  reflexivity.
Defined.


(** ** The capability probe *)

Section ProbeFacts.
Context {W : Type}.
Variable import_module : string -> W -> outcome pyval * W.









End ProbeFacts.



(** ** The instrumentor life cycle *)

Section LifecycleFacts.
Context {W : Type}.
Implicit Types (self : Base.instrumentor W) (w : W).

(** [instrument()] changes the instance at most by setting the flag. *)
Lemma instrument_class self w r self' w' :
  Base.instrument self w = (r, self', w') ->
  Base.inst_class self' = Base.inst_class self.
Proof.
  unfold Base.instrument. intros H.
  destruct (Base._is_instrumented self); [by inversion H|].
  destruct (Base._check_installed _ w) as [[[|]|e] w1]; try by inversion H.
  destruct (Base._instrument _ w1) as [[u|e] w2]; [by inversion H|].
  destruct (isinstance_exn e "Exception"); by inversion H.
Qed.

(** C5, as the code has it: [instrument()] returns true at once on an
    installed instance; returns false, the instance unchanged, when the
    probe reports the library absent; when [_instrument] raises an
    instance of [Exception] the exception is caught and the call returns
    false, the instance still not installed, while an exception of another
    class leaves [instrument()], the instance still not installed; the
    instance becomes installed, and the call of a not yet installed
    instance returns true, only when [_instrument] completes. *)
Theorem instrument_lifecycle self w :
  (Base._is_instrumented self = true ->
     Base.instrument self w = (Ret true, self, w)) /\
  (Base._is_instrumented self = false ->
     forall w1, Base._check_installed (Base.inst_class self) w = (Ret false, w1) ->
     Base.instrument self w = (Ret false, self, w1)) /\
  (Base._is_instrumented self = false ->
     forall w1 w2 e,
       Base._check_installed (Base.inst_class self) w = (Ret true, w1) ->
       Base._instrument (Base.inst_class self) w1 = (Raise e, w2) ->
       Base.instrument self w
         = (if isinstance_exn e "Exception" then Ret false else Raise e, self, w2)) /\
  (Base._is_instrumented self = false ->
     forall w1 w2 u,
       Base._check_installed (Base.inst_class self) w = (Ret true, w1) ->
       Base._instrument (Base.inst_class self) w1 = (Ret u, w2) ->
       Base.instrument self w = (Ret true, Base.set_is_instrumented self true, w2)) /\
  (Base._is_instrumented self = false ->
     forall r self' w',
       Base.instrument self w = (r, self', w') ->
       r = Ret true \/ Base._is_instrumented self' = true ->
       r = Ret true /\ Base._is_instrumented self' = true /\
       exists w1 u,
         Base._check_installed (Base.inst_class self) w = (Ret true, w1) /\
         Base._instrument (Base.inst_class self) w1 = (Ret u, w')).
Proof.
  unfold Base.instrument.
  split; [|split; [|split; [|split]]].
  - intros ->. reflexivity.
  - intros -> w1 ->. reflexivity.
  - intros -> w1 w2 e -> ->. destruct (isinstance_exn e "Exception"); reflexivity.
  - intros -> w1 w2 u -> ->. reflexivity.
  - intros Hflag r self' w'. rewrite Hflag.
    destruct (Base._check_installed _ w) as [[[|]|e] w1].
    + destruct (Base._instrument _ w1) as [[u|e] w2] eqn:Hins.
      * intros [= <- <- <-] _. split; [reflexivity|]. split; [reflexivity|].
        exists w1, u. split; [reflexivity | exact Hins].
      * destruct (isinstance_exn e "Exception"); intros [= <- <- <-];
          rewrite Hflag; intros [?|?]; discriminate.
    + intros [= <- <- <-]. rewrite Hflag. intros [?|?]; discriminate.
    + intros [= <- <- <-]. rewrite Hflag. intros [?|?]; discriminate.
Qed.

End LifecycleFacts.

(** C5 fails as the specification words it: a [KeyboardInterrupt] raised
    by [_instrument] is not caught, [instrument()] raises it. *)
Lemma instrument_lets_KeyboardInterrupt_through : ~ Spec.install_catches_failure.
Proof.
  intros H.
  destruct (H unit (Base.new_instrumentor Examples.interrupted_class) tt tt tt
              Examples.KeyboardInterrupt eq_refl eq_refl eq_refl)
    as (self' & w' & Hret & _).
  discriminate Hret.
Qed.

Lemma instrument_lifecycle_witness :
  Base.instrument (Base.Instrumentor Examples.sound_class true) tt
    = (Ret true, Base.Instrumentor Examples.sound_class true, tt) /\
  Base.instrument (Base.new_instrumentor (Examples.absent_class "C" "c")) tt
    = (Ret false, Base.new_instrumentor (Examples.absent_class "C" "c"), tt) /\
  Base.instrument (Base.new_instrumentor Examples.failing_class) tt
    = (Ret false, Base.new_instrumentor Examples.failing_class, tt) /\
  Base.instrument (Base.new_instrumentor Examples.interrupted_class) tt
    = (Raise Examples.KeyboardInterrupt,
       Base.new_instrumentor Examples.interrupted_class, tt) /\
  Base.instrument (Base.new_instrumentor Examples.sound_class) tt
    = (Ret true, Base.Instrumentor Examples.sound_class true, tt).
Proof.
  split; [|split; [|split; [|split]]].
  - apply (instrument_lifecycle (Base.Instrumentor Examples.sound_class true) tt).
    reflexivity.
  - apply (instrument_lifecycle
             (Base.new_instrumentor (Examples.absent_class "C" "c")) tt);
      reflexivity.
  - apply (proj1 (proj2 (proj2
             (instrument_lifecycle (Base.new_instrumentor Examples.failing_class) tt)))
             eq_refl tt tt _ eq_refl eq_refl).
  - apply (proj1 (proj2 (proj2
             (instrument_lifecycle (Base.new_instrumentor Examples.interrupted_class) tt)))
             eq_refl tt tt _ eq_refl eq_refl).
  - apply (proj1 (proj2 (proj2 (proj2
             (instrument_lifecycle (Base.new_instrumentor Examples.sound_class) tt))))
             eq_refl tt tt tt eq_refl eq_refl).
Defined.

(** ** The call wrappers *)

Section WrapperFacts.
Import Wrappers.
Context {E : Type}.
Variable env : Externals.
Implicit Types (w : World E) (o : outcome pyval) (original : pycall E).

Lemma get_telemetry_configured w t :
  w_telemetry w = Some t -> _get_telemetry w = (Ret (Some t), w).
Proof. intros H. unfold _get_telemetry, get_telemetry. rewrite H. reflexivity. Qed.

Lemma get_telemetry_unconfigured w :
  w_telemetry w = None -> _get_telemetry w = (Ret None, w).
Proof. intros H. unfold _get_telemetry, get_telemetry. rewrite H. reflexivity. Qed.









(** Running a wrapper with telemetry configured, up to the [finally]
    block. *)
Ltac run_wrapper Htel Horig :=
  unfold bind, invoke, await, try_finally, time_time, elapsed_ms, ret, lift,
         send_span, new_trace;
  rewrite (get_telemetry_configured _ _ Htel); cbv beta iota;
  repeat match goal with |- context [if ?a then _ else _] =>
    is_var a; destruct a end;
  rewrite ?Horig.















End WrapperFacts.







(** ** The registry and the life-cycle controller *)

Section ControllerFacts.
Context {W : Type}.
Variable import_instrumentor :
  Base.variant -> W -> outcome (Base.InstrumentorClass W) * W.
Implicit Types (st : Auto.state (W := W)) (w : W).

Lemma instrument_one_dom target name c results active w results' active' w' :
  Auto.instrument_one target name c results active w = (Ret results', active', w') ->
  dom results' = dom results ∪ (if bool_decide (name ∈ target) then {[name]} else ∅).
Proof.
  unfold Auto.instrument_one.
  destruct (bool_decide (name ∈ target)); simpl.
  - destruct (match Auto.existing_instrumentor active c with
              | Some existing => Base.is_instrumented existing
              | None => false end).
    + intros [= <- <- <-]. rewrite dom_insert_L. set_solver.
    + destruct (Base.instrument (Base.new_instrumentor c) w) as [[[success|e] i] w1];
        [|discriminate].
      intros [= <- <- <-]. rewrite dom_insert_L. set_solver.
  - intros [= <- <- <-]. set_solver.
Qed.

Lemma instrument_each_dom items target results active w results' active' w' :
  Auto.instrument_each items target results active w = (Ret results', active', w') ->
  dom results' = dom results ∪ (target ∩ list_to_set items.*1).
Proof.
  revert results active w.
  induction items as [|[name c] items IH]; intros results active w; simpl.
  - intros [= <- <- <-]. set_solver.
  - destruct (Auto.instrument_one target name c results active w)
      as [[[results1|e] active1] w1] eqn:Hone; [|discriminate].
    intros Heach. rewrite (IH _ _ _ Heach), (instrument_one_dom _ _ _ _ _ _ _ _ _ Hone).
    case_bool_decide; set_solver.
Qed.







Lemma uninstrument_class (i i' : Base.instrumentor W) w r w' :
  Base.uninstrument i w = (r, i', w') -> Base.inst_class i' = Base.inst_class i.
Proof.
  unfold Base.uninstrument.
  destruct (negb (Base._is_instrumented i)); [intros [= <- <- <-]; reflexivity|].
  destruct (Base._uninstrument (Base.inst_class i) w) as [[u|e] w1].
  - intros [= <- <- <-]. reflexivity.
  - destruct (isinstance_exn e "Exception"); intros [= <- <- <-]; reflexivity.
Qed.

Lemma uninstrument_lower_name (i i' : Base.instrumentor W) w r w' :
  Base.uninstrument i w = (r, i', w') -> Spec.lower_name i' = Spec.lower_name i.
Proof.
  intros H. unfold Spec.lower_name. by rewrite (uninstrument_class _ _ _ _ _ H).
Qed.


Lemma remaining_after_cons (x : Base.instrumentor W * option bool) tr :
  Spec.remaining_after (x :: tr)
  = match x.2 with
    | Some true => Spec.remaining_after tr
    | _ => x.1 :: Spec.remaining_after tr
    end.
Proof.
  unfold Spec.remaining_after. rewrite filter_cons.
  destruct x as [i [[|]|]]; simpl; try case_decide; try reflexivity; congruence.
Qed.

Lemma uninstrument_each_trace frameworks todo w w' tr :
  Spec.uninstall_trace frameworks w todo w' tr ->
  forall visited results remaining,
    Auto.uninstrument_each visited todo frameworks results remaining w
    = (Ret (Spec.record_flags results tr), remaining ++ Spec.remaining_after tr, w').
Proof.
  induction 1 as [w|w w' i rest tr Hskip _ IH|w w1 w' i i' rest tr success Hsel Hcall _ IH];
    intros visited results remaining; simpl.
  - by rewrite app_nil_r.
  - rewrite Hskip, IH, remaining_after_cons; simpl. by rewrite <- app_assoc.
  - rewrite Hsel, Hcall, IH, remaining_after_cons; simpl.
    rewrite (uninstrument_lower_name _ _ _ _ _ Hcall).
    destruct success; simpl; [reflexivity | by rewrite <- app_assoc].
Qed.

Lemma uninstall_trace_names frameworks todo w w' tr :
  Spec.uninstall_trace (W := W) frameworks w todo w' tr ->
  Spec.lower_name <$> tr.*1 = Spec.lower_name <$> todo.
Proof.
  induction 1 as [|? ? ? ? ? ? ? IH|? ? ? ? ? ? ? ? ? Hcall ? IH].
  - reflexivity.
  - rewrite !fmap_cons. f_equal. exact IH.
  - rewrite !fmap_cons. f_equal; [|exact IH].
    exact (uninstrument_lower_name _ _ _ _ _ Hcall).
Qed.


Lemma record_flags_dom (tr : list (Base.instrumentor W * option bool)) :
  forall results name,
  name ∈ dom (Spec.record_flags results tr) <->
  name ∈ dom results \/ exists i b, (i, Some b) ∈ tr /\ Spec.lower_name i = name.
Proof.
  induction tr as [|[i [b|]] tr IH]; intros results name; simpl.
  - split; [by left|]. intros [?|(i & b & []%elem_of_nil & _)]; assumption.
  - rewrite IH, dom_insert_L, elem_of_union, elem_of_singleton. split.
    + intros [[->|?]|(i0 & b0 & Hin & Hname)].
      * right. exists i, b. split; [apply elem_of_cons; by left | reflexivity].
      * by left.
      * right. exists i0, b0. split; [apply elem_of_cons; by right | assumption].
    + intros [?|(i0 & b0 & [[= -> ->]|Hin]%elem_of_cons & Hname)].
      * left. by right.
      * left. left. by symmetry.
      * right. by exists i0, b0.
  - rewrite IH. split.
    + intros [?|(i0 & b0 & Hin & Hname)]; [by left|].
      right. exists i0, b0. split; [apply elem_of_cons; by right | assumption].
    + intros [?|(i0 & b0 & [[=]|Hin]%elem_of_cons & Hname)]; [by left|].
      right. by exists i0, b0.
Qed.

Lemma record_flags_other (tr : list (Base.instrumentor W * option bool)) :
  forall results name,
  name ∉ Spec.lower_name <$> tr.*1 ->
  Spec.record_flags results tr !! name = results !! name.
Proof.
  induction tr as [|[i [b|]] tr IH]; intros results name; simpl.
  - reflexivity.
  - intros Hnot. apply not_elem_of_cons in Hnot as [Hne Hnot].
    rewrite (IH _ _ Hnot). by apply lookup_insert_ne.
  - intros Hnot. apply not_elem_of_cons in Hnot as [_ Hnot]. by apply IH.
Qed.

Lemma record_flags_lookup (tr : list (Base.instrumentor W * option bool)) :
  forall results i b,
  NoDup (Spec.lower_name <$> tr.*1) ->
  (i, Some b) ∈ tr ->
  Spec.record_flags results tr !! Spec.lower_name i = Some b.
Proof.
  induction tr as [|[i0 o0] tr IH]; intros results i b Hnodup Hin.
  - by apply elem_of_nil in Hin.
  - simpl in Hnodup. apply NoDup_cons in Hnodup as [Hfresh Hnodup].
    apply elem_of_cons in Hin as [[= <- <-]|Hin]; simpl.
    + rewrite (record_flags_other _ _ _ Hfresh). apply lookup_insert_eq.
    + by apply IH.
Qed.


End ControllerFacts.





(** * Further properties of the code *)

(** ** More on the generic interception utility *)

Section PatchingMore.
Context {V : Type}.
Implicit Types (obj : Base.scope V) (store : gmap string V).

Lemma unwrap_method_present obj method_name store original :
  store !! Base.patch_key obj method_name = Some original ->
  Base.unwrap_method obj method_name store
    = (true, Base.setattr obj method_name original,
       delete (Base.patch_key obj method_name) store).
Proof. intros H. unfold Base.unwrap_method. by rewrite H. Qed.

Lemma unwrap_method_absent obj method_name store :
  store !! Base.patch_key obj method_name = None ->
  Base.unwrap_method obj method_name store = (false, obj, store).
Proof. intros H. unfold Base.unwrap_method. by rewrite H. Qed.

(** X1: An apply or a revert touches one attribute of the scope and one key of
    the store: every other attribute, the scope's identity and every other
    entry are as before. *)
Theorem patching_frame obj method_name (f : V -> V) store :
  let w := Base.wrap_method obj method_name f store in
  let u := Base.unwrap_method obj method_name store in
  (forall a, a <> method_name ->
     Base.getattr w.1.2 a = Base.getattr obj a /\
     Base.getattr u.1.2 a = Base.getattr obj a) /\
  (forall k, k <> Base.patch_key obj method_name ->
     w.2 !! k = store !! k /\ u.2 !! k = store !! k) /\
  Base.patch_key w.1.2 method_name = Base.patch_key obj method_name /\
  Base.patch_key u.1.2 method_name = Base.patch_key obj method_name /\
  Base.inherited_attrs w.1.2 = Base.inherited_attrs obj /\
  Base.inherited_attrs u.1.2 = Base.inherited_attrs obj.
Proof.
  unfold Base.wrap_method, Base.unwrap_method.
  destruct (Base.getattr obj method_name) as [original|];
    destruct (store !! Base.patch_key obj method_name) as [stored|]; simpl.
  all: repeat split; try reflexivity.
  all: try (intros; apply getattr_setattr_ne; congruence).
  all: try (intros; apply lookup_insert_ne; congruence).
  all: try (intros; apply lookup_delete_ne; congruence).
Qed.

(** X2: A revert without a stored original is refused and changes nothing;
    so is a second revert after one that succeeded. *)
Theorem unwrap_method_once obj method_name store :
  (store !! Base.patch_key obj method_name = None ->
   Base.unwrap_method obj method_name store = (false, obj, store)) /\
  (forall obj1 store1,
     Base.unwrap_method obj method_name store = (true, obj1, store1) ->
     Base.unwrap_method obj1 method_name store1 = (false, obj1, store1)).
Proof.
  unfold Base.unwrap_method. split.
  - intros ->. reflexivity.
  - intros obj1 store1.
    destruct (store !! Base.patch_key obj method_name) as [original|];
      [|discriminate].
    intros [= <- <-]. rewrite patch_key_setattr, lookup_delete_eq. reflexivity.
Qed.


(** X4: The key names a scope by its module and name only.  When two scopes
    with the same key for a method are wrapped one after the other with
    one store, the second apply replaces the first scope's original:
    reverting the first scope installs the second scope's callable on it,
    and the second scope can no longer be reverted. *)
Theorem same_key_scopes_collide obj_a obj_b method_name (f g : V -> V) store
    original_a original_b :
  Base.patch_key obj_a method_name = Base.patch_key obj_b method_name ->
  Base.getattr obj_a method_name = Some original_a ->
  Base.getattr obj_b method_name = Some original_b ->
  let wa := Base.wrap_method obj_a method_name f store in
  let wb := Base.wrap_method obj_b method_name g wa.2 in
  let ua := Base.unwrap_method wa.1.2 method_name wb.2 in
  let ub := Base.unwrap_method wb.1.2 method_name ua.2 in
  ua.1.1 = true /\
  Base.getattr ua.1.2 method_name = Some original_b /\
  ub = (false, wb.1.2, ua.2) /\
  Base.getattr ub.1.2 method_name = Some (g original_b).
Proof.
  intros Hkey Ha Hb. cbv zeta.
  rewrite (wrap_method_present _ _ _ _ _ Ha). simpl.
  rewrite (wrap_method_present _ _ _ _ _ Hb). simpl.
  rewrite (unwrap_method_present _ _ _ original_b)
    by (rewrite patch_key_setattr, Hkey; apply lookup_insert_eq).
  simpl. split; [reflexivity|]. split; [apply getattr_setattr_eq|].
  rewrite unwrap_method_absent
    by (rewrite !patch_key_setattr, Hkey; apply lookup_delete_eq).
  split; [reflexivity | apply getattr_setattr_eq].
Qed.

End PatchingMore.

(** ** More on the instrumentor life cycle and the probe *)

Section LifecycleMore.
Context {W : Type}.
Implicit Types (self : Base.instrumentor W) (w : W).

(** X5: The boolean [instrument()] returns is the installed state it leaves,
    the one [uninstrument()] returns is its negation; a call that raises
    leaves the installed state as it was, and neither call changes the
    class of the instance. *)
Theorem result_tells_installed_state self w :
  (forall r self' w',
     Base.instrument self w = (r, self', w') ->
     Base.inst_class self' = Base.inst_class self /\
     match r with
     | Ret b => Base._is_instrumented self' = b
     | Raise _ => Base._is_instrumented self' = Base._is_instrumented self
     end) /\
  (forall r self' w',
     Base.uninstrument self w = (r, self', w') ->
     Base.inst_class self' = Base.inst_class self /\
     match r with
     | Ret b => Base._is_instrumented self' = negb b
     | Raise _ => Base._is_instrumented self' = Base._is_instrumented self
     end).
Proof.
  split; intros r self' w'.
  - unfold Base.instrument.
    destruct (Base._is_instrumented self) eqn:Hflag.
    + intros [= <- <- <-]. split; [reflexivity | exact Hflag].
    + destruct (Base._check_installed _ w) as [[[|]|e] w1].
      * destruct (Base._instrument _ w1) as [[u|e] w2].
        -- intros [= <- <- <-]. split; reflexivity.
        -- destruct (isinstance_exn e "Exception"); intros [= <- <- <-];
             (split; [reflexivity | first [exact Hflag | reflexivity]]).
      * intros [= <- <- <-]. split; [reflexivity | exact Hflag].
      * intros [= <- <- <-]. split; [reflexivity | exact Hflag].
  - unfold Base.uninstrument.
    destruct (Base._is_instrumented self) eqn:Hflag; simpl.
    + destruct (Base._uninstrument _ w) as [[u|e] w1].
      * intros [= <- <- <-]. split; reflexivity.
      * destruct (isinstance_exn e "Exception"); intros [= <- <- <-];
          (split; [reflexivity | first [exact Hflag | reflexivity]]).
    + intros [= <- <- <-]. split; [reflexivity | exact Hflag].
Qed.

(** X6: [uninstrument()] mirrors [instrument()]: on an instance that is not
    installed it returns true without calling [_uninstrument]; on an
    installed one it calls [_uninstrument] once and returns true, the
    instance no longer installed, when the call completes; an instance of
    [Exception] is turned into false and any other exception leaves the
    call, the instance still installed in both cases. *)
Theorem uninstrument_lifecycle self w :
  (Base._is_instrumented self = false ->
     Base.uninstrument self w = (Ret true, self, w)) /\
  (Base._is_instrumented self = true ->
     forall u w1, Base._uninstrument (Base.inst_class self) w = (Ret u, w1) ->
     Base.uninstrument self w = (Ret true, Base.set_is_instrumented self false, w1)) /\
  (Base._is_instrumented self = true ->
     forall e w1, Base._uninstrument (Base.inst_class self) w = (Raise e, w1) ->
     Base.uninstrument self w
       = (if isinstance_exn e "Exception" then Ret false else Raise e, self, w1)).
Proof.
  unfold Base.uninstrument. split; [|split].
  - intros ->. reflexivity.
  - intros -> u w1 ->. reflexivity.
  - intros -> e w1 ->. simpl. destruct (isinstance_exn e "Exception"); reflexivity.
Qed.

(** X7: On a class whose probe and patches succeed, a fresh instance is
    installed by the first [instrument()]; a second [instrument()] on it
    returns true and calls neither the probe nor [_instrument]; and when
    [_uninstrument] completes, [uninstrument()] gives back the fresh
    instance, on which [instrument()] patches again. *)
Theorem install_cycle (c : Base.InstrumentorClass W) w w1 w2 u :
  Base._check_installed c w = (Ret true, w1) ->
  Base._instrument c w1 = (Ret u, w2) ->
  let installed := Base.Instrumentor c true in
  Base.instrument (Base.new_instrumentor c) w = (Ret true, installed, w2) /\
  (forall w', Base.instrument installed w' = (Ret true, installed, w')) /\
  (forall w' u' w'',
     Base._uninstrument c w' = (Ret u', w'') ->
     Base.uninstrument installed w' = (Ret true, Base.new_instrumentor c, w'')).
Proof.
  intros Hprobe Hpatch. cbv zeta. split; [|split].
  - unfold Base.instrument; simpl. rewrite Hprobe, Hpatch. reflexivity.
  - intros w'. reflexivity.
  - intros w' u' w'' Hun. unfold Base.uninstrument; simpl. rewrite Hun. reflexivity.
Qed.

Variable import_module : string -> W -> outcome pyval * W.

(** X8: The probe is true as soon as one of the variant's modules imports: the
    first one (then nothing else is imported), or, for LangChain and
    LlamaIndex, the second one after the first failed with [ImportError]. *)
Theorem probe_true_when_importable (v : Base.variant) w :
  (forall m w1,
     import_module (Probe.first_module v) w = (Ret m, w1) ->
     is_not_None m = true ->
     Base._check_installed_of import_module v w = (Ret true, w1)) /\
  (forall e w1 second m w2,
     import_module (Probe.first_module v) w = (Raise e, w1) ->
     isinstance_exn e "ImportError" = true ->
     Probe.second_module v = Some second ->
     import_module second w1 = (Ret m, w2) ->
     is_not_None m = true ->
     Base._check_installed_of import_module v w = (Ret true, w2)).
Proof.
  split.
  - intros m w1 Himp Hm.
    destruct v; simpl in Himp |- *;
      unfold Base.OpenAIInstrumentor_check_installed,
             Base.AnthropicInstrumentor_check_installed,
             Base.LangChainInstrumentor_check_installed,
             Base.LlamaIndexInstrumentor_check_installed,
             Base.GoogleAIInstrumentor_check_installed,
             Base.probe_either, Base.probe_one, Base.safe_import;
      rewrite Himp, Hm; reflexivity.
  - intros e w1 second m w2 Himp He Hsecond Himp2 Hm.
    destruct v; simpl in Himp, Hsecond |- *; try discriminate Hsecond;
      injection Hsecond as <-;
      unfold Base.LangChainInstrumentor_check_installed,
             Base.LlamaIndexInstrumentor_check_installed,
             Base.probe_either, Base.probe_one, Base.safe_import;
      rewrite Himp, He; simpl; rewrite Himp2, Hm; reflexivity.
Qed.

End LifecycleMore.

(** ** The utility and the life cycle at concrete inputs *)

Lemma patching_frame_witness :
  Base.getattr (Base.wrap_method Examples.TestClass "method" Examples.Wrapper ∅).1.2
               "other"
    = Base.getattr Examples.TestClass "other" /\
  (Base.unwrap_method Examples.TestClass "method" ∅).2 !! "key" = None.
Proof.
  destruct (patching_frame Examples.TestClass "method" Examples.Wrapper ∅)
    as (Hattr & Hstore & _).
  split.
  - apply (Hattr "other"). discriminate.
  - apply (Hstore "key"). discriminate.
Defined.

Lemma unwrap_method_once_witness :
  Base.unwrap_method Examples.TestClass "method" ∅ = (false, Examples.TestClass, ∅).
Proof.
  apply (proj1 (unwrap_method_once Examples.TestClass "method" ∅)). reflexivity.
Defined.


Lemma same_key_scopes_collide_witness :
  Base.getattr
    (Base.unwrap_method
       (Base.wrap_method Scenarios.first_instance "method" Examples.Wrapper ∅).1.2
       "method"
       (Base.wrap_method Scenarios.second_instance "method" Examples.Wrapper
          (Base.wrap_method Scenarios.first_instance "method" Examples.Wrapper ∅).2).2).1.2
    "method" = Some (Examples.Original 2).
Proof.
  pose proof (same_key_scopes_collide Scenarios.first_instance
                Scenarios.second_instance "method" Examples.Wrapper Examples.Wrapper ∅
                (Examples.Original 1) (Examples.Original 2)
                eq_refl eq_refl eq_refl) as H.
  cbv zeta in H. destruct H as (_ & H & _). exact H.
Defined.

Lemma result_tells_installed_state_witness :
  Base._is_instrumented
    (Base.instrument (Base.new_instrumentor Examples.failing_class) tt).1.2 = false /\
  Base._is_instrumented
    (Base.uninstrument (Base.Instrumentor Examples.stuck_class true) tt).1.2 = true.
Proof.
  destruct (result_tells_installed_state
              (Base.new_instrumentor Examples.failing_class) tt) as [Hin _].
  destruct (result_tells_installed_state
              (Base.Instrumentor Examples.stuck_class true) tt) as [_ Hun].
  split.
  - apply (Hin (Ret false) _ tt). reflexivity.
  - apply (Hun (Ret false) _ tt). reflexivity.
Defined.

Lemma uninstrument_lifecycle_witness :
  Base.uninstrument (Base.new_instrumentor Examples.sound_class) tt
    = (Ret true, Base.new_instrumentor Examples.sound_class, tt) /\
  Base.uninstrument (Base.Instrumentor Examples.sound_class true) tt
    = (Ret true, Base.Instrumentor Examples.sound_class false, tt) /\
  Base.uninstrument (Base.Instrumentor Examples.stuck_class true) tt
    = (Ret false, Base.Instrumentor Examples.stuck_class true, tt).
Proof.
  split; [|split].
  - apply (proj1 (uninstrument_lifecycle
                    (Base.new_instrumentor Examples.sound_class) tt)).
    reflexivity.
  - apply (proj1 (proj2 (uninstrument_lifecycle
                           (Base.Instrumentor Examples.sound_class true) tt))
             eq_refl tt tt).
    reflexivity.
  - apply (proj2 (proj2 (uninstrument_lifecycle
                           (Base.Instrumentor Examples.stuck_class true) tt))
             eq_refl
             (Examples.AttributeError "module 'anthropic' has no attribute 'resources'")
             tt).
    reflexivity.
Defined.

Lemma install_cycle_witness :
  Base.instrument (Base.new_instrumentor Examples.sound_class) tt
    = (Ret true, Base.Instrumentor Examples.sound_class true, tt) /\
  Base.uninstrument (Base.Instrumentor Examples.sound_class true) tt
    = (Ret true, Base.new_instrumentor Examples.sound_class, tt).
Proof.
  destruct (install_cycle Examples.sound_class tt tt tt tt eq_refl eq_refl)
    as (Hfirst & _ & Hback).
  split; [exact Hfirst|]. apply (Hback tt tt tt). reflexivity.
Defined.

Lemma probe_true_when_importable_witness :
  Base._check_installed_of Scenarios.legacy_langchain Base.LangChain tt
    = (Ret true, tt).
Proof.
  apply (proj2 (probe_true_when_importable Scenarios.legacy_langchain
                  Base.LangChain tt)
           (Examples.ModuleNotFoundError "langchain_core") tt "langchain"
           (PObj "module" []) tt); reflexivity.
Defined.

(** ** More on the call wrappers *)

Section WrapperMore.
Import Wrappers.
Context {E : Type}.
Variable env : Externals.
Implicit Types (w : World E) (o : outcome pyval) (original : pycall E).



Ltac run_wrapper Htel :=
  unfold bind, invoke, await, try_finally, time_time, elapsed_ms, ret, lift,
         send_span, new_trace;
  rewrite (get_telemetry_configured _ _ Htel); cbv beta iota;
  repeat match goal with |- context [if ?a then _ else _] =>
    is_var a; destruct a end.

Ltac unfold_wrappers :=
  unfold OpenAI_create_chat_wrapper, OpenAI_create_embedding_wrapper,
         Anthropic_create_messages_wrapper, Google_create_embed_wrapper,
         Google_create_generate_wrapper,
         LangChain_create_llm_invoke_wrapper, LangChain_create_llm_ainvoke_wrapper,
         LangChain_llm_wrapper, LangChain_create_chain_invoke_wrapper,
         LangChain_create_retriever_invoke_wrapper,
         LangChain_create_embeddings_wrapper, LangChain_create_tool_invoke_wrapper,
         LangChain_create_agent_invoke_wrapper,
         LlamaIndex_create_query_wrapper, LlamaIndex_create_aquery_wrapper,
         LlamaIndex_query_wrapper, LlamaIndex_create_retrieve_wrapper,
         LlamaIndex_create_llm_complete_wrapper, LlamaIndex_create_llm_chat_wrapper,
         LlamaIndex_llm_wrapper, LlamaIndex_create_embed_wrapper.

(** X9: With a sink configured, a wrapper consults the original once, with the
    receiver and the arguments it was given, in the world it was called in
    (after [new_trace] for the chain, agent and query wrappers): two
    originals that behave alike there give the same wrapped call. *)
Theorem original_called_with_given_arguments :
  (forall (k : function_wrapper) original1 original2 args kwargs w t,
     w_telemetry w = Some t ->
     original1 args kwargs w = original2 args kwargs w ->
     function_wrapper_of env k original1 args kwargs w
       = function_wrapper_of env k original2 args kwargs w) /\
  (forall (k : method_wrapper) original1 original2 self_instance args kwargs w t,
     w_telemetry w = Some t ->
     original1 (self_instance :: args) kwargs (Spec.call_world k w t)
       = original2 (self_instance :: args) kwargs (Spec.call_world k w t) ->
     method_wrapper_of env k original1 self_instance args kwargs w
       = method_wrapper_of env k original2 self_instance args kwargs w).
Proof.
  split.
  - intros k original1 original2 args kwargs w t Htel Hsame.
    destruct k; simpl; unfold_wrappers; run_wrapper Htel;
      rewrite Hsame; reflexivity.
  - intros k original1 original2 self_instance args kwargs w t Htel Hsame.
    unfold Spec.call_world, Spec.with_event in Hsame.
    destruct k; simpl in Hsame |- *; unfold_wrappers; run_wrapper Htel;
      rewrite Hsame; reflexivity.
Qed.



(** X11: The wrappers whose [finally] block computes on the result are not
    transparent: when the original returned and the block raises, the
    wrapped call raises that exception instead of returning the result,
    and no span is sent.  So does the LlamaIndex retriever wrapper on a
    true result that has no length, the Google wrapper on token counts
    that cannot be added, and the LlamaIndex LLM wrappers on a response
    whose usage cannot be read. *)
Theorem finally_failure_replaces_result original self_instance args kwargs w w1 t v e :
  w_telemetry w = Some t ->
  original (self_instance :: args) kwargs w = (Ret v, w1) ->
  (Py.truthy v = true -> Py.len v = Raise e ->
   LlamaIndex_create_retrieve_wrapper original self_instance args kwargs w
     = (Raise e, w1)) /\
  (forall is_async,
     Py.add (Google_usage_tokens v).1 (Google_usage_tokens v).2 = Raise e ->
     Google_create_generate_wrapper original is_async self_instance args kwargs w
       = (Raise e, w1)) /\
  (forall method,
     LlamaIndex_usage_tokens env v = Raise e ->
     LlamaIndex_llm_wrapper env method original self_instance args kwargs w
       = (Raise e, w1)).
Proof.
  intros Htel Horig. split; [|split].
  - intros Htrue Hlen. unfold_wrappers. run_wrapper Htel. rewrite Horig.
    cbn [returned]. unfold LlamaIndex_docs_count. rewrite Htrue, Hlen. reflexivity.
  - intros is_async Hadd. unfold_wrappers. run_wrapper Htel; rewrite Horig.
    all: cbn [returned]; destruct (Google_usage_tokens v) as [i out];
      simpl in Hadd; rewrite Hadd; reflexivity.
  - intros method Htokens. unfold_wrappers. run_wrapper Htel. rewrite Horig.
    cbn [returned]. rewrite Htokens. reflexivity.
Qed.



End WrapperMore.

Lemma original_called_with_given_arguments_witness :
  Wrappers.function_wrapper_of Examples.env (Wrappers.OpenAI_chat false)
    Examples.answering [] ∅ Examples.configured
  = Wrappers.function_wrapper_of Examples.env (Wrappers.OpenAI_chat false)
      Scenarios.answering_when_configured [] ∅ Examples.configured.
Proof.
  apply (proj1 (original_called_with_given_arguments Examples.env)
           (Wrappers.OpenAI_chat false) Examples.answering
           Scenarios.answering_when_configured [] ∅ Examples.configured 0%nat).
  - reflexivity.
  - reflexivity.
Defined.


Lemma finally_failure_replaces_result_witness :
  exists e,
    Wrappers.LlamaIndex_create_retrieve_wrapper Scenarios.streaming
      (PObj "VectorIndexRetriever" []) [] ∅ Examples.configured
    = (Raise e, Examples.configured) /\
    exn_type e = "TypeError".
Proof.
  eexists. split.
  - apply (proj1 (finally_failure_replaces_result Examples.env Scenarios.streaming
                    (PObj "VectorIndexRetriever" []) [] ∅ Examples.configured
                    Examples.configured 0%nat (PObj "generator" []) _
                    eq_refl eq_refl)).
    + reflexivity.
    + reflexivity.
  - reflexivity.
Defined.


(** ** More on the registry and the life-cycle controller *)

Section ControllerMore.
Context {W : Type}.
Variable import_instrumentor :
  Base.variant -> W -> outcome (Base.InstrumentorClass W) * W.
Implicit Types (st : Auto.state (W := W)) (w : W).

Lemma lower_ascii_idemp c : Py.lower_ascii (Py.lower_ascii c) = Py.lower_ascii c.
Proof.
  destruct c as [[] [] [] [] [] [] [] []]; reflexivity.
Qed.

Lemma lower_idemp s : Py.lower (Py.lower s) = Py.lower s.
Proof.
  induction s as [|c s IH]; simpl; [reflexivity|].
  by rewrite lower_ascii_idemp, IH.
Qed.

(** X13: The two queries agree, and the name asked for is compared without
    regard to case: a framework is instrumented exactly when its
    lower-cased name is among the instrumented frameworks. *)
Theorem is_instrumented_iff_listed (framework : string) st :
  Auto.is_instrumented framework st = true <->
  Py.lower framework ∈ Auto.get_instrumented_frameworks st.
Proof.
  unfold Auto.is_instrumented, Auto.get_instrumented_frameworks.
  rewrite existsb_exists, list_elem_of_fmap. split.
  - intros (i & Hin & [Hname Hflag]%andb_true_iff).
    exists i. split.
    + symmetry. by apply String.eqb_eq.
    + apply list_elem_of_filter. split; [exact Hflag|]. by apply list_elem_of_In.
  - intros (i & Hname & [Hflag Hin]%list_elem_of_filter).
    exists i. split; [by apply list_elem_of_In|].
    apply andb_true_iff. split; [|exact Hflag].
    apply String.eqb_eq. by symmetry.
Qed.

Lemma instrument_new_true (c : Base.InstrumentorClass W) w i w' :
  Base.instrument (Base.new_instrumentor c) w = (Ret true, i, w') ->
  i = Base.Instrumentor c true.
Proof.
  unfold Base.instrument; simpl.
  destruct (Base._check_installed c w) as [[[|]|e] w1]; try discriminate.
  destruct (Base._instrument c w1) as [[u|e] w2].
  - intros [= <- <-]. reflexivity.
  - destruct (isinstance_exn e "Exception"); discriminate.
Qed.

(** What one step of the loop does to the active list: nothing, or one
    installed instance of the entry's class added at the end. *)
Lemma instrument_one_active target name c results active w r active' w' :
  Auto.instrument_one target name c results active w = (r, active', w') ->
  active' = active \/ active' = active ++ [Base.Instrumentor c true].
Proof.
  unfold Auto.instrument_one.
  destruct (negb (bool_decide (name ∈ target))); [intros [= <- <- <-]; by left|].
  destruct (match Auto.existing_instrumentor active c with
            | Some existing => Base.is_instrumented existing
            | None => false end); [intros [= <- <- <-]; by left|].
  destruct (Base.instrument (Base.new_instrumentor c) w) as [[[[|]|e] i] w1] eqn:Hins.
  - intros [= <- <- <-]. right. by rewrite (instrument_new_true _ _ _ _ Hins).
  - intros [= <- <- <-]. by left.
  - intros [= <- <- <-]. by left.
Qed.

Lemma instrument_each_active items target results active w r active' w' :
  Auto.instrument_each items target results active w = (r, active', w') ->
  exists added,
    active' = active ++ added /\
    Forall (fun i => Base._is_instrumented i = true /\
                     exists name, (name, Base.inst_class i) ∈ items) added.
Proof.
  revert results active w.
  induction items as [|[name c] items IH]; intros results active w; simpl.
  - intros [= <- <- <-]. exists []. split; [by rewrite app_nil_r | constructor].
  - destruct (Auto.instrument_one target name c results active w)
      as [[[results1|e] active1] w1] eqn:Hone.
    + intros Hrest. destruct (IH _ _ _ Hrest) as (added & -> & Hadded).
      assert (Hweak : Forall (fun i => Base._is_instrumented i = true /\
                        exists name0, (name0, Base.inst_class i) ∈ (name, c) :: items)
                        added).
      { eapply Forall_impl; [exact Hadded|].
        intros i [Hflag (n & Hin)]. split; [exact Hflag|].
        exists n. by apply list_elem_of_further. }
      destruct (instrument_one_active _ _ _ _ _ _ _ _ _ Hone) as [->| ->].
      * by exists added.
      * exists (Base.Instrumentor c true :: added). split.
        -- by rewrite <- app_assoc.
        -- constructor; [|exact Hweak].
           split; [reflexivity|]. exists name. apply list_elem_of_here.
    + intros [= <- <- <-].
      destruct (instrument_one_active _ _ _ _ _ _ _ _ _ Hone) as [->| ->].
      * exists []. split; [by rewrite app_nil_r | constructor].
      * exists [Base.Instrumentor c true]. split; [reflexivity|].
        constructor; [|constructor].
        split; [reflexivity|]. exists name. apply list_elem_of_here.
Qed.

Lemma register_one_active key v st r st' :
  Auto.register_one import_instrumentor key v st = (r, st') ->
  Auto._active_instrumentors st' = Auto._active_instrumentors st.
Proof.
  unfold Auto.register_one.
  destruct (import_instrumentor v (Auto.process st)) as [[c|e] w].
  - intros [= <- <-]. reflexivity.
  - destruct (isinstance_exn e "ImportError"); intros [= <- <-]; reflexivity.
Qed.

Lemma register_instrumentors_active st r st' :
  Auto._register_instrumentors import_instrumentor st = (r, st') ->
  Auto._active_instrumentors st' = Auto._active_instrumentors st.
Proof.
  unfold Auto._register_instrumentors, Auto.and_then.
  destruct (Auto._INSTRUMENTORS st); [|intros [= <- <-]; reflexivity].
  repeat match goal with
  | |- context [Auto.register_one import_instrumentor ?k ?v ?s] =>
      let H := fresh "Hreg" in
      destruct (Auto.register_one import_instrumentor k v s) as [[[]|?] ?] eqn:H;
      apply register_one_active in H
  end; intros [= <- <-]; congruence.
Qed.

Lemma installed_variants_stay_installed (frameworks exclude : option (list string))
    st r st' :
  Auto.auto_instrument import_instrumentor frameworks exclude st = (r, st') ->
  Forall (fun i => Base._is_instrumented i = true) (Auto._active_instrumentors st) ->
  Forall (fun i => Base._is_instrumented i = true) (Auto._active_instrumentors st').
Proof.
  unfold Auto.auto_instrument.
  destruct (Auto._register_instrumentors import_instrumentor st) as [[u|e] st1] eqn:Hreg.
  - apply register_instrumentors_active in Hreg.
    destruct (Auto.instrument_each _ _ _ _ _) as [[o active] w] eqn:Heach.
    intros [= <- <-]. simpl.
    destruct (instrument_each_active _ _ _ _ _ _ _ _ Heach) as (added & -> & Hadded).
    rewrite Hreg. intros Hold. apply Forall_app. split; [exact Hold|].
    eapply Forall_impl; [exact Hadded|]. by intros i [Hflag _].
  - apply register_instrumentors_active in Hreg.
    intros [= <- <-]. by rewrite Hreg.
Qed.

(** X14: [auto_instrument] never removes or reorders an active variant: whether
    it returns or raises, the active list afterwards is the one before
    followed by the instances the call installed, each of a registered
    class and with its installed flag set.  So a list of installed
    variants stays one. *)
Theorem auto_instrument_extends_active (frameworks exclude : option (list string))
    st r st' :
  Auto.auto_instrument import_instrumentor frameworks exclude st = (r, st') ->
  exists added,
    Auto._active_instrumentors st' = Auto._active_instrumentors st ++ added /\
    Forall (fun i => Base._is_instrumented i = true /\
                     exists name, (name, Base.inst_class i) ∈ Auto._INSTRUMENTORS st')
           added /\
    (Forall (fun i => Base._is_instrumented i = true) (Auto._active_instrumentors st) ->
     Forall (fun i => Base._is_instrumented i = true) (Auto._active_instrumentors st')).
Proof.
  unfold Auto.auto_instrument.
  destruct (Auto._register_instrumentors import_instrumentor st) as [[u|e] st1] eqn:Hreg.
  - apply register_instrumentors_active in Hreg.
    destruct (Auto.instrument_each _ _ _ _ _) as [[o active] w] eqn:Heach.
    intros [= <- <-]. simpl.
    destruct (instrument_each_active _ _ _ _ _ _ _ _ Heach) as (added & -> & Hadded).
    exists added. rewrite Hreg. split; [reflexivity|]. split; [exact Hadded|].
    intros Hold. apply Forall_app. split; [exact Hold|].
    eapply Forall_impl; [exact Hadded|]. by intros i [Hflag _].
  - apply register_instrumentors_active in Hreg.
    intros [= <- <-]. exists []. rewrite app_nil_r.
    split; [exact Hreg|]. split; [constructor|]. by rewrite Hreg.
Qed.

Lemma instrument_one_other target name c results active w results' active' w' k :
  Auto.instrument_one target name c results active w = (Ret results', active', w') ->
  k <> name -> results' !! k = results !! k.
Proof.
  unfold Auto.instrument_one. intros Hone Hne.
  destruct (negb (bool_decide (name ∈ target))); [by injection Hone as <- _ _|].
  destruct (match Auto.existing_instrumentor active c with
            | Some existing => Base.is_instrumented existing
            | None => false end).
  - injection Hone as <- _ _. by apply lookup_insert_ne.
  - destruct (Base.instrument (Base.new_instrumentor c) w) as [[[b|e] i] w1];
      [|discriminate].
    injection Hone as <- _ _. by apply lookup_insert_ne.
Qed.

Lemma instrument_each_other items target results active w results' active' w' k :
  Auto.instrument_each items target results active w = (Ret results', active', w') ->
  k ∉ items.*1 -> results' !! k = results !! k.
Proof.
  revert results active w.
  induction items as [|[name c] items IH]; intros results active w; simpl.
  - by intros [= <- <- <-].
  - destruct (Auto.instrument_one target name c results active w)
      as [[[results1|e] active1] w1] eqn:Hone; [|discriminate].
    intros Hrest [Hne Hnot]%not_elem_of_cons.
    rewrite (IH _ _ _ Hrest Hnot).
    exact (instrument_one_other _ _ _ _ _ _ _ _ _ _ Hone Hne).
Qed.

Lemma existing_instrumentor_Some active (c : Base.InstrumentorClass W) i :
  Auto.existing_instrumentor active c = Some i ->
  i ∈ active /\ Base.cls_name (Base.inst_class i) = Base.cls_name c.
Proof.
  unfold Auto.existing_instrumentor. intros [Hin Heq]%find_some.
  split; [by apply list_elem_of_In | by apply String.eqb_eq].
Qed.

(** A name recorded true has an installed instance of its class. *)
Lemma instrument_one_true target name c results active w results' active' w' :
  Auto.instrument_one target name c results active w = (Ret results', active', w') ->
  results !! name = None ->
  results' !! name = Some true ->
  exists i, i ∈ active' /\
            Base.cls_name (Base.inst_class i) = Base.cls_name c /\
            Base._is_instrumented i = true.
Proof.
  unfold Auto.instrument_one. intros Hone Hfresh Htrue.
  destruct (negb (bool_decide (name ∈ target))).
  { injection Hone as <- _ _. congruence. }
  destruct (Auto.existing_instrumentor active c) as [existing|] eqn:Hex.
  - destruct (Base.is_instrumented existing) eqn:Hflag.
    + injection Hone as _ <- _.
      destruct (existing_instrumentor_Some _ _ _ Hex) as [Hin Hcls]. eauto.
    + destruct (Base.instrument (Base.new_instrumentor c) w) as [[[b|e] i] w1] eqn:Hins;
        [|discriminate].
      injection Hone as <- <- _. rewrite lookup_insert_eq in Htrue.
      injection Htrue as ->. rewrite (instrument_new_true _ _ _ _ Hins).
      exists (Base.Instrumentor c true).
      split; [apply elem_of_app; right; apply list_elem_of_here|]. by split.
  - destruct (Base.instrument (Base.new_instrumentor c) w) as [[[b|e] i] w1] eqn:Hins;
      [|discriminate].
    injection Hone as <- <- _. rewrite lookup_insert_eq in Htrue.
    injection Htrue as ->. rewrite (instrument_new_true _ _ _ _ Hins).
    exists (Base.Instrumentor c true).
    split; [apply elem_of_app; right; apply list_elem_of_here|]. by split.
Qed.

Lemma instrument_each_true items target results active w results' active' w' :
  Auto.instrument_each items target results active w = (Ret results', active', w') ->
  NoDup items.*1 ->
  (forall k, k ∈ items.*1 -> results !! k = None) ->
  forall name c, (name, c) ∈ items -> results' !! name = Some true ->
  exists i, i ∈ active' /\
            Base.cls_name (Base.inst_class i) = Base.cls_name c /\
            Base._is_instrumented i = true.
Proof.
  revert results active w.
  induction items as [|[name0 c0] items IH]; intros results active w; simpl.
  - intros _ _ _ name c []%elem_of_nil.
  - destruct (Auto.instrument_one target name0 c0 results active w)
      as [[[results1|e] active1] w1] eqn:Hone; [|discriminate].
    intros Hrest [Hfresh Hnodup]%NoDup_cons Hnone name c Hin Htrue.
    apply elem_of_cons in Hin as [[= -> ->]|Hin].
    + rewrite (instrument_each_other _ _ _ _ _ _ _ _ _ Hrest Hfresh) in Htrue.
      destruct (instrument_one_true _ _ _ _ _ _ _ _ _ Hone
                  (Hnone _ (list_elem_of_here _ _)) Htrue) as (i & Hi & Hcls & Hflag).
      destruct (instrument_each_active _ _ _ _ _ _ _ _ Hrest) as (added & -> & _).
      exists i. split; [apply elem_of_app; by left | by split].
    + apply (IH _ _ _ Hrest Hnodup) with (name := name); [|exact Hin|exact Htrue].
      intros k Hk.
      rewrite (instrument_one_other _ _ _ _ _ _ _ _ _ k Hone).
      * apply Hnone. by apply list_elem_of_further.
      * intros ->. by apply Hfresh.
Qed.

(** The loop over a registry whose targeted classes all have an installed
    instance among installed variants: it records true for each and calls
    nothing. *)
Lemma instrument_each_settled items target active w :
  Forall (fun i => Base._is_instrumented i = true) active ->
  (forall name c, (name, c) ∈ items -> name ∈ target ->
     exists i, i ∈ active /\ Base.cls_name (Base.inst_class i) = Base.cls_name c) ->
  forall results,
  exists results',
    Auto.instrument_each items target results active w = (Ret results', active, w) /\
    forall k, results' !! k
              = if bool_decide (k ∈ items.*1 /\ k ∈ target) then Some true
                else results !! k.
Proof.
  intros Hflags.
  induction items as [|[name c] items IH]; intros Hhave results;
    cbn [Auto.instrument_each].
  - exists results. split; [reflexivity|]. intros k.
    rewrite bool_decide_eq_false_2; [reflexivity|]. by intros [[]%elem_of_nil _].
  - assert (Hrest : forall name0 c0, (name0, c0) ∈ items -> name0 ∈ target ->
              exists i, i ∈ active /\
                        Base.cls_name (Base.inst_class i) = Base.cls_name c0).
    { intros name0 c0 Hin. apply Hhave. by apply list_elem_of_further. }
    unfold Auto.instrument_one.
    destruct (bool_decide (name ∈ target)) eqn:Htarget; simpl.
    + apply bool_decide_eq_true in Htarget.
      destruct (Hhave name c (list_elem_of_here _ _) Htarget) as (j & Hj & Hcls).
      destruct (Auto.existing_instrumentor active c) as [i|] eqn:Hex.
      * destruct (existing_instrumentor_Some _ _ _ Hex) as [Hi _].
        unfold Base.is_instrumented.
        rewrite (proj1 (Forall_forall _ _) Hflags i Hi).
        destruct (IH Hrest (<[name := true]> results)) as (results' & -> & Hlook).
        exists results'. split; [reflexivity|]. intros k. rewrite Hlook.
        change (((name, c) :: items).*1) with (name :: items.*1).
        destruct (decide (k = name)) as [->|Hne];
          [rewrite lookup_insert_eq | rewrite lookup_insert_ne by done];
          repeat case_bool_decide; try reflexivity;
          exfalso; rewrite elem_of_cons in *; naive_solver.
      * exfalso. unfold Auto.existing_instrumentor in Hex.
        pose proof (find_none _ _ Hex j (proj1 (list_elem_of_In _ _) Hj)) as Hno.
        simpl in Hno. apply String.eqb_neq in Hno. by apply Hno.
    + apply bool_decide_eq_false in Htarget.
      destruct (IH Hrest results) as (results' & -> & Hlook).
      exists results'. split; [reflexivity|]. intros k. rewrite Hlook.
      change (((name, c) :: items).*1) with (name :: items.*1).
      repeat case_bool_decide; try reflexivity;
        exfalso; rewrite elem_of_cons in *; naive_solver.
Qed.

(** X15: [auto_instrument] is idempotent once everything selected is
    installed: after a call on a list of installed variants that reported
    true for every name of its result, the same call again returns the
    same result and changes nothing, calling neither an import nor
    [instrument()]. *)
Theorem auto_instrument_idempotent (frameworks exclude : option (list string))
    st results st' :
  Forall (fun i => Base._is_instrumented i = true) (Auto._active_instrumentors st) ->
  Auto.auto_instrument import_instrumentor frameworks exclude st = (Ret results, st') ->
  Auto._INSTRUMENTORS st' <> [] ->
  NoDup (Auto._INSTRUMENTORS st').*1 ->
  (forall name b, results !! name = Some b -> b = true) ->
  Auto.auto_instrument import_instrumentor frameworks exclude st' = (Ret results, st').
Proof.
  intros Hinv Hrun Hne Hnodup Hall.
  pose proof (installed_variants_stay_installed _ _ _ _ _ Hrun) as Hflags.
  specialize (Hflags Hinv).
  unfold Auto.auto_instrument in Hrun |- *.
  destruct (Auto._register_instrumentors import_instrumentor st) as [[u|e] st1];
    [|discriminate].
  destruct (Auto.instrument_each _ _ _ _ _) as [[o active] w] eqn:Heach.
  injection Hrun as -> <-. simpl in *.
  unfold Auto._register_instrumentors; simpl.
  destruct (Auto._INSTRUMENTORS st1) as [|item items] eqn:Hreg; [done|].
  rewrite <- Hreg in *. simpl.
  set (target := Auto.frameworks_to_instrument (Auto._INSTRUMENTORS st1)
                   frameworks exclude) in *.
  assert (Hdom := instrument_each_dom _ _ _ _ _ _ _ _ Heach).
  rewrite dom_empty_L, union_empty_l_L in Hdom.
  assert (Hin_results : forall k, k ∈ (Auto._INSTRUMENTORS st1).*1 -> k ∈ target ->
                                  results !! k = Some true).
  { intros k Hk Ht.
    assert (Hkd : k ∈ dom results) by (rewrite Hdom; set_solver).
    apply elem_of_dom in Hkd as [b Hb]. by rewrite Hb, (Hall _ _ Hb). }
  destruct (instrument_each_settled (Auto._INSTRUMENTORS st1) target active w Hflags)
    with (results := (∅ : gmap string bool)) as (results' & -> & Hlook).
  { intros name c Hin Ht.
    assert (Hname : name ∈ (Auto._INSTRUMENTORS st1).*1).
    { apply list_elem_of_fmap. by exists (name, c). }
    destruct (instrument_each_true _ _ _ _ _ _ _ _ Heach Hnodup
                (fun k _ => lookup_empty k) name c Hin (Hin_results _ Hname Ht))
      as (i & Hi & Hcls & _).
    eauto. }
  f_equal. f_equal. apply map_eq. intros k. rewrite Hlook, lookup_empty.
  case_bool_decide as Hk.
  - symmetry. destruct Hk as [Hk Ht]. by apply Hin_results.
  - symmetry. apply not_elem_of_dom. rewrite Hdom. set_solver.
Qed.

(** X16: A name [auto_instrument] reports true has, in the active list the call
    leaves, an installed instance of the class registered under it. *)
Theorem auto_instrument_true_is_installed (frameworks exclude : option (list string))
    st results st' :
  Auto.auto_instrument import_instrumentor frameworks exclude st = (Ret results, st') ->
  NoDup (Auto._INSTRUMENTORS st').*1 ->
  forall name c,
    (name, c) ∈ Auto._INSTRUMENTORS st' ->
    results !! name = Some true ->
    exists i, i ∈ Auto._active_instrumentors st' /\
              Base.cls_name (Base.inst_class i) = Base.cls_name c /\
              Base._is_instrumented i = true.
Proof.
  unfold Auto.auto_instrument.
  destruct (Auto._register_instrumentors import_instrumentor st) as [[u|e] st1];
    [|discriminate].
  destruct (Auto.instrument_each _ _ _ _ _) as [[o active] w] eqn:Heach.
  intros [= -> <-]. simpl. intros Hnodup name c Hin Htrue.
  exact (instrument_each_true _ _ _ _ _ _ _ _ Heach Hnodup
           (fun k _ => lookup_empty k) name c Hin Htrue).
Qed.

Lemma uninstrument_each_has_trace frameworks todo :
  forall visited results remaining w results' remaining' w',
    Auto.uninstrument_each (W := W) visited todo frameworks results remaining w
      = (Ret results', remaining', w') ->
    exists tr, Spec.uninstall_trace frameworks w todo w' tr.
Proof.
  induction todo as [|i rest IH]; intros visited results remaining w results'
    remaining' w'; simpl.
  - intros [= _ _ <-]. eexists. constructor.
  - destruct (Auto.not_selected frameworks _) eqn:Hsel.
    + intros Hrest. destruct (IH _ _ _ _ _ _ _ Hrest) as (tr & Htr).
      eexists. apply Spec.trace_skip; eassumption.
    + destruct (Base.uninstrument i w) as [[[b|e] i'] w1] eqn:Hcall; [|discriminate].
      intros Hrest. destruct (IH _ _ _ _ _ _ _ Hrest) as (tr & Htr).
      eexists. eapply Spec.trace_call; eassumption.
Qed.

Lemma uninstrument_false_installed (i i' : Base.instrumentor W) w w' :
  Base.uninstrument i w = (Ret false, i', w') -> Base._is_instrumented i' = true.
Proof.
  unfold Base.uninstrument.
  destruct (Base._is_instrumented i) eqn:Hflag; simpl; [|discriminate].
  destruct (Base._uninstrument _ w) as [[u|e] w1]; [discriminate|].
  destruct (isinstance_exn e "Exception"); [|discriminate].
  by intros [= <- _].
Qed.

Lemma uninstall_trace_failed frameworks todo w w' tr :
  Spec.uninstall_trace (W := W) frameworks w todo w' tr ->
  forall i, (i, Some false) ∈ tr -> Base._is_instrumented i = true.
Proof.
  induction 1 as [|? ? ? ? ? ? ? IH|? ? ? ? ? ? ? b ? Hcall ? IH]; intros j Hj.
  - by apply elem_of_nil in Hj.
  - apply elem_of_cons in Hj as [[=]|Hj]. by apply IH.
  - apply elem_of_cons in Hj as [[= -> <-]|Hj]; [|by apply IH].
    exact (uninstrument_false_installed _ _ _ _ Hcall).
Qed.

Lemma elem_of_remaining_after (tr : list (Base.instrumentor W * option bool)) i :
  i ∈ Spec.remaining_after tr <-> exists r, (i, r) ∈ tr /\ r <> Some true.
Proof.
  unfold Spec.remaining_after. rewrite list_elem_of_fmap. split.
  - intros ([j r] & -> & [Hr Hin]%list_elem_of_filter). by exists r.
  - intros (r & Hin & Hr). exists (i, r). split; [reflexivity|].
    by apply list_elem_of_filter.
Qed.

Lemma is_instrumented_true st name :
  Auto.is_instrumented name st = true <->
  exists i, i ∈ Auto._active_instrumentors st /\
            Spec.lower_name i = Py.lower name /\ Base._is_instrumented i = true.
Proof.
  unfold Auto.is_instrumented. rewrite existsb_exists. split.
  - intros (i & Hin%list_elem_of_In & [Hname%String.eqb_eq Hflag]%andb_true_iff).
    by exists i.
  - intros (i & Hin & Hname & Hflag). exists i.
    split; [by apply list_elem_of_In|].
    apply andb_true_iff. split; [by apply String.eqb_eq | exact Hflag].
Qed.

(** X17: After a call of [uninstrument] that returned, the names of the active
    variants being distinct, [is_instrumented] answers the opposite of
    what the result reports: a name reported false is still instrumented,
    its variant kept with its installed flag set, and a name reported true
    no longer is. *)
Theorem uninstrument_result_tells_is_instrumented (frameworks : option (list string))
    st results st' :
  NoDup (Spec.lower_name <$> Auto._active_instrumentors st) ->
  Auto.uninstrument frameworks st = (Ret results, st') ->
  forall name b,
    results !! name = Some b ->
    Auto.is_instrumented name st' = negb b.
Proof.
  intros Hnodup Hrun name b Hname.
  unfold Auto.uninstrument in Hrun.
  destruct (Auto.uninstrument_each _ _ _ _ _ _) as [[o active] w] eqn:Heach.
  injection Hrun as -> <-.
  destruct (uninstrument_each_has_trace _ _ _ _ _ _ _ _ _ Heach) as (tr & Htr).
  rewrite (uninstrument_each_trace _ _ _ _ _ Htr) in Heach.
  injection Heach as <- <-. simpl in *.
  pose proof (uninstall_trace_names _ _ _ _ _ Htr) as Hnames.
  rewrite <- Hnames in Hnodup.
  assert (Hcalled : exists i, (i, Some b) ∈ tr /\ Spec.lower_name i = name).
  { assert (Hd : name ∈ dom (Spec.record_flags ∅ tr)) by (apply elem_of_dom; eauto).
    apply record_flags_dom in Hd as [[]%elem_of_dom%lookup_empty_is_Some|(i & b' & Hin & Hi)].
    exists i. split; [|exact Hi].
    pose proof (record_flags_lookup tr ∅ i b' Hnodup Hin) as Hb'.
    rewrite Hi, Hname in Hb'. by injection Hb' as ->. }
  destruct Hcalled as (i & Hin & <-).
  assert (Hlow : Py.lower (Spec.lower_name i) = Spec.lower_name i)
    by apply lower_idemp.
  destruct b; simpl.
  - apply not_true_iff_false. intros (j & Hj & Hjname & _)%is_instrumented_true.
    simpl in Hj. apply elem_of_remaining_after in Hj as (r & Hj & Hr).
    rewrite Hlow in Hjname.
    assert (Heq : (j, r) = (i, Some true)).
    { clear -Hnodup Hj Hin Hjname.
      induction tr as [|[i0 r0] tr IH]; [by apply elem_of_nil in Hj|].
      simpl in Hnodup. apply NoDup_cons in Hnodup as [Hfresh Hnodup].
      apply elem_of_cons in Hj as [[= -> ->]|Hj];
        apply elem_of_cons in Hin as [[= <- <-]|Hin].
      - reflexivity.
      - exfalso. apply Hfresh. rewrite Hjname.
        apply list_elem_of_fmap. exists i. split; [reflexivity|].
        apply list_elem_of_fmap. by exists (i, Some true).
      - exfalso. apply Hfresh. rewrite <- Hjname.
        apply list_elem_of_fmap. exists j. split; [reflexivity|].
        apply list_elem_of_fmap. by exists (j, r).
      - by apply IH. }
    injection Heq as _ ->. by apply Hr.
  - apply is_instrumented_true. exists i. split; [|split].
    + simpl. apply elem_of_remaining_after. by exists (Some false).
    + by rewrite Hlow.
    + exact (uninstall_trace_failed _ _ _ _ _ Htr _ Hin).
Qed.

Lemma dict_set_keys {A} (k : string) (v : A) d :
  k ∉ d.*1 -> (Auto.dict_set k v d).*1 = d.*1 ++ [k].
Proof.
  induction d as [|[k0 v0] d IH]; [reflexivity|].
  rewrite fmap_cons. intros [Hne Hnot]%not_elem_of_cons.
  cbn [Auto.dict_set]. destruct (String.eqb_spec k k0) as [Heq|_]; [done|].
  rewrite !fmap_cons, (IH Hnot). reflexivity.
Qed.

Lemma register_one_keys key v st r st' :
  Auto.register_one import_instrumentor key v st = (r, st') ->
  key ∉ (Auto._INSTRUMENTORS st).*1 ->
  (Auto._INSTRUMENTORS st').*1 = (Auto._INSTRUMENTORS st).*1 \/
  (Auto._INSTRUMENTORS st').*1 = (Auto._INSTRUMENTORS st).*1 ++ [key].
Proof.
  unfold Auto.register_one. intros Hone Hfresh.
  destruct (import_instrumentor v (Auto.process st)) as [[c|e] w].
  - injection Hone as _ <-. simpl. right. by apply dict_set_keys.
  - destruct (isinstance_exn e "ImportError"); injection Hone as _ <-; by left.
Qed.

(** X18: Registration is skipped when the registry is not empty.  From an
    empty registry, whether it returns or raises on an import that fails
    otherwise than with [ImportError], the names it registers are among
    ["openai"], ["anthropic"], ["langchain"], ["llamaindex"] and
    ["google"], in this order; they are these five when every
    instrumentor module imports. *)
Theorem register_instrumentors_keys st r st' :
  Auto._register_instrumentors import_instrumentor st = (r, st') ->
  (Auto._INSTRUMENTORS st <> [] -> r = Ret tt /\ st' = st) /\
  (Auto._INSTRUMENTORS st = [] ->
   sublist (Auto._INSTRUMENTORS st').*1
           ["openai"; "anthropic"; "langchain"; "llamaindex"; "google"]) /\
  (Auto._INSTRUMENTORS st = [] ->
   (forall v w, exists c w', import_instrumentor v w = (Ret c, w')) ->
   r = Ret tt /\
   (Auto._INSTRUMENTORS st').*1
     = ["openai"; "anthropic"; "langchain"; "llamaindex"; "google"]).
Proof.
  unfold Auto._register_instrumentors, Auto.and_then. intros Hrun.
  split; [|split].
  - intros Hne. destruct (Auto._INSTRUMENTORS st); [done|]. by injection Hrun as <- <-.
  - intros Hempty. rewrite Hempty in Hrun.
    assert (Hstart : (Auto._INSTRUMENTORS st).*1 = []) by by rewrite Hempty.
    revert Hrun.
    repeat match goal with
    | |- context [Auto.register_one import_instrumentor ?k ?v ?s] =>
        let H := fresh "Hreg" in
        destruct (Auto.register_one import_instrumentor k v s) as [[[]|?] ?] eqn:H;
        apply register_one_keys in H;
        [ destruct H as [H|H] | | destruct H as [H|H] | ];
        try (intros [= <- <-])
    end.
    all: try (intros [= <- <-]).
    all: repeat match goal with
         | H : (Auto._INSTRUMENTORS _).*1 = _ |- _ => rewrite H in *; clear H
         end.
    all: try (simpl; intros Hin; repeat (apply elem_of_cons in Hin as [Hin|Hin];
                [discriminate Hin|]); by apply elem_of_nil in Hin).
    all: simpl; repeat first [apply sublist_nil | apply sublist_skip_eq_cons
                             | apply sublist_skip | apply sublist_cons].
  - intros Hempty Himports. rewrite Hempty in Hrun.
    unfold Auto.register_one in Hrun.
    repeat match type of Hrun with
    | context [import_instrumentor ?v ?w] =>
        let c := fresh "c" in
        let w' := fresh "w" in
        let H := fresh "Himp" in
        destruct (Himports v w) as (c & w' & H);
        rewrite H in Hrun; cbn [Auto._INSTRUMENTORS Auto._active_instrumentors
                                Auto.process] in Hrun
    end.
    injection Hrun as <- <-. split; [reflexivity|].
    cbn [Auto._INSTRUMENTORS]. rewrite Hempty. reflexivity.
Qed.

End ControllerMore.

Lemma is_instrumented_iff_listed_witness :
  Auto.is_instrumented "OpenAI" Examples.two_active = true.
Proof.
  apply (proj2 (is_instrumented_iff_listed "OpenAI" Examples.two_active)).
  vm_compute. apply list_elem_of_here.
Defined.

Lemma auto_instrument_extends_active_witness :
  exists added,
    Auto._active_instrumentors
      (Auto.auto_instrument Examples.importing None None Scenarios.openai_active).2
    = Auto._active_instrumentors Scenarios.openai_active ++ added.
Proof.
  destruct (auto_instrument_extends_active Examples.importing None None
              Scenarios.openai_active
              (Auto.auto_instrument Examples.importing None None
                 Scenarios.openai_active).1
              (Auto.auto_instrument Examples.importing None None
                 Scenarios.openai_active).2
              eq_refl) as (added & Hactive & _).
  exists added. exact Hactive.
Defined.

Lemma auto_instrument_idempotent_witness :
  exists results st',
    Auto.auto_instrument Examples.importing (Some ["openai"]) None
      Examples.fresh_state = (Ret results, st') /\
    Auto.auto_instrument Examples.importing (Some ["openai"]) None st'
      = (Ret results, st').
Proof.
  eexists _, _. split; [reflexivity|].
  apply (auto_instrument_idempotent Examples.importing (Some ["openai"]) None
           Examples.fresh_state).
  - constructor.
  - reflexivity.
  - discriminate.
  - refine (bool_decide_unpack _ _); vm_compute; exact I.
  - intros name b [[_ <-]|[_ Hempty]]%lookup_insert_Some; [reflexivity|].
    discriminate Hempty.
Defined.

Lemma auto_instrument_true_is_installed_witness :
  exists i,
    i ∈ Auto._active_instrumentors
          (Auto.auto_instrument Examples.importing None None Examples.fresh_state).2 /\
    Base.cls_name (Base.inst_class i) = "OpenAIInstrumentor" /\
    Base._is_instrumented i = true.
Proof.
  apply (auto_instrument_true_is_installed Examples.importing None None
           Examples.fresh_state _ _ eq_refl)
    with (name := "openai") (c := Examples.sound_class).
  - refine (bool_decide_unpack _ _); vm_compute; exact I.
  - apply list_elem_of_here.
  - reflexivity.
Defined.

Lemma uninstrument_result_tells_is_instrumented_witness :
  Auto.is_instrumented "anthropic" (Auto.uninstrument None Examples.two_active).2
    = true /\
  Auto.is_instrumented "openai" (Auto.uninstrument None Examples.two_active).2
    = false.
Proof.
  assert (Hnodup : NoDup (Spec.lower_name <$>
                            Auto._active_instrumentors Examples.two_active)).
  { refine (bool_decide_unpack _ _); vm_compute; exact I. }
  split.
  - apply (uninstrument_result_tells_is_instrumented None Examples.two_active
             (<["anthropic" := false]> (<["openai" := true]> ∅))
             (Auto.uninstrument None Examples.two_active).2 Hnodup eq_refl
             "anthropic" false).
    reflexivity.
  - apply (uninstrument_result_tells_is_instrumented None Examples.two_active
             (<["anthropic" := false]> (<["openai" := true]> ∅))
             (Auto.uninstrument None Examples.two_active).2 Hnodup eq_refl
             "openai" true).
    reflexivity.
Defined.

Lemma register_instrumentors_keys_witness :
  sublist
    (Auto._INSTRUMENTORS
       (Auto._register_instrumentors Examples.importing Examples.fresh_state).2).*1
    ["openai"; "anthropic"; "langchain"; "llamaindex"; "google"].
Proof.
  apply (proj1 (proj2 (register_instrumentors_keys Examples.importing Examples.fresh_state
                  (Auto._register_instrumentors Examples.importing
                     Examples.fresh_state).1
                  (Auto._register_instrumentors Examples.importing
                     Examples.fresh_state).2
                  eq_refl))).
  reflexivity.
Defined.

(** ** The patches of the five instrumentors *)

Section PatchFacts.
Import Patches.
Implicit Types (p q : process) (x : patch) (y : nat * string).


Lemma update_eq h cls obj : update h cls obj cls = obj.
Proof. unfold update. by rewrite Nat.eqb_refl. Qed.

Lemma update_ne h cls obj c : c <> cls -> update h cls obj c = h c.
Proof. unfold update. intros Hne. by apply Nat.eqb_neq in Hne as ->. Qed.

(** What applying one patch changes. *)
Lemma apply_patch_spec p x :
  let p' := apply_patch p x in
  (forall y, key_of p' y = key_of p y) /\
  (forall y, y <> x.1 -> attr_of p' y = attr_of p y) /\
  attr_of p' x.1 = Wrapped x.2 <$> attr_of p x.1 /\
  (forall k, k <> key_of p x.1 -> stored p' k = stored p k) /\
  stored p' (key_of p x.1)
    = match attr_of p x.1 with Some g => Some g | None => stored p (key_of p x.1) end.
Proof.
  destruct x as [[cls m] f]. unfold apply_patch, wrap_class, key_of, attr_of, stored; simpl.
  unfold Base.wrap_method.
  destruct (Base.getattr (heap p cls) m) as [g|] eqn:Hget; simpl.
  - split; [|split; [|split; [|split]]].
    + intros [c m']; simpl. destruct (decide (c = cls)) as [->|Hne].
      * by rewrite update_eq, patch_key_setattr.
      * by rewrite update_ne.
    + intros [c m'] Hne; simpl. destruct (decide (c = cls)) as [->|Hc].
      * rewrite update_eq. apply getattr_setattr_ne. congruence.
      * by rewrite update_ne.
    + by rewrite update_eq, getattr_setattr_eq.
    + intros k Hk. by apply lookup_insert_ne.
    + apply lookup_insert_eq.
  - split; [|split; [|split; [|split]]].
    + intros [c m']; simpl. destruct (decide (c = cls)) as [->|Hne].
      * by rewrite update_eq.
      * by rewrite update_ne.
    + intros [c m'] _; simpl. destruct (decide (c = cls)) as [->|Hc].
      * by rewrite update_eq.
      * by rewrite update_ne.
    + by rewrite update_eq, Hget.
    + reflexivity.
    + reflexivity.
Qed.

(** What reverting one patch changes. *)
Lemma revert_patch_spec p y0 :
  let p' := revert_patch p y0 in
  (forall y, key_of p' y = key_of p y) /\
  (forall y, y <> y0 -> attr_of p' y = attr_of p y) /\
  attr_of p' y0
    = match stored p (key_of p y0) with Some g => Some g | None => attr_of p y0 end /\
  (forall k, k <> key_of p y0 -> stored p' k = stored p k) /\
  stored p' (key_of p y0) = None.
Proof.
  destruct y0 as [cls m]. unfold revert_patch, unwrap_class, key_of, attr_of, stored; simpl.
  unfold Base.unwrap_method.
  destruct (_original_methods p !! Base.patch_key (heap p cls) m) as [g|] eqn:Hst; simpl.
  - split; [|split; [|split; [|split]]].
    + intros [c m']; simpl. destruct (decide (c = cls)) as [->|Hne].
      * by rewrite update_eq, patch_key_setattr.
      * by rewrite update_ne.
    + intros [c m'] Hne; simpl. destruct (decide (c = cls)) as [->|Hc].
      * rewrite update_eq. apply getattr_setattr_ne. congruence.
      * by rewrite update_ne.
    + by rewrite update_eq, getattr_setattr_eq.
    + intros k Hk. by apply lookup_delete_ne.
    + apply lookup_delete_eq.
  - split; [|split; [|split; [|split]]].
    + intros [c m']; simpl. destruct (decide (c = cls)) as [->|Hne].
      * by rewrite update_eq.
      * by rewrite update_ne.
    + intros [c m'] _; simpl. destruct (decide (c = cls)) as [->|Hc].
      * by rewrite update_eq.
      * by rewrite update_ne.
    + by rewrite update_eq.
    + reflexivity.
    + exact Hst.
Qed.

(** What applying a list of patches with distinct keys changes. *)
Lemma apply_patches_spec (patches : list patch) : forall p,
  NoDup (key_of p <$> patches.*1) ->
  let p' := foldl apply_patch p patches in
  (forall y, key_of p' y = key_of p y) /\
  (forall y, y ∉ patches.*1 -> attr_of p' y = attr_of p y) /\
  (forall x, x ∈ patches -> attr_of p' x.1 = Wrapped x.2 <$> attr_of p x.1) /\
  (forall k, k ∉ key_of p <$> patches.*1 -> stored p' k = stored p k) /\
  (forall x, x ∈ patches ->
     stored p' (key_of p x.1)
       = match attr_of p x.1 with
         | Some g => Some g
         | None => stored p (key_of p x.1)
         end).
Proof.
  induction patches as [|x0 patches IH] using rev_ind; intros p Hnodup; cbv zeta.
  - simpl. repeat split; try reflexivity; intros x Hx; by apply elem_of_nil in Hx.
  - rewrite foldl_app; simpl.
    rewrite !fmap_app in Hnodup. simpl in Hnodup.
    apply NoDup_app in Hnodup as (Hnodup & Hfresh & _).
    assert (Hx0 : key_of p x0.1 ∉ key_of p <$> patches.*1).
    { intros Hin. apply (Hfresh _ Hin). apply list_elem_of_here. }
    destruct (IH p Hnodup) as (Hkey & Hframe & Hattr & Hstore & Hsaved).
    set (p1 := foldl apply_patch p patches) in *.
    destruct (apply_patch_spec p1 x0) as (Hkey1 & Hframe1 & Hattr1 & Hstore1 & Hsaved1).
    assert (Hx0pair : x0.1 ∉ patches.*1).
    { intros Hin. apply Hx0. apply list_elem_of_fmap. by exists x0.1. }
    split; [|split; [|split; [|split]]].
    + intros y. by rewrite Hkey1, Hkey.
    + intros y Hy. rewrite fmap_app in Hy. apply not_elem_of_app in Hy as [Hy Hy0].
      rewrite Hframe1, Hframe; [reflexivity|exact Hy|].
      intros ->. apply Hy0. apply list_elem_of_here.
    + intros x [Hx| ->%list_elem_of_singleton]%elem_of_app.
      * rewrite Hframe1; [by apply Hattr|].
        intros Heq. apply Hx0pair. rewrite <- Heq.
        apply list_elem_of_fmap. by exists x.
      * by rewrite Hattr1, Hframe.
    + intros k Hk. rewrite !fmap_app in Hk. apply not_elem_of_app in Hk as [Hk Hk0].
      rewrite Hstore1, Hstore; [reflexivity|exact Hk|].
      rewrite Hkey. intros ->. apply Hk0. apply list_elem_of_here.
    + intros x [Hx| ->%list_elem_of_singleton]%elem_of_app.
      * rewrite Hstore1; [by apply Hsaved|].
        rewrite Hkey. intros Heq. apply Hx0. rewrite <- Heq.
        apply list_elem_of_fmap. exists x.1. split; [reflexivity|].
        apply list_elem_of_fmap. by exists x.
      * rewrite <- (Hkey x0.1), Hsaved1, Hframe, Hkey, Hstore by assumption.
        reflexivity.
Qed.

(** What reverting a list of patches with distinct keys changes. *)
Lemma revert_patches_spec (reverts : list (nat * string)) : forall p,
  NoDup (key_of p <$> reverts) ->
  let p' := foldl revert_patch p reverts in
  (forall y, key_of p' y = key_of p y) /\
  (forall y, y ∉ reverts -> attr_of p' y = attr_of p y) /\
  (forall y, y ∈ reverts ->
     attr_of p' y
       = match stored p (key_of p y) with Some g => Some g | None => attr_of p y end) /\
  (forall k, k ∉ key_of p <$> reverts -> stored p' k = stored p k) /\
  (forall y, y ∈ reverts -> stored p' (key_of p y) = None).
Proof.
  induction reverts as [|y0 reverts IH] using rev_ind; intros p Hnodup; cbv zeta.
  - simpl. repeat split; try reflexivity; intros y Hy; by apply elem_of_nil in Hy.
  - rewrite foldl_app; simpl.
    rewrite fmap_app in Hnodup. simpl in Hnodup.
    apply NoDup_app in Hnodup as (Hnodup & Hfresh & _).
    assert (Hy0 : key_of p y0 ∉ key_of p <$> reverts).
    { intros Hin. apply (Hfresh _ Hin). apply list_elem_of_here. }
    destruct (IH p Hnodup) as (Hkey & Hframe & Hattr & Hstore & Hgone).
    set (p1 := foldl revert_patch p reverts) in *.
    destruct (revert_patch_spec p1 y0) as (Hkey1 & Hframe1 & Hattr1 & Hstore1 & Hgone1).
    assert (Hy0pair : y0 ∉ reverts).
    { intros Hin. apply Hy0. apply list_elem_of_fmap. by exists y0. }
    split; [|split; [|split; [|split]]].
    + intros y. by rewrite Hkey1, Hkey.
    + intros y [Hy Hne]%not_elem_of_app.
      rewrite Hframe1, Hframe; [reflexivity|exact Hy|].
      intros ->. apply Hne. apply list_elem_of_here.
    + intros y [Hy| ->%list_elem_of_singleton]%elem_of_app.
      * rewrite Hframe1; [by apply Hattr|]. intros ->. by apply Hy0pair.
      * by rewrite Hattr1, Hkey, Hstore, Hframe.
    + intros k Hk. rewrite fmap_app in Hk. apply not_elem_of_app in Hk as [Hk Hk0].
      rewrite Hstore1, Hstore; [reflexivity|exact Hk|].
      rewrite Hkey. intros ->. apply Hk0. apply list_elem_of_here.
    + intros y [Hy| ->%list_elem_of_singleton]%elem_of_app.
      * rewrite Hstore1; [by apply Hgone|].
        rewrite Hkey. intros Heq. apply Hy0. rewrite <- Heq.
        apply list_elem_of_fmap. by exists y.
      * by rewrite <- (Hkey y0).
Qed.

Lemma NoDup_fmap_eq {A B : Type} (f : A -> B) (l : list A) a b :
  NoDup (f <$> l) -> a ∈ l -> b ∈ l -> f a = f b -> a = b.
Proof.
  induction l as [|c l IH]; simpl; intros Hnodup Ha Hb Heq.
  - by apply elem_of_nil in Ha.
  - apply NoDup_cons in Hnodup as [Hc Hnodup].
    apply elem_of_cons in Ha as [->|Ha]; apply elem_of_cons in Hb as [->|Hb].
    + reflexivity.
    + exfalso. apply Hc. rewrite Heq. by apply list_elem_of_fmap_2.
    + exfalso. apply Hc. rewrite <- Heq. by apply list_elem_of_fmap_2.
    + by apply IH.
Qed.

Lemma key_of_fmap_ext p q (l : list (nat * string)) :
  (forall y, key_of q y = key_of p y) -> key_of q <$> l = key_of p <$> l.
Proof. intros Hkey. apply list_fmap_ext. intros _ y _. apply Hkey. Qed.

(** Reverting after applying restores every attribute and the store, when
    the reverted methods include the patched ones, have distinct keys and
    none of these keys is in the store beforehand. *)
Lemma apply_revert_restores (patches : list patch) (reverts : list (nat * string)) p :
  patches.*1 `sublist_of` reverts ->
  NoDup (key_of p <$> reverts) ->
  (forall y, y ∈ reverts -> stored p (key_of p y) = None) ->
  let p2 := foldl revert_patch (foldl apply_patch p patches) reverts in
  (forall y, attr_of p2 y = attr_of p y) /\
  (forall k, stored p2 k = stored p k) /\
  (forall y, key_of p2 y = key_of p y).
Proof.
  intros Hsub Hnodup Hclean; cbv zeta.
  assert (Hnodup1 : NoDup (key_of p <$> patches.*1)).
  { eapply sublist_NoDup; [exact Hnodup|by apply fmap_sublist]. }
  destruct (apply_patches_spec patches p Hnodup1)
    as (Hkey1 & Hframe1 & Hattr1 & Hstore1 & Hsaved1).
  set (p1 := foldl apply_patch p patches) in *.
  assert (Hnodup2 : NoDup (key_of p1 <$> reverts))
    by (by rewrite (key_of_fmap_ext p p1)).
  destruct (revert_patches_spec reverts p1 Hnodup2)
    as (Hkey2 & Hframe2 & Hattr2 & Hstore2 & Hgone2).
  set (p2 := foldl revert_patch p1 reverts) in *.
  assert (Hin : forall y, y ∈ patches.*1 -> y ∈ reverts).
  { intros y Hy. by eapply elem_of_sublist. }
  split; [|split].
  - intros y. destruct (decide (y ∈ reverts)) as [Hy|Hy].
    + rewrite (Hattr2 y Hy), Hkey1.
      destruct (decide (y ∈ patches.*1)) as [Hpatched|Hfree].
      * apply list_elem_of_fmap in Hpatched as (x & -> & Hx).
        rewrite (Hsaved1 x Hx), (Hattr1 x Hx), (Hclean _ Hy).
        by destruct (attr_of p x.1).
      * rewrite Hstore1, (Hclean _ Hy); [by apply Hframe1|].
        intros (y' & Heq & Hy')%list_elem_of_fmap.
        apply Hfree. rewrite (NoDup_fmap_eq (key_of p) reverts y y'); auto.
    + rewrite Hframe2 by exact Hy. apply Hframe1. intros Hpatched. auto.
  - intros k. destruct (decide (k ∈ key_of p <$> reverts)) as [Hk|Hk].
    + apply list_elem_of_fmap in Hk as (y & -> & Hy).
      by rewrite <- (Hkey1 y), (Hgone2 y Hy), Hkey1, (Hclean y Hy).
    + rewrite Hstore2, Hstore1; [reflexivity| |].
      * intros Hin'. apply Hk. eapply elem_of_sublist; [exact Hin'|].
        by apply fmap_sublist.
      * by rewrite (key_of_fmap_ext p p1).
  - intros y. by rewrite Hkey2, Hkey1.
Qed.

(** Reverting methods that have nothing stored changes nothing. *)
Lemma revert_nothing_stored (reverts : list (nat * string)) p :
  NoDup (key_of p <$> reverts) ->
  (forall y, y ∈ reverts -> stored p (key_of p y) = None) ->
  let p' := foldl revert_patch p reverts in
  (forall y, attr_of p' y = attr_of p y) /\
  (forall k, stored p' k = stored p k).
Proof.
  intros Hnodup Hclean; cbv zeta.
  destruct (revert_patches_spec reverts p Hnodup)
    as (Hkey & Hframe & Hattr & Hstore & Hgone).
  split.
  - intros y. destruct (decide (y ∈ reverts)) as [Hy|Hy].
    + by rewrite (Hattr y Hy), (Hclean y Hy).
    + by apply Hframe.
  - intros k. destruct (decide (k ∈ key_of p <$> reverts)) as [Hk|Hk].
    + apply list_elem_of_fmap in Hk as (y & -> & Hy).
      by rewrite (Hgone y Hy), (Hclean y Hy).
    + by apply Hstore.
Qed.

(** Applying the patches twice and reverting once leaves every patched
    method wrapped, with nothing left in the store to restore it from. *)
Lemma apply_twice_revert_keeps_wrapper (patches : list patch)
    (reverts : list (nat * string)) p :
  patches.*1 `sublist_of` reverts ->
  NoDup (key_of p <$> reverts) ->
  (forall y, y ∈ reverts -> stored p (key_of p y) = None) ->
  let p3 :=
    foldl revert_patch (foldl apply_patch (foldl apply_patch p patches) patches)
          reverts in
  (forall x, x ∈ patches -> attr_of p3 x.1 = Wrapped x.2 <$> attr_of p x.1) /\
  (forall k, stored p3 k = stored p k) /\
  (forall y, key_of p3 y = key_of p y).
Proof.
  intros Hsub Hnodup Hclean; cbv zeta.
  assert (Hnodup1 : NoDup (key_of p <$> patches.*1)).
  { eapply sublist_NoDup; [exact Hnodup|by apply fmap_sublist]. }
  destruct (apply_patches_spec patches p Hnodup1)
    as (Hkey1 & Hframe1 & Hattr1 & Hstore1 & Hsaved1).
  set (p1 := foldl apply_patch p patches) in *.
  assert (Hnodup1' : NoDup (key_of p1 <$> patches.*1))
    by (by rewrite (key_of_fmap_ext p p1)).
  destruct (apply_patches_spec patches p1 Hnodup1')
    as (Hkey2 & Hframe2 & Hattr2 & Hstore2 & Hsaved2).
  set (p2 := foldl apply_patch p1 patches) in *.
  assert (Hkey12 : forall y, key_of p2 y = key_of p y).
  { intros y. by rewrite Hkey2, Hkey1. }
  assert (Hnodup2 : NoDup (key_of p2 <$> reverts))
    by (by rewrite (key_of_fmap_ext p p2)).
  destruct (revert_patches_spec reverts p2 Hnodup2)
    as (Hkey3 & Hframe3 & Hattr3 & Hstore3 & Hgone3).
  set (p3 := foldl revert_patch p2 reverts) in *.
  assert (Hin : forall y, y ∈ patches.*1 -> y ∈ reverts).
  { intros y Hy. by eapply elem_of_sublist. }
  split; [|split].
  - intros x Hx.
    assert (Hy : x.1 ∈ reverts) by (apply Hin; by apply list_elem_of_fmap_2).
    rewrite (Hattr3 _ Hy), Hkey12, <- (Hkey1 x.1), (Hsaved2 x Hx), (Hattr2 x Hx),
      (Hattr1 x Hx), Hkey1, (Hsaved1 x Hx), (Hclean _ Hy).
    by destruct (attr_of p x.1).
  - intros k. destruct (decide (k ∈ key_of p <$> reverts)) as [Hk|Hk].
    + apply list_elem_of_fmap in Hk as (y & -> & Hy).
      by rewrite <- (Hkey12 y), (Hgone3 y Hy), Hkey12, (Hclean y Hy).
    + assert (Hk1 : k ∉ key_of p <$> patches.*1).
      { intros Hin'. apply Hk. eapply elem_of_sublist; [exact Hin'|].
        by apply fmap_sublist. }
      rewrite Hstore3, Hstore2, Hstore1; [reflexivity|exact Hk1| |].
      * by rewrite (key_of_fmap_ext p p1).
      * by rewrite (key_of_fmap_ext p p2).
  - intros y. by rewrite Hkey3, Hkey12.
Qed.

(** Reverting from a process that agrees, on the reverted methods and
    their keys, with the one the patches were applied to. *)
Lemma revert_after_apply (patches : list patch) (reverts : list (nat * string)) p q :
  patches.*1 `sublist_of` reverts ->
  NoDup (key_of p <$> reverts) ->
  (forall y, y ∈ reverts -> stored p (key_of p y) = None) ->
  (forall y, key_of q y = key_of p y) ->
  (forall y, y ∈ reverts -> attr_of q y = attr_of (foldl apply_patch p patches) y) ->
  (forall y, y ∈ reverts ->
     stored q (key_of p y) = stored (foldl apply_patch p patches) (key_of p y)) ->
  let q2 := foldl revert_patch q reverts in
  (forall y, y ∈ reverts -> attr_of q2 y = attr_of p y) /\
  (forall y, y ∉ reverts -> attr_of q2 y = attr_of q y) /\
  (forall k, k ∈ key_of p <$> reverts -> stored q2 k = stored p k) /\
  (forall k, k ∉ key_of p <$> reverts -> stored q2 k = stored q k) /\
  (forall y, key_of q2 y = key_of p y).
Proof.
  intros Hsub Hnodup Hclean Hkeyq Hattrq Hstoreq; cbv zeta.
  assert (Hnodup1 : NoDup (key_of p <$> patches.*1)).
  { eapply sublist_NoDup; [exact Hnodup|by apply fmap_sublist]. }
  destruct (apply_patches_spec patches p Hnodup1)
    as (Hkey1 & Hframe1 & Hattr1 & Hstore1 & Hsaved1).
  set (p1 := foldl apply_patch p patches) in *.
  assert (Hnodup2 : NoDup (key_of q <$> reverts))
    by (by rewrite (key_of_fmap_ext p q)).
  destruct (revert_patches_spec reverts q Hnodup2)
    as (Hkey2 & Hframe2 & Hattr2 & Hstore2 & Hgone2).
  set (q2 := foldl revert_patch q reverts) in *.
  split; [|split; [|split; [|split]]].
  - intros y Hy. rewrite (Hattr2 y Hy), Hkeyq, (Hstoreq y Hy), (Hattrq y Hy).
    destruct (decide (y ∈ patches.*1)) as [Hpatched|Hfree].
    + apply list_elem_of_fmap in Hpatched as (x & -> & Hx).
      rewrite (Hsaved1 x Hx), (Hattr1 x Hx), (Hclean _ Hy).
      by destruct (attr_of p x.1).
    + rewrite Hstore1, (Hclean _ Hy); [by apply Hframe1|].
      intros (y' & Heq & Hy')%list_elem_of_fmap.
      apply Hfree. rewrite (NoDup_fmap_eq (key_of p) reverts y y'); auto.
      by eapply elem_of_sublist.
  - exact Hframe2.
  - intros k (y & -> & Hy)%list_elem_of_fmap.
    by rewrite <- (Hkeyq y), (Hgone2 y Hy), Hkeyq, (Hclean y Hy).
  - intros k Hk. apply Hstore2. by rewrite (key_of_fmap_ext p q).
  - intros y. by rewrite Hkey2, Hkeyq.
Qed.

(** What patching [genai.embed_content] changes. *)
Lemma patch_embed_content_spec genai p :
  let p' := patch_embed_content genai p in
  (forall y, key_of p' y = key_of p y) /\
  (forall y, y <> (genai, "embed_content") -> attr_of p' y = attr_of p y) /\
  attr_of p' (genai, "embed_content")
    = Wrapped (Function Wrappers.Google_embed) <$> attr_of p (genai, "embed_content") /\
  (forall k, k <> "genai.embed_content" -> stored p' k = stored p k) /\
  stored p' "genai.embed_content"
    = match attr_of p (genai, "embed_content") with
      | Some g => Some g
      | None => stored p "genai.embed_content"
      end.
Proof.
  unfold patch_embed_content, key_of, attr_of, stored, Base.hasattr;
    cbn [fst snd].
  destruct (Base.getattr (heap p genai) "embed_content") as [g|] eqn:Hget.
  - rewrite bool_decide_eq_true_2 by eauto. cbn [heap _original_methods fmap option_fmap option_map].
    split; [|split; [|split; [|split]]].
    + intros [c m']; simpl. destruct (decide (c = genai)) as [->|Hne].
      * by rewrite update_eq, patch_key_setattr.
      * by rewrite update_ne.
    + intros [c m'] Hne; simpl. destruct (decide (c = genai)) as [->|Hc].
      * rewrite update_eq. apply getattr_setattr_ne. congruence.
      * by rewrite update_ne.
    + by rewrite update_eq, getattr_setattr_eq.
    + intros k Hk. by apply lookup_insert_ne.
    + apply lookup_insert_eq.
  - rewrite bool_decide_eq_false_2 by (by intros [? ?]).
    rewrite Hget. repeat split; reflexivity.
Qed.

(** What restoring [genai.embed_content] changes. *)
Lemma restore_embed_content_spec genai p :
  let p' := restore_embed_content genai p in
  (forall y, key_of p' y = key_of p y) /\
  (forall y, y <> (genai, "embed_content") -> attr_of p' y = attr_of p y) /\
  attr_of p' (genai, "embed_content")
    = match stored p "genai.embed_content" with
      | Some g => Some g
      | None => attr_of p (genai, "embed_content")
      end /\
  (forall k, k <> "genai.embed_content" -> stored p' k = stored p k) /\
  stored p' "genai.embed_content" = None.
Proof.
  unfold restore_embed_content, key_of, attr_of, stored; simpl.
  destruct (_original_methods p !! "genai.embed_content") as [g|] eqn:Hst; simpl.
  - split; [|split; [|split; [|split]]].
    + intros [c m']; simpl. destruct (decide (c = genai)) as [->|Hne].
      * by rewrite update_eq, patch_key_setattr.
      * by rewrite update_ne.
    + intros [c m'] Hne; simpl. destruct (decide (c = genai)) as [->|Hc].
      * rewrite update_eq. apply getattr_setattr_ne. congruence.
      * by rewrite update_ne.
    + by rewrite update_eq, getattr_setattr_eq.
    + intros k Hk. by apply lookup_delete_ne.
    + apply lookup_delete_eq.
  - repeat split; try reflexivity. exact Hst.
Qed.

End PatchFacts.

(** *** LangChain and LlamaIndex *)

Section InstrumentorFacts.
Import Patches.
Variable import_from : string -> string -> outcome nat.
Variable import_module : string -> outcome pyval.
Implicit Types (p q : process) (x : patch) (y : nat * string).

Lemma and_then_Ret c1 c2 p p2 :
  and_then c1 c2 p = (Ret tt, p2) ->
  exists p1, c1 p = (Ret tt, p1) /\ c2 p1 = (Ret tt, p2).
Proof.
  unfold and_then. destruct (c1 p) as [[[]|e] p1]; [|discriminate].
  intros H. by exists p1.
Qed.

Lemma and_then_Raise_l c1 c2 p e p1 :
  c1 p = (Raise e, p1) -> and_then c1 c2 p = (Raise e, p1).
Proof. unfold and_then. by intros ->. Qed.

Lemma try_import_Ret handled cls body p :
  try_import handled (Ret cls) body p = (Ret tt, body cls p).
Proof. reflexivity. Qed.

Lemma instrument_block_Ret imported methods body p p1 :
  (forall cls p,
     body cls p = foldl apply_patch p ((fun m => (cls, m.1, m.2)) <$> methods)) ->
  instrument_block imported body p = (Ret tt, p1) ->
  p1 = foldl apply_patch p (patches_of imported methods).
Proof.
  intros Hbody. unfold instrument_block, try_import, patches_of.
  destruct imported as [cls|e].
  - intros [= <-]. apply Hbody.
  - destruct (_ || _); [by intros [= <-]|discriminate].
Qed.

Lemma uninstrument_block_Ret imported methods body p p1 :
  (forall cls p,
     body cls p = foldl revert_patch p ((fun m => (cls, m)) <$> methods)) ->
  uninstrument_block imported body p = (Ret tt, p1) ->
  p1 = foldl revert_patch p (reverts_of imported methods).
Proof.
  intros Hbody. unfold uninstrument_block, try_import, reverts_of.
  destruct imported as [cls|e].
  - intros [= <-]. apply Hbody.
  - destruct (isinstance_exn _ _); [by intros [= <-]|discriminate].
Qed.

Local Ltac split_blocks H lem :=
  repeat
    match goal with
    | |- _ = foldl _ _ (_ _ ?ms ++ _) =>
        let p' := fresh "p" in
        let H' := fresh "Hblock" in
        apply and_then_Ret in H as (p' & H' & H);
        apply (lem _ ms) in H'; [subst p'; rewrite foldl_app|reflexivity]
    end;
  match goal with
  | |- _ = foldl _ _ (_ _ ?ms) => apply (lem _ ms) in H; [exact H|reflexivity]
  end.

(** [_instrument] applies the patches of the classes it could import. *)
Lemma LangChain_instrument_Ret p p1 :
  LangChain_instrument import_from p = (Ret tt, p1) ->
  p1 = foldl apply_patch p (LangChain_patches import_from).
Proof.
  unfold LangChain_instrument, LangChain_patches. intros H.
  split_blocks H instrument_block_Ret.
Qed.

Lemma LangChain_uninstrument_Ret p p1 :
  LangChain_uninstrument import_from p = (Ret tt, p1) ->
  p1 = foldl revert_patch p (LangChain_reverts import_from).
Proof.
  unfold LangChain_uninstrument, LangChain_reverts. intros H.
  split_blocks H uninstrument_block_Ret.
Qed.

Lemma patches_of_reverts_of imported (methods : list (string * factory)) :
  (patches_of imported methods).*1 = reverts_of imported methods.*1.
Proof.
  destruct imported as [cls|e]; [|reflexivity]. simpl.
  rewrite <- !list_fmap_compose. by apply list_fmap_ext.
Qed.

(** [_uninstrument] reverts every method [_instrument] patches. *)
Lemma LangChain_patches_reverts :
  (LangChain_patches import_from).*1 `sublist_of` LangChain_reverts import_from.
Proof.
  unfold LangChain_patches, LangChain_reverts.
  rewrite !fmap_app, !patches_of_reverts_of.
  repeat (apply sublist_app; [reflexivity|]).
  apply sublist_app; [|reflexivity].
  unfold import_both.
  destruct (import_from "langchain_core.runnables" "Runnable"); [reflexivity|].
  apply sublist_nil_l.
Qed.

Lemma instrument_block_handled imported methods body p :
  (forall cls p,
     body cls p = foldl apply_patch p ((fun m => (cls, m.1, m.2)) <$> methods)) ->
  (forall e, imported = Raise e ->
     isinstance_exn e "ImportError" || isinstance_exn e "AttributeError" = true) ->
  instrument_block imported body p
    = (Ret tt, foldl apply_patch p (patches_of imported methods)).
Proof.
  intros Hbody Hhandled. unfold instrument_block, try_import, patches_of.
  destruct imported as [cls|e].
  - by rewrite Hbody.
  - by rewrite (Hhandled e eq_refl).
Qed.

Lemma and_then_Ret_l c1 c2 p p1 :
  c1 p = (Ret tt, p1) -> and_then c1 c2 p = c2 p1.
Proof. unfold and_then. by intros ->. Qed.

(** [_instrument] completes when the imports fail only with [ImportError]
    or [AttributeError]. *)
Lemma LangChain_instrument_handled p :
  (forall module name e, import_from module name = Raise e ->
     isinstance_exn e "ImportError" || isinstance_exn e "AttributeError" = true) ->
  LangChain_instrument import_from p
    = (Ret tt, foldl apply_patch p (LangChain_patches import_from)).
Proof.
  intros Hhandled. unfold LangChain_instrument, LangChain_patches.
  repeat
    match goal with
    | |- and_then _ _ _ = (_, foldl _ _ (_ _ ?ms ++ _)) =>
        erewrite and_then_Ret_l;
          [|apply (instrument_block_handled _ ms); [reflexivity|]];
          [rewrite foldl_app|]
    end;
  try (apply (instrument_block_handled _ _); [reflexivity|]);
  try (intros e He; by apply Hhandled in He).
  unfold import_both. intros e.
  destruct (import_from "langchain_core.runnables" "Runnable") as [cls|e'] eqn:H1.
  - intros He. by apply Hhandled in He.
  - intros [= <-]. by apply Hhandled in H1.
Qed.

(** The [hasattr] test of the query-engine block sees the class as it was
    before [query] was wrapped. *)
Lemma query_block_patches cls f g p :
  (let p := wrap_class cls "query" f p in
   if Base.hasattr (heap p cls) "aquery" then wrap_class cls "aquery" g p else p)
  = foldl apply_patch p
      ((cls, "query", f) ::
       (if Base.hasattr (heap p cls) "aquery" then [(cls, "aquery", g)] else [])).
Proof.
  cbv zeta.
  destruct (apply_patch_spec p (cls, "query", f)) as (_ & Hframe & _).
  specialize (Hframe (cls, "aquery")). unfold attr_of, apply_patch in Hframe.
  simpl in Hframe. unfold Base.hasattr. rewrite Hframe by congruence.
  by case_bool_decide.
Qed.

Lemma LlamaIndex_instrument_blocks_Ret core_module p p1 :
  LlamaIndex_instrument_blocks import_from core_module p = (Ret tt, p1) ->
  p1 = foldl apply_patch p (LlamaIndex_patches import_from core_module p).
Proof.
  unfold LlamaIndex_instrument_blocks, LlamaIndex_patches. intros H.
  apply and_then_Ret in H as (p0 & Hblock & H).
  rewrite foldl_app.
  match goal with
  | |- _ = foldl _ (foldl _ p ?l) _ => assert (Hp0 : p0 = foldl apply_patch p l)
  end.
  { unfold instrument_block, try_import in Hblock.
    destruct (import_core_or_legacy _ _ _ _ _) as [cls|e].
    - injection Hblock as <-. apply query_block_patches.
    - destruct (_ || _); [by injection Hblock as <-|discriminate]. }
  subst p0. clear Hblock.
  split_blocks H instrument_block_Ret.
Qed.

Lemma LlamaIndex_instrument_Ret p p1 :
  LlamaIndex_instrument import_from import_module p = (Ret tt, p1) ->
  exists core_module,
    safe_import import_module "llama_index.core" = Ret core_module /\
    p1 = foldl apply_patch p (LlamaIndex_patches import_from core_module p).
Proof.
  unfold LlamaIndex_instrument.
  destruct (safe_import import_module "llama_index.core") as [core_module|e];
    [|discriminate].
  destruct (safe_import import_module "llama_index") as [legacy_module|e];
    [|discriminate].
  intros H. exists core_module. split; [reflexivity|].
  by apply LlamaIndex_instrument_blocks_Ret.
Qed.

Lemma LlamaIndex_uninstrument_Ret p p1 :
  LlamaIndex_uninstrument import_from import_module p = (Ret tt, p1) ->
  exists core_module,
    safe_import import_module "llama_index.core" = Ret core_module /\
    p1 = foldl revert_patch p (LlamaIndex_reverts import_from core_module).
Proof.
  unfold LlamaIndex_uninstrument.
  destruct (safe_import import_module "llama_index.core") as [core_module|e];
    [|discriminate].
  intros H. exists core_module. split; [reflexivity|].
  unfold LlamaIndex_uninstrument_blocks, LlamaIndex_reverts in *.
  split_blocks H uninstrument_block_Ret.
Qed.

Lemma LlamaIndex_patches_reverts core_module p :
  (LlamaIndex_patches import_from core_module p).*1
    `sublist_of` LlamaIndex_reverts import_from core_module.
Proof.
  unfold LlamaIndex_patches, LlamaIndex_reverts.
  rewrite !fmap_app, !patches_of_reverts_of.
  apply sublist_app; [|reflexivity].
  destruct (import_core_or_legacy _ _ _ _ _) as [cls|e]; [|reflexivity].
  simpl. destruct (Base.hasattr _ _); simpl; [reflexivity|].
  apply sublist_skip, sublist_cons, sublist_nil.
Qed.

(** X19: When [LangChainInstrumentor._instrument] returns, the patched methods
    having distinct keys: each method it patches is, where the class has
    it, the wrapper its factory builds around the callable found there,
    and that callable is stored under the method's key; a method the class
    lacks stays absent; every other attribute of every class, and every
    other entry of the store, is as before. *)
Theorem LangChain_instrument_wraps p p1 :
  LangChain_instrument import_from p = (Ret tt, p1) ->
  NoDup (key_of p <$> (LangChain_patches import_from).*1) ->
  (forall cls method_name f,
     (cls, method_name, f) ∈ LangChain_patches import_from ->
     Base.getattr (heap p1 cls) method_name
       = Wrapped f <$> Base.getattr (heap p cls) method_name) /\
  (forall cls method_name f original,
     (cls, method_name, f) ∈ LangChain_patches import_from ->
     Base.getattr (heap p cls) method_name = Some original ->
     _original_methods p1 !! Base.patch_key (heap p cls) method_name
       = Some original) /\
  (forall cls method_name,
     (cls, method_name) ∉ (LangChain_patches import_from).*1 ->
     Base.getattr (heap p1 cls) method_name
       = Base.getattr (heap p cls) method_name) /\
  (forall key,
     key ∉ key_of p <$> (LangChain_patches import_from).*1 ->
     _original_methods p1 !! key = _original_methods p !! key).
Proof.
  intros ->%LangChain_instrument_Ret Hnodup.
  destruct (apply_patches_spec _ p Hnodup) as (_ & Hframe & Hattr & Hstore & Hsaved).
  split; [|split; [|split]].
  - intros cls m f Hin. exact (Hattr _ Hin).
  - intros cls m f original Hin Hget. specialize (Hsaved _ Hin).
    unfold stored, attr_of, key_of in Hsaved. simpl in Hsaved.
    by rewrite Hget in Hsaved.
  - intros cls m Hout. exact (Hframe (cls, m) Hout).
  - exact Hstore.
Qed.

(** X20: [LangChainInstrumentor._instrument] followed by [_uninstrument], both
    returning, restores every attribute of every class and leaves the
    store as it was, when the reverted methods have distinct keys and the
    store holds none of these keys beforehand. *)
Theorem LangChain_uninstrument_restores p p1 p2 :
  LangChain_instrument import_from p = (Ret tt, p1) ->
  LangChain_uninstrument import_from p1 = (Ret tt, p2) ->
  NoDup (key_of p <$> LangChain_reverts import_from) ->
  (forall y, y ∈ LangChain_reverts import_from ->
     _original_methods p !! key_of p y = None) ->
  (forall cls method_name,
     Base.getattr (heap p2 cls) method_name
       = Base.getattr (heap p cls) method_name) /\
  _original_methods p2 = _original_methods p.
Proof.
  intros ->%LangChain_instrument_Ret ->%LangChain_uninstrument_Ret Hnodup Hclean.
  destruct (apply_revert_restores _ _ p LangChain_patches_reverts Hnodup Hclean)
    as (Hattr & Hstore & _).
  split.
  - intros cls m. exact (Hattr (cls, m)).
  - apply map_eq. exact Hstore.
Qed.

(** X21: With [langchain_core] importable, [instrument()] on a fresh LangChain
    instrumentor returns true and sets the installed flag whenever the
    class imports fail only with [ImportError] or [AttributeError],
    whatever number of classes, none included, it could patch. *)
Theorem LangChainInstrumentor_instrument_succeeds p m :
  import_module "langchain_core" = Ret m ->
  is_not_None m = true ->
  (forall module name e, import_from module name = Raise e ->
     isinstance_exn e "ImportError" || isinstance_exn e "AttributeError" = true) ->
  let c := LangChainInstrumentor import_from import_module in
  Base.instrument (Base.new_instrumentor c) p
    = (Ret true, Base.Instrumentor c true,
       foldl apply_patch p (LangChain_patches import_from)).
Proof.
  intros Himp Hm Hhandled; cbv zeta.
  unfold Base.instrument; simpl.
  unfold Base.LangChainInstrumentor_check_installed, Base.probe_either,
    Base.probe_one, Base.safe_import, import_in.
  rewrite Himp, Hm, (LangChain_instrument_handled p Hhandled). reflexivity.
Qed.

(** X22: [LlamaIndexInstrumentor._instrument] followed by [_uninstrument],
    both returning, restores every attribute of every class and leaves the
    store as it was, under the same conditions, whether or not the query
    engine class has the [aquery] method that is wrapped only when
    present. *)
Theorem LlamaIndex_uninstrument_restores p p1 p2 core_module :
  safe_import import_module "llama_index.core" = Ret core_module ->
  LlamaIndex_instrument import_from import_module p = (Ret tt, p1) ->
  LlamaIndex_uninstrument import_from import_module p1 = (Ret tt, p2) ->
  NoDup (key_of p <$> LlamaIndex_reverts import_from core_module) ->
  (forall y, y ∈ LlamaIndex_reverts import_from core_module ->
     _original_methods p !! key_of p y = None) ->
  (forall cls method_name,
     Base.getattr (heap p2 cls) method_name
       = Base.getattr (heap p cls) method_name) /\
  _original_methods p2 = _original_methods p.
Proof.
  intros Hcore (c1 & Hc1 & ->)%LlamaIndex_instrument_Ret
         (c2 & Hc2 & ->)%LlamaIndex_uninstrument_Ret Hnodup Hclean.
  assert (c1 = core_module) as -> by congruence.
  assert (c2 = core_module) as -> by congruence.
  destruct (apply_revert_restores _ _ p (LlamaIndex_patches_reverts core_module p)
              Hnodup Hclean) as (Hattr & Hstore & _).
  split.
  - intros cls m. exact (Hattr (cls, m)).
  - apply map_eq. exact Hstore.
Qed.

Lemma uninstrument_block_handled imported methods body p :
  (forall cls p,
     body cls p = foldl revert_patch p ((fun m => (cls, m)) <$> methods)) ->
  (forall e, imported = Raise e -> isinstance_exn e "ImportError" = true) ->
  uninstrument_block imported body p
    = (Ret tt, foldl revert_patch p (reverts_of imported methods)).
Proof.
  intros Hbody Hhandled. unfold uninstrument_block, try_import, reverts_of.
  destruct imported as [cls|e].
  - by rewrite Hbody.
  - by rewrite (Hhandled e eq_refl).
Qed.

(** [_uninstrument] completes when the imports fail only with
    [ImportError]. *)
Lemma LangChain_uninstrument_handled p :
  (forall module name e, import_from module name = Raise e ->
     isinstance_exn e "ImportError" = true) ->
  LangChain_uninstrument import_from p
    = (Ret tt, foldl revert_patch p (LangChain_reverts import_from)).
Proof.
  intros Hhandled. unfold LangChain_uninstrument, LangChain_reverts.
  repeat
    match goal with
    | |- and_then _ _ _ = (_, foldl _ _ (_ _ ?ms ++ _)) =>
        erewrite and_then_Ret_l;
          [|apply (uninstrument_block_handled _ ms); [reflexivity|]];
          [rewrite foldl_app|]
    end;
  try (apply (uninstrument_block_handled _ _); [reflexivity|]);
  intros e He; by apply Hhandled in He.
Qed.

(** X23: The installed flag belongs to the instance and the store to the
    class: when the imports fail only with [ImportError], two fresh
    LangChain instrumentors can both be installed, the second wrapping the
    wrappers of the first and overwriting the stored originals.
    Uninstalling both then leaves every patched method wrapped once, with
    nothing left in the store to restore it from. *)
Theorem LangChain_two_instances_keep_wrapper p m :
  import_module "langchain_core" = Ret m ->
  is_not_None m = true ->
  (forall module name e, import_from module name = Raise e ->
     isinstance_exn e "ImportError" = true) ->
  NoDup (key_of p <$> LangChain_reverts import_from) ->
  (forall y, y ∈ LangChain_reverts import_from ->
     _original_methods p !! key_of p y = None) ->
  let c := LangChainInstrumentor import_from import_module in
  exists p1 p2 p3 p4,
    Base.instrument (Base.new_instrumentor c) p
      = (Ret true, Base.Instrumentor c true, p1) /\
    Base.instrument (Base.new_instrumentor c) p1
      = (Ret true, Base.Instrumentor c true, p2) /\
    Base.uninstrument (Base.Instrumentor c true) p2
      = (Ret true, Base.new_instrumentor c, p3) /\
    Base.uninstrument (Base.Instrumentor c true) p3
      = (Ret true, Base.new_instrumentor c, p4) /\
    (forall cls method_name f,
       (cls, method_name, f) ∈ LangChain_patches import_from ->
       Base.getattr (heap p4 cls) method_name
         = Wrapped f <$> Base.getattr (heap p cls) method_name) /\
    _original_methods p4 = _original_methods p.
Proof.
  intros Himp Hm Himports Hnodup Hclean; cbv zeta.
  assert (Hhandled : forall module name e, import_from module name = Raise e ->
            isinstance_exn e "ImportError" || isinstance_exn e "AttributeError" = true).
  { intros module name e He. by rewrite (Himports _ _ _ He). }
  assert (Hinstall : forall q,
            Base.instrument
              (Base.new_instrumentor (LangChainInstrumentor import_from import_module)) q
            = (Ret true,
               Base.Instrumentor (LangChainInstrumentor import_from import_module) true,
               foldl apply_patch q (LangChain_patches import_from))).
  { intros q. unfold Base.instrument; simpl.
    unfold Base.LangChainInstrumentor_check_installed, Base.probe_either,
      Base.probe_one, Base.safe_import, import_in.
    rewrite Himp, Hm, (LangChain_instrument_handled q Hhandled). reflexivity. }
  assert (Hremove : forall q,
            Base.uninstrument
              (Base.Instrumentor (LangChainInstrumentor import_from import_module) true) q
            = (Ret true,
               Base.new_instrumentor (LangChainInstrumentor import_from import_module),
               foldl revert_patch q (LangChain_reverts import_from))).
  { intros q. unfold Base.uninstrument; simpl.
    rewrite (LangChain_uninstrument_handled q Himports). reflexivity. }
  do 4 eexists.
  split; [apply Hinstall|]. split; [apply Hinstall|].
  split; [apply Hremove|]. split; [apply Hremove|].
  destruct (apply_twice_revert_keeps_wrapper _ _ p LangChain_patches_reverts
              Hnodup Hclean) as (Hattr & Hstore & Hkey).
  set (p3 := foldl revert_patch _ (LangChain_reverts import_from)) in *.
  assert (Hnodup3 : NoDup (key_of p3 <$> LangChain_reverts import_from))
    by (by rewrite (key_of_fmap_ext p p3)).
  assert (Hclean3 : forall y, y ∈ LangChain_reverts import_from ->
            stored p3 (key_of p3 y) = None).
  { intros y Hy. rewrite Hstore, Hkey. by apply Hclean. }
  destruct (revert_nothing_stored _ p3 Hnodup3 Hclean3) as [Hattr4 Hstore4].
  split.
  - intros cls method_name f Hin.
    etrans; [exact (Hattr4 (cls, method_name))|exact (Hattr _ Hin)].
  - apply map_eq. intros k. unfold stored in Hstore4, Hstore.
    by rewrite Hstore4, Hstore.
Qed.

Lemma and_then_Raise c1 c2 p e p2 :
  and_then c1 c2 p = (Raise e, p2) ->
  c1 p = (Raise e, p2) \/ exists p1, c1 p = (Ret tt, p1) /\ c2 p1 = (Raise e, p2).
Proof.
  unfold and_then. destruct (c1 p) as [[[]|e1] p1]; [|by left].
  intros H. right. by exists p1.
Qed.

Lemma try_import_Raise handled imported body p e p1 :
  try_import handled imported body p = (Raise e, p1) ->
  imported = Raise e /\ handled e = false.
Proof.
  unfold try_import. destruct imported as [cls|e']; [discriminate|].
  destruct (handled e') eqn:He; [discriminate|]. by intros [= <- _].
Qed.

Local Ltac find_raise H :=
  repeat (apply and_then_Raise in H as [H|(? & _ & H)]);
  apply try_import_Raise in H as [_ H].

(** X24: What the patching methods of the LangChain and LlamaIndex
    instrumentors never raise: [LangChainInstrumentor._instrument] neither
    an [ImportError] nor an [AttributeError], and the other three no
    [ImportError]. *)
Theorem instrumentors_never_raise_ImportError p e p' :
  (LangChain_instrument import_from p = (Raise e, p') ->
   isinstance_exn e "ImportError" = false /\
   isinstance_exn e "AttributeError" = false) /\
  (LangChain_uninstrument import_from p = (Raise e, p') ->
   isinstance_exn e "ImportError" = false) /\
  (LlamaIndex_instrument import_from import_module p = (Raise e, p') ->
   isinstance_exn e "ImportError" = false) /\
  (LlamaIndex_uninstrument import_from import_module p = (Raise e, p') ->
   isinstance_exn e "ImportError" = false).
Proof.
  assert (Hsafe : forall module_name e0,
            safe_import import_module module_name = Raise e0 ->
            isinstance_exn e0 "ImportError" = false).
  { intros module_name e0. unfold safe_import, Base.safe_import; simpl.
    destruct (import_module module_name) as [v|e1]; simpl; [discriminate|].
    destruct (isinstance_exn e1 "ImportError") eqn:He1; simpl; [discriminate|].
    by intros [= <-]. }
  split; [|split; [|split]].
  - unfold LangChain_instrument. intros H. find_raise H.
    all: by apply orb_false_elim in H.
  - unfold LangChain_uninstrument. intros H. find_raise H. all: exact H.
  - unfold LlamaIndex_instrument.
    destruct (safe_import import_module "llama_index.core") as [core|e1] eqn:Hcore.
    + destruct (safe_import import_module "llama_index") as [legacy|e2] eqn:Hlegacy.
      * unfold LlamaIndex_instrument_blocks. intros H. find_raise H.
        all: by apply orb_false_elim in H as [H _].
      * intros [= <- _]. by eapply Hsafe.
    + intros [= <- _]. by eapply Hsafe.
  - unfold LlamaIndex_uninstrument.
    destruct (safe_import import_module "llama_index.core") as [core|e1] eqn:Hcore.
    + unfold LlamaIndex_uninstrument_blocks. intros H. find_raise H. all: exact H.
    + intros [= <- _]. by eapply Hsafe.
Qed.

End InstrumentorFacts.

Lemma LangChain_instrument_wraps_witness :
  let p1 := (Patches.LangChain_instrument Scenarios.langchain_import_from
               Scenarios.langchain_process).2 in
  Base.getattr (Patches.heap p1 1%nat) "invoke"
    = Some (Patches.Wrapped (Patches.Method Wrappers.LangChain_retriever_invoke)
              (Patches.Native 2)) /\
  Patches._original_methods p1 !! "langchain_core.retrievers.BaseRetriever.invoke"
    = Some (Patches.Native 2) /\
  Base.getattr (Patches.heap p1 1%nat) "ainvoke" = None.
Proof.
  cbv zeta.
  assert (Hnodup : NoDup (Patches.key_of Scenarios.langchain_process <$>
                            (Patches.LangChain_patches
                               Scenarios.langchain_import_from).*1)).
  { refine (bool_decide_unpack _ _); vm_compute; exact I. }
  destruct (LangChain_instrument_wraps Scenarios.langchain_import_from
              Scenarios.langchain_process
              (Patches.LangChain_instrument Scenarios.langchain_import_from
                 Scenarios.langchain_process).2 eq_refl Hnodup)
    as (Hattr & Hsaved & Hframe & _).
  split; [|split].
  - apply (Hattr 1%nat "invoke" (Patches.Method Wrappers.LangChain_retriever_invoke)).
    vm_compute. do 2 apply list_elem_of_further. apply list_elem_of_here.
  - apply (Hsaved 1%nat "invoke" (Patches.Method Wrappers.LangChain_retriever_invoke)
                  (Patches.Native 2)).
    + vm_compute. do 2 apply list_elem_of_further. apply list_elem_of_here.
    + reflexivity.
  - apply (Hframe 1%nat "ainvoke").
    refine (bool_decide_unpack _ _); vm_compute; exact I.
Defined.

Lemma LangChain_uninstrument_restores_witness :
  let p2 := (Patches.LangChain_uninstrument Scenarios.langchain_import_from
               (Patches.LangChain_instrument Scenarios.langchain_import_from
                  Scenarios.langchain_process).2).2 in
  (forall cls method_name,
     Base.getattr (Patches.heap p2 cls) method_name
       = Base.getattr (Scenarios.langchain_heap cls) method_name) /\
  Patches._original_methods p2 = ∅.
Proof.
  cbv zeta.
  apply (LangChain_uninstrument_restores Scenarios.langchain_import_from
           Scenarios.langchain_process
           (Patches.LangChain_instrument Scenarios.langchain_import_from
              Scenarios.langchain_process).2).
  - vm_compute; reflexivity.
  - vm_compute; reflexivity.
  - refine (bool_decide_unpack _ _); vm_compute; exact I.
  - intros y _. reflexivity.
Defined.

Lemma LangChain_two_instances_keep_wrapper_witness :
  let c := Patches.LangChainInstrumentor Scenarios.langchain_import_from
             Scenarios.langchain_import_module in
  exists p1 p2 p3 p4,
    Base.instrument (Base.new_instrumentor c) Scenarios.langchain_process
      = (Ret true, Base.Instrumentor c true, p1) /\
    Base.instrument (Base.new_instrumentor c) p1
      = (Ret true, Base.Instrumentor c true, p2) /\
    Base.uninstrument (Base.Instrumentor c true) p2
      = (Ret true, Base.new_instrumentor c, p3) /\
    Base.uninstrument (Base.Instrumentor c true) p3
      = (Ret true, Base.new_instrumentor c, p4) /\
    Base.getattr (Patches.heap p4 0%nat) "invoke"
      = Some (Patches.Wrapped (Patches.Method Wrappers.LangChain_llm_invoke)
                (Patches.Native 0)).
Proof.
  cbv zeta.
  destruct (LangChain_two_instances_keep_wrapper Scenarios.langchain_import_from
              Scenarios.langchain_import_module Scenarios.langchain_process
              (PObj "module" []))
    as (p1 & p2 & p3 & p4 & H1 & H2 & H3 & H4 & Hattr & _).
  - reflexivity.
  - reflexivity.
  - intros module name e. unfold Scenarios.langchain_import_from.
    repeat match goal with |- context [if ?c then _ else _] => destruct c end;
      try discriminate.
    intros [= <-]. reflexivity.
  - refine (bool_decide_unpack _ _); vm_compute; exact I.
  - intros y _. reflexivity.
  - exists p1, p2, p3, p4. repeat (split; [assumption|]).
    apply (Hattr 0%nat "invoke" (Patches.Method Wrappers.LangChain_llm_invoke)).
    vm_compute. apply list_elem_of_here.
Defined.

Lemma LangChainInstrumentor_instrument_succeeds_witness :
  let c := Patches.LangChainInstrumentor Scenarios.langchain_import_from
             Scenarios.langchain_import_module in
  Base.instrument (Base.new_instrumentor c) Scenarios.langchain_process
    = (Ret true, Base.Instrumentor c true,
       foldl Patches.apply_patch Scenarios.langchain_process
         (Patches.LangChain_patches Scenarios.langchain_import_from)).
Proof.
  apply (LangChainInstrumentor_instrument_succeeds Scenarios.langchain_import_from
           Scenarios.langchain_import_module Scenarios.langchain_process
           (PObj "module" [])).
  - reflexivity.
  - reflexivity.
  - intros module name e. unfold Scenarios.langchain_import_from.
    repeat match goal with |- context [if ?c then _ else _] => destruct c end;
      try discriminate.
    intros [= <-]. reflexivity.
Defined.

Lemma LlamaIndex_uninstrument_restores_witness :
  let p2 := (Patches.LlamaIndex_uninstrument Scenarios.llamaindex_import_from
               Scenarios.llamaindex_import_module
               (Patches.LlamaIndex_instrument Scenarios.llamaindex_import_from
                  Scenarios.llamaindex_import_module
                  Scenarios.llamaindex_process).2).2 in
  (forall cls method_name,
     Base.getattr (Patches.heap p2 cls) method_name
       = Base.getattr (Scenarios.llamaindex_heap cls) method_name) /\
  Patches._original_methods p2 = ∅.
Proof.
  cbv zeta.
  apply (LlamaIndex_uninstrument_restores Scenarios.llamaindex_import_from
           Scenarios.llamaindex_import_module Scenarios.llamaindex_process
           (Patches.LlamaIndex_instrument Scenarios.llamaindex_import_from
              Scenarios.llamaindex_import_module Scenarios.llamaindex_process).2
           _ (PObj "module" [])).
  - vm_compute; reflexivity.
  - vm_compute; reflexivity.
  - vm_compute; reflexivity.
  - refine (bool_decide_unpack _ _); vm_compute; exact I.
  - intros y _. reflexivity.
Defined.

Lemma instrumentors_never_raise_ImportError_witness :
  isinstance_exn
    (Examples.ValueError
       "error while importing langchain_core.language_models.chat_models")
    "ImportError" = false.
Proof.
  apply (proj1 (instrumentors_never_raise_ImportError Scenarios.broken_import_from
                  Scenarios.langchain_import_module Scenarios.langchain_process
                  (Examples.ValueError
                     "error while importing langchain_core.language_models.chat_models")
                  Scenarios.langchain_process)).
  reflexivity.
Defined.

(** *** OpenAI, Anthropic and Google *)

Section ModuleInstrumentorFacts.
Import Patches.
Variable import_from : string -> string -> outcome nat.
Variable import_module : string -> outcome pyval.
Variable import_object : string -> outcome nat.
Variable attribute : nat -> string -> option nat.
Implicit Types (p q : process) (x : patch) (y : nat * string).

Lemma class_patches_cons guard imported c classes :
  class_patches attribute guard imported (c :: classes)
  = class_patches attribute guard imported [c]
    ++ class_patches attribute guard imported classes.
Proof.
  unfold class_patches. destruct guard; [|reflexivity].
  destruct imported as [module|e]; [|reflexivity]. simpl.
  by destruct (attribute module c.1).
Qed.

Lemma guarded_wrap_Ret guard imported class_name f p p1 :
  guarded_import guard imported
    (fun module =>
       on_class attribute module class_name (fun cls => wrap_class cls "create" f)) p
  = (Ret tt, p1) ->
  p1 = foldl apply_patch p (class_patches attribute guard imported [(class_name, f)]).
Proof.
  unfold guarded_import, class_patches, on_class.
  destruct guard; [|by intros [= <-]].
  destruct imported as [module|e]; [|discriminate].
  intros [= <-]. simpl. by destruct (attribute module class_name).
Qed.

Lemma guarded_unwrap_Ret guard imported c1 f1 c2 f2 p p1 :
  guarded_import guard imported
    (fun module p =>
       on_class attribute module c2 (fun cls => unwrap_class cls "create")
         (on_class attribute module c1 (fun cls => unwrap_class cls "create") p)) p
  = (Ret tt, p1) ->
  p1 = foldl revert_patch p
         (class_patches attribute guard imported [(c1, f1); (c2, f2)]).*1.
Proof.
  unfold guarded_import, class_patches, on_class.
  destruct guard; [|by intros [= <-]].
  destruct imported as [module|e]; [|discriminate].
  intros [= <-]. simpl.
  by destruct (attribute module c1), (attribute module c2).
Qed.

Lemma OpenAI_instrument_Ret p p1 :
  OpenAI_instrument import_from import_object attribute p = (Ret tt, p1) ->
  exists openai,
    import_object "openai" = Ret openai /\
    p1 = foldl apply_patch p (OpenAI_patches import_from attribute openai).
Proof.
  unfold OpenAI_instrument, OpenAI_patches.
  destruct (import_object "openai") as [openai|e]; [|discriminate].
  intros H. exists openai. split; [reflexivity|].
  apply and_then_Ret in H as (p0 & ->%guarded_wrap_Ret & H).
  apply and_then_Ret in H as (p2 & ->%guarded_wrap_Ret & H).
  apply and_then_Ret in H as (p3 & ->%guarded_wrap_Ret & ->%guarded_wrap_Ret).
  rewrite (class_patches_cons _ _ ("Completions", _) [_]),
          (class_patches_cons _ _ ("Embeddings", _) [_]).
  by rewrite !foldl_app.
Qed.

Lemma OpenAI_uninstrument_Ret p p1 :
  OpenAI_uninstrument import_from import_object attribute p = (Ret tt, p1) ->
  exists openai,
    import_object "openai" = Ret openai /\
    p1 = foldl revert_patch p (OpenAI_patches import_from attribute openai).*1.
Proof.
  unfold OpenAI_uninstrument, OpenAI_patches.
  destruct (import_object "openai") as [openai|e]; [|discriminate].
  intros H. exists openai. split; [reflexivity|].
  apply and_then_Ret in H as (p0 & H0 & H).
  apply (guarded_unwrap_Ret _ _ _ (Function (Wrappers.OpenAI_chat false))
           _ (Function (Wrappers.OpenAI_chat true))) in H0 as ->.
  apply (guarded_unwrap_Ret _ _ _ (Function (Wrappers.OpenAI_embedding false))
           _ (Function (Wrappers.OpenAI_embedding true))) in H as ->.
  by rewrite fmap_app, foldl_app.
Qed.

Lemma Anthropic_instrument_Ret p p1 :
  Anthropic_instrument import_from import_object attribute p = (Ret tt, p1) ->
  exists anthropic,
    import_object "anthropic" = Ret anthropic /\
    p1 = foldl apply_patch p (Anthropic_patches import_from attribute anthropic).
Proof.
  unfold Anthropic_instrument, Anthropic_patches.
  destruct (import_object "anthropic") as [anthropic|e]; [|discriminate].
  intros H. exists anthropic. split; [reflexivity|].
  apply and_then_Ret in H as (p0 & ->%guarded_wrap_Ret & ->%guarded_wrap_Ret).
  rewrite (class_patches_cons _ _ ("Messages", _) [_]).
  by rewrite !foldl_app.
Qed.

Lemma Anthropic_uninstrument_Ret p p1 :
  Anthropic_uninstrument import_from import_object attribute p = (Ret tt, p1) ->
  exists anthropic,
    import_object "anthropic" = Ret anthropic /\
    p1 = foldl revert_patch p (Anthropic_patches import_from attribute anthropic).*1.
Proof.
  unfold Anthropic_uninstrument, Anthropic_patches.
  destruct (import_object "anthropic") as [anthropic|e]; [|discriminate].
  intros H. exists anthropic. split; [reflexivity|].
  by apply (guarded_unwrap_Ret _ _ _ (Function (Wrappers.Anthropic_messages false))
              _ (Function (Wrappers.Anthropic_messages true))) in H as ->.
Qed.

(** X25: [OpenAIInstrumentor._instrument] followed by [_uninstrument], both
    returning, restores every attribute of every class and leaves the
    store as it was, when the patched methods have distinct keys and the
    store holds none of these keys beforehand. *)
Theorem OpenAI_uninstrument_restores p p1 p2 openai :
  import_object "openai" = Ret openai ->
  OpenAI_instrument import_from import_object attribute p = (Ret tt, p1) ->
  OpenAI_uninstrument import_from import_object attribute p1 = (Ret tt, p2) ->
  NoDup (key_of p <$> (OpenAI_patches import_from attribute openai).*1) ->
  (forall y, y ∈ (OpenAI_patches import_from attribute openai).*1 ->
     _original_methods p !! key_of p y = None) ->
  (forall cls method_name,
     Base.getattr (heap p2 cls) method_name
       = Base.getattr (heap p cls) method_name) /\
  _original_methods p2 = _original_methods p.
Proof.
  intros Himp (m1 & Hm1 & ->)%OpenAI_instrument_Ret
         (m2 & Hm2 & ->)%OpenAI_uninstrument_Ret Hnodup Hclean.
  assert (m1 = openai) as -> by congruence.
  assert (m2 = openai) as -> by congruence.
  destruct (apply_revert_restores _ _ p (reflexivity _) Hnodup Hclean)
    as (Hattr & Hstore & _).
  split.
  - intros cls m. exact (Hattr (cls, m)).
  - apply map_eq. exact Hstore.
Qed.

(** X26: [AnthropicInstrumentor._instrument] followed by [_uninstrument],
    both returning, restores every attribute of every class and leaves the
    store as it was, under the same conditions. *)
Theorem Anthropic_uninstrument_restores p p1 p2 anthropic :
  import_object "anthropic" = Ret anthropic ->
  Anthropic_instrument import_from import_object attribute p = (Ret tt, p1) ->
  Anthropic_uninstrument import_from import_object attribute p1 = (Ret tt, p2) ->
  NoDup (key_of p <$> (Anthropic_patches import_from attribute anthropic).*1) ->
  (forall y, y ∈ (Anthropic_patches import_from attribute anthropic).*1 ->
     _original_methods p !! key_of p y = None) ->
  (forall cls method_name,
     Base.getattr (heap p2 cls) method_name
       = Base.getattr (heap p cls) method_name) /\
  _original_methods p2 = _original_methods p.
Proof.
  intros Himp (m1 & Hm1 & ->)%Anthropic_instrument_Ret
         (m2 & Hm2 & ->)%Anthropic_uninstrument_Ret Hnodup Hclean.
  assert (m1 = anthropic) as -> by congruence.
  assert (m2 = anthropic) as -> by congruence.
  destruct (apply_revert_restores _ _ p (reflexivity _) Hnodup Hclean)
    as (Hattr & Hstore & _).
  split.
  - intros cls m. exact (Hattr (cls, m)).
  - apply map_eq. exact Hstore.
Qed.

Lemma Google_block_patches cls f g p :
  (let p := wrap_class cls "generate_content" f p in
   if Base.hasattr (heap p cls) "generate_content_async"
   then wrap_class cls "generate_content_async" g p else p)
  = foldl apply_patch p
      ((cls, "generate_content", f) ::
       (if Base.hasattr (heap p cls) "generate_content_async"
        then [(cls, "generate_content_async", g)] else [])).
Proof.
  cbv zeta.
  destruct (apply_patch_spec p (cls, "generate_content", f)) as (_ & Hframe & _).
  specialize (Hframe (cls, "generate_content_async")).
  unfold attr_of, apply_patch in Hframe.
  simpl in Hframe. unfold Base.hasattr. rewrite Hframe by congruence.
  by case_bool_decide.
Qed.

Lemma Google_instrument_Ret p p1 :
  Google_instrument import_from import_object p = (Ret tt, p1) ->
  exists genai,
    import_object "google.generativeai" = Ret genai /\
    p1 = patch_embed_content genai
           (foldl apply_patch p (Google_patches import_from p)).
Proof.
  unfold Google_instrument, Google_patches.
  destruct (import_object "google.generativeai") as [genai|e]; [|discriminate].
  intros H. exists genai. split; [reflexivity|].
  apply and_then_Ret in H as (p0 & Hblock & [= <-]). f_equal.
  unfold instrument_block, try_import in Hblock.
  destruct (import_from "google.generativeai" "GenerativeModel") as [cls|e].
  - injection Hblock as <-. apply Google_block_patches.
  - destruct (_ || _); [by injection Hblock as <-|discriminate].
Qed.

Lemma Google_uninstrument_Ret p p2 genai :
  import_object "google.generativeai" = Ret genai ->
  Google_uninstrument import_from import_object p = (Ret tt, p2) ->
  p2 = restore_embed_content genai
         (foldl revert_patch p (Google_reverts import_from)).
Proof.
  unfold Google_uninstrument, Google_reverts. intros Himp H.
  apply and_then_Ret in H as (p0 & Hblock & H).
  apply (uninstrument_block_Ret _ ["generate_content"; "generate_content_async"])
    in Hblock; [subst p0|reflexivity].
  rewrite Himp in H. by injection H as <-.
Qed.

Lemma Google_patches_reverts p :
  (Google_patches import_from p).*1 `sublist_of` Google_reverts import_from.
Proof.
  unfold Google_patches, Google_reverts, reverts_of.
  destruct (import_from "google.generativeai" "GenerativeModel") as [cls|e];
    [|reflexivity].
  simpl. destruct (Base.hasattr _ _); simpl; [reflexivity|].
  apply sublist_skip, sublist_cons, sublist_nil.
Qed.

Lemma Google_reverts_names y :
  y ∈ Google_reverts import_from -> y.2 <> "embed_content".
Proof.
  unfold Google_reverts, reverts_of.
  destruct (import_from "google.generativeai" "GenerativeModel") as [cls|e];
    simpl.
  - intros [->|[->|[]%elem_of_nil]%elem_of_cons]%elem_of_cons; discriminate.
  - by intros []%elem_of_nil.
Qed.

(** X27: [GoogleAIInstrumentor._instrument] followed by [_uninstrument],
    both returning, restores every attribute of the class and of the
    module and leaves the store as it was, when the keys of the two
    [GenerativeModel] methods are distinct from each other and from
    ["genai.embed_content"], and the store holds none of the three
    beforehand. *)
Theorem Google_uninstrument_restores p p1 p2 :
  Google_instrument import_from import_object p = (Ret tt, p1) ->
  Google_uninstrument import_from import_object p1 = (Ret tt, p2) ->
  NoDup ("genai.embed_content" :: (key_of p <$> Google_reverts import_from)) ->
  (forall y, y ∈ Google_reverts import_from ->
     _original_methods p !! key_of p y = None) ->
  _original_methods p !! "genai.embed_content" = None ->
  (forall obj name,
     Base.getattr (heap p2 obj) name = Base.getattr (heap p obj) name) /\
  _original_methods p2 = _original_methods p.
Proof.
  intros (genai & Himp & ->)%Google_instrument_Ret Hun
         [Hfresh Hnodup]%NoDup_cons Hclean Hembed.
  apply (Google_uninstrument_Ret _ _ genai Himp) in Hun as ->.
  set (patches := Google_patches import_from p).
  set (reverts := Google_reverts import_from) in *.
  assert (Hsub : patches.*1 `sublist_of` reverts) by apply Google_patches_reverts.
  assert (Hnodup1 : NoDup (key_of p <$> patches.*1)).
  { eapply sublist_NoDup; [exact Hnodup|by apply fmap_sublist]. }
  destruct (apply_patches_spec patches p Hnodup1)
    as (Hkey1 & Hframe1 & _ & Hstore1 & _).
  set (p1 := foldl apply_patch p patches) in *.
  destruct (patch_embed_content_spec genai p1)
    as (Hkeyq & Hframeq & Hattrq & Hstoreq & Hsavedq).
  set (q := patch_embed_content genai p1) in *.
  assert (Hout : (genai, "embed_content") ∉ reverts).
  { intros Hin. by apply Google_reverts_names in Hin. }
  assert (Hout1 : (genai, "embed_content") ∉ patches.*1).
  { intros Hin. apply Hout. by eapply elem_of_sublist. }
  assert (Hfresh1 : "genai.embed_content" ∉ key_of p <$> patches.*1).
  { intros Hin. apply Hfresh. eapply elem_of_sublist; [exact Hin|].
    by apply fmap_sublist. }
  destruct (revert_after_apply patches reverts p q Hsub Hnodup Hclean)
    as (Hattr2 & Hframe2 & Hstore2 & Hkeep2 & Hkey2).
  { intros y. by rewrite Hkeyq, Hkey1. }
  { intros y Hy. apply Hframeq. intros ->. by apply Hout. }
  { intros y Hy. apply Hstoreq. intros Heq. apply Hfresh. rewrite <- Heq.
    by apply list_elem_of_fmap_2. }
  set (q2 := foldl revert_patch q reverts) in *.
  destruct (restore_embed_content_spec genai q2)
    as (_ & Hframe3 & Hattr3 & Hstore3 & Hgone3).
  assert (Hstored : stored q2 "genai.embed_content"
                    = attr_of p (genai, "embed_content")).
  { rewrite (Hkeep2 _ Hfresh), Hsavedq, (Hframe1 _ Hout1), (Hstore1 _ Hfresh1).
    unfold stored at 1. rewrite Hembed. by destruct (attr_of p _). }
  split.
  - intros obj name. change (attr_of (restore_embed_content genai q2) (obj, name)
                             = attr_of p (obj, name)).
    destruct (decide ((obj, name) = (genai, "embed_content"))) as [->|Hne].
    + rewrite Hattr3, Hstored.
      destruct (attr_of p (genai, "embed_content")) as [g|] eqn:Hget;
        [reflexivity|].
      by rewrite (Hframe2 _ Hout), Hattrq, (Hframe1 _ Hout1), Hget.
    + rewrite (Hframe3 _ Hne).
      destruct (decide ((obj, name) ∈ reverts)) as [Hin|Hnot].
      * by apply Hattr2.
      * rewrite (Hframe2 _ Hnot), (Hframeq _ Hne). apply Hframe1.
        intros Hin. apply Hnot. by eapply elem_of_sublist.
  - apply map_eq. intros k.
    change (stored (restore_embed_content genai q2) k = stored p k).
    destruct (decide (k = "genai.embed_content")) as [->|Hne].
    + rewrite Hgone3. unfold stored. by rewrite Hembed.
    + rewrite (Hstore3 _ Hne).
      destruct (decide (k ∈ key_of p <$> reverts)) as [Hin|Hnot].
      * by apply Hstore2.
      * rewrite (Hkeep2 _ Hnot), (Hstoreq _ Hne). apply Hstore1.
        intros Hin. apply Hnot. eapply elem_of_sublist; [exact Hin|].
        by apply fmap_sublist.
Qed.

Lemma has_resource_resources module name :
  has_resource attribute module name = true -> has_resources attribute module = true.
Proof.
  unfold has_resource, has_resources.
  destruct (attribute module "resources"); [|discriminate].
  intros _. apply bool_decide_eq_true_2. eauto.
Qed.

(** X28: a failed [instrument()] is not rolled back.  When the chat
    module of the OpenAI SDK imports and the import of its embeddings
    module raises an instance of [Exception], [instrument()] on a fresh
    OpenAI instrumentor returns false and leaves the instance not
    installed, with the [create] methods of the chat classes wrapped; an
    [uninstrument()] on that instance then returns true and reverts
    nothing. *)
Theorem OpenAI_failed_instrument_keeps_patches p m openai completions e :
  import_module "openai" = Ret m ->
  is_not_None m = true ->
  import_object "openai" = Ret openai ->
  has_resource attribute openai "chat" = true ->
  import_from "openai.resources.chat" "completions" = Ret completions ->
  import_from "openai.resources" "embeddings" = Raise e ->
  isinstance_exn e "Exception" = true ->
  let c := OpenAIInstrumentor import_from import_module import_object attribute in
  let p' :=
    foldl apply_patch p
      (class_patches attribute true (Ret completions)
         [("Completions", Function (Wrappers.OpenAI_chat false));
          ("AsyncCompletions", Function (Wrappers.OpenAI_chat true))]) in
  Base.instrument (Base.new_instrumentor c) p = (Ret false, Base.new_instrumentor c, p') /\
  Base.uninstrument (Base.new_instrumentor c) p' = (Ret true, Base.new_instrumentor c, p') /\
  (forall cls original,
     attribute completions "Completions" = Some cls ->
     attribute completions "AsyncCompletions" = None ->
     Base.getattr (heap p cls) "create" = Some original ->
     Base.getattr (heap p' cls) "create"
       = Some (Wrapped (Function (Wrappers.OpenAI_chat false)) original)).
Proof.
  intros Hprobe Hm Himp Hchat Hcompletions Hembeddings He; cbv zeta.
  pose proof (has_resource_resources _ _ Hchat) as Hres.
  split; [|split].
  - unfold Base.instrument; simpl.
    unfold Base.OpenAIInstrumentor_check_installed, Base.probe_one,
      Base.safe_import, import_in.
    rewrite Hprobe, Hm.
    unfold OpenAI_instrument, and_then, guarded_import.
    rewrite Himp, Hchat, Hres, Hcompletions, Hembeddings, He.
    unfold class_patches, on_class; simpl.
    by destruct (attribute completions "Completions"),
                (attribute completions "AsyncCompletions").
  - reflexivity.
  - intros cls original Hcls Hasync Hget.
    unfold class_patches; simpl. rewrite Hcls, Hasync; simpl.
    unfold apply_patch, wrap_class, Base.wrap_method; simpl.
    rewrite Hget; simpl. by rewrite update_eq, getattr_setattr_eq.
Qed.

End ModuleInstrumentorFacts.

Lemma OpenAI_uninstrument_restores_witness :
  let p2 := (Patches.OpenAI_uninstrument Scenarios.sdk_import_from
               Scenarios.sdk_import_object Scenarios.sdk_attribute
               (Patches.OpenAI_instrument Scenarios.sdk_import_from
                  Scenarios.sdk_import_object Scenarios.sdk_attribute
                  Scenarios.sdk_process).2).2 in
  (forall cls method_name,
     Base.getattr (Patches.heap p2 cls) method_name
       = Base.getattr (Scenarios.sdk_heap cls) method_name) /\
  Patches._original_methods p2 = ∅.
Proof.
  cbv zeta.
  apply (OpenAI_uninstrument_restores Scenarios.sdk_import_from
           Scenarios.sdk_import_object Scenarios.sdk_attribute
           Scenarios.sdk_process
           (Patches.OpenAI_instrument Scenarios.sdk_import_from
              Scenarios.sdk_import_object Scenarios.sdk_attribute
              Scenarios.sdk_process).2 _ 0%nat).
  - vm_compute; reflexivity.
  - vm_compute; reflexivity.
  - vm_compute; reflexivity.
  - refine (bool_decide_unpack _ _); vm_compute; exact I.
  - intros y _. reflexivity.
Defined.

Lemma Anthropic_uninstrument_restores_witness :
  let p2 := (Patches.Anthropic_uninstrument Scenarios.sdk_import_from
               Scenarios.sdk_import_object Scenarios.sdk_attribute
               (Patches.Anthropic_instrument Scenarios.sdk_import_from
                  Scenarios.sdk_import_object Scenarios.sdk_attribute
                  Scenarios.sdk_process).2).2 in
  (forall cls method_name,
     Base.getattr (Patches.heap p2 cls) method_name
       = Base.getattr (Scenarios.sdk_heap cls) method_name) /\
  Patches._original_methods p2 = ∅.
Proof.
  cbv zeta.
  apply (Anthropic_uninstrument_restores Scenarios.sdk_import_from
           Scenarios.sdk_import_object Scenarios.sdk_attribute
           Scenarios.sdk_process
           (Patches.Anthropic_instrument Scenarios.sdk_import_from
              Scenarios.sdk_import_object Scenarios.sdk_attribute
              Scenarios.sdk_process).2 _ 10%nat).
  - vm_compute; reflexivity.
  - vm_compute; reflexivity.
  - vm_compute; reflexivity.
  - refine (bool_decide_unpack _ _); vm_compute; exact I.
  - intros y _. reflexivity.
Defined.

Lemma Google_uninstrument_restores_witness :
  let p2 := (Patches.Google_uninstrument Scenarios.sdk_import_from
               Scenarios.sdk_import_object
               (Patches.Google_instrument Scenarios.sdk_import_from
                  Scenarios.sdk_import_object Scenarios.sdk_process).2).2 in
  (forall obj name,
     Base.getattr (Patches.heap p2 obj) name
       = Base.getattr (Scenarios.sdk_heap obj) name) /\
  Patches._original_methods p2 = ∅.
Proof.
  cbv zeta.
  apply (Google_uninstrument_restores Scenarios.sdk_import_from
           Scenarios.sdk_import_object Scenarios.sdk_process
           (Patches.Google_instrument Scenarios.sdk_import_from
              Scenarios.sdk_import_object Scenarios.sdk_process).2).
  - vm_compute; reflexivity.
  - vm_compute; reflexivity.
  - refine (bool_decide_unpack _ _); vm_compute; exact I.
  - intros y _. reflexivity.
  - vm_compute; reflexivity.
Defined.

Lemma OpenAI_failed_instrument_keeps_patches_witness :
  let c := Patches.OpenAIInstrumentor Scenarios.sdk_broken_import_from
             Scenarios.sdk_import_module Scenarios.sdk_import_object
             Scenarios.sdk_attribute in
  exists p',
    Base.instrument (Base.new_instrumentor c) Scenarios.sdk_process
      = (Ret false, Base.new_instrumentor c, p') /\
    Base.uninstrument (Base.new_instrumentor c) p'
      = (Ret true, Base.new_instrumentor c, p').
Proof.
  cbv zeta.
  destruct (OpenAI_failed_instrument_keeps_patches
              Scenarios.sdk_broken_import_from Scenarios.sdk_import_module
              Scenarios.sdk_import_object Scenarios.sdk_attribute
              Scenarios.sdk_process (PObj "module" []) 0%nat 3%nat
              (Examples.ValueError
                 "error while importing openai.resources.embeddings")
              eq_refl eq_refl eq_refl eq_refl eq_refl eq_refl eq_refl)
    as (Hin & Hun & _).
  eexists. split; [exact Hin | exact Hun].
Defined.
